(** * Watch backend: telemetry aggregation, estimation and validation

    A shallow embedding of [src/routes/health.js] (the ESP32 controller:
    latest-position view, history views, status cache, composite and
    combined health views, range classifiers, blood-pressure estimator,
    reading validator, average heart rate, change test, measurement store
    and weekly report) and of the schema in [src/models/Health.js].

    Conventions of the embedding.
    - A JavaScript number is a [Num]: a rational, or one of [Infinity],
      [-Infinity], [NaN].  Every result of [+], [-], [*], [/] and [**] is
      the exact result rounded to binary64 as IEEE 754 has it: to the
      nearest value, ties to the even significand, with subnormal
      numbers, underflow to 0 and overflow to infinity; [x ** 2] is taken
      as the correctly rounded square, and a literal such as [0.3] is the
      binary64 value nearest to it.  The special values follow IEEE 754 as
      JavaScript does.  The only divisions of the program are by [100] and
      by a square, so the sign of zero is not needed.
    - A field that the code only tests for truthiness, copies or spreads is
      a [JsVal].  A field that the code compares or computes with is typed
      as the data model types it ([option Num], [None] being [undefined]),
      so that no string is ever coerced to a number.
    - An object is a finite map from keys to values; the order of its keys
      is not kept.
    - Asynchronous reads and writes are results handed to the handler by
      its environment: a value, or a rejection that lands in [catch].
    - The clock ([Date.now()], [new Date()]) is read from the environment
      as epoch milliseconds; clock reads that no [await] separates see the
      same instant.
    - User identifiers are well-formed ObjectIds whenever they are not
      empty. *)

From Stdlib Require Import ZArith QArith Qround Qabs Qpower Lia Lqa Ascii String.
From stdpp Require Import gmap strings list sorting.

Set Warnings "-register-all".

(** ** JavaScript numbers *)

Local Open Scope Q_scope.

Inductive Num : Type :=
| Finite (q : Q)
| PosInf
| NegInf
| NaN.

(** *** Rounding to binary64

    A binary64 value is [m * 2^e] with [|m| < 2^53] and [-1074 <= e]; the
    values from [2^1024] on are infinite. *)

(** [2^e] *)
Definition pow2 (e : Z) : Q := 2 ^ e.

(** The binade of a positive rational: the [k] with [2^k <= a < 2^(k+1)] *)
Definition ilog2 (a : Q) : Z :=
  let c := (Z.log2 (Qnum a) - Z.log2 (Zpos (Qden a)))%Z in
  if Qle_bool (pow2 c) a then c else (c - 1)%Z.

(** The integer nearest to [y], ties to the even one *)
Definition rne (y : Q) : Z :=
  let f := Qfloor y in
  match Qcompare (y - inject_Z f) (1 # 2) with
  | Lt => f
  | Gt => (f + 1)%Z
  | Eq => if Z.even f then f else (f + 1)%Z
  end.

(** The exponent of the unit in the last place of a positive rational:
    53 significant bits, and no step finer than [2^-1074] *)
Definition exponent (a : Q) : Z := Z.max (ilog2 a - 52) (-1074).

(** A positive rational rounded to the values of its binade *)
Definition nearest64 (a : Q) : Q :=
  inject_Z (rne (a / pow2 (exponent a))) * pow2 (exponent a).

(** Round to nearest, ties to even; the result is kept in lowest terms, so
    that equal numbers are equal terms. *)
Definition round64 (q : Q) : Num :=
  match Qcompare q 0 with
  | Eq => Finite 0
  | Gt => let r := nearest64 q in
          if Qle_bool (pow2 1024) r then PosInf else Finite (Qred r)
  | Lt => let r := nearest64 (- q) in
          if Qle_bool (pow2 1024) r then NegInf else Finite (Qred (- r))
  end.

(** The finite result of an operation whose exact value is [q] *)
Definition fin (q : Q) : Num := round64 q.

Definition num_of_Z (z : Z) : Num := Finite (inject_Z z).

Definition Qltb (a b : Q) : bool := negb (Qle_bool b a).

(** [a < b] *)
Definition num_lt (a b : Num) : bool :=
  match a, b with
  | NaN, _ | _, NaN => false
  | Finite x, Finite y => Qltb x y
  | NegInf, NegInf => false
  | NegInf, _ => true
  | _, NegInf => false
  | PosInf, _ => false
  | _, PosInf => true
  end.

(** [a <= b] *)
Definition num_le (a b : Num) : bool :=
  match a, b with
  | NaN, _ | _, NaN => false
  | Finite x, Finite y => Qle_bool x y
  | NegInf, _ => true
  | _, NegInf => false
  | _, PosInf => true
  | PosInf, _ => false
  end.

(** [a > b] and [a >= b] *)
Definition num_gt (a b : Num) : bool := num_lt b a.
Definition num_ge (a b : Num) : bool := num_le b a.

Definition num_neg (a : Num) : Num :=
  match a with
  | Finite x => fin (- x)
  | PosInf => NegInf
  | NegInf => PosInf
  | NaN => NaN
  end.

(** [a + b] *)
Definition num_add (a b : Num) : Num :=
  match a, b with
  | NaN, _ | _, NaN => NaN
  | Finite x, Finite y => fin (x + y)
  | PosInf, NegInf | NegInf, PosInf => NaN
  | PosInf, _ | _, PosInf => PosInf
  | NegInf, _ | _, NegInf => NegInf
  end.

(** [a - b] *)
Definition num_sub (a b : Num) : Num :=
  match a, b with
  | Finite x, Finite y => fin (x - y)
  | _, _ => num_add a (num_neg b)
  end.

(** The sign of a number that is not [NaN]: [Lt], [Eq] or [Gt] against 0. *)
Definition num_sign (a : Num) : comparison :=
  match a with
  | Finite x => x ?= 0
  | PosInf => Gt
  | NegInf => Lt
  | NaN => Eq
  end.

Definition inf_of_sign (s : comparison) : Num :=
  match s with
  | Gt => PosInf
  | Lt => NegInf
  | Eq => NaN
  end.

Definition sign_mul (s t : comparison) : comparison :=
  match s, t with
  | Eq, _ | _, Eq => Eq
  | Gt, Gt | Lt, Lt => Gt
  | Gt, Lt | Lt, Gt => Lt
  end.

(** [a * b] *)
Definition num_mul (a b : Num) : Num :=
  match a, b with
  | NaN, _ | _, NaN => NaN
  | Finite x, Finite y => fin (x * y)
  | _, _ => inf_of_sign (sign_mul (num_sign a) (num_sign b))
  end.

(** [a / b], for a divisor whose zero is [+0] *)
Definition num_div (a b : Num) : Num :=
  match a, b with
  | NaN, _ | _, NaN => NaN
  | Finite x, Finite y =>
      if Qeq_bool y 0 then inf_of_sign (x ?= 0) else fin (x / y)
  | Finite _, _ => Finite 0
  | _, Finite y =>
      match y ?= 0 with
      | Lt => num_neg a
      | _ => a
      end
  | _, _ => NaN
  end.

(** [a ** 2] *)
Definition num_sqr (a : Num) : Num :=
  match a with
  | NaN => NaN
  | Finite x => fin (x * x)
  | _ => PosInf
  end.

(** [Math.max(a, b)] *)
Definition Math_max (a b : Num) : Num :=
  match a, b with
  | NaN, _ | _, NaN => NaN
  | _, _ => if num_lt a b then b else a
  end.

(** [Math.round(a)]: the integer nearest to [a], halves rounded up *)
Definition Math_round (a : Num) : Num :=
  match a with
  | Finite x => num_of_Z (Qfloor (x + (1 # 2)))
  | _ => a
  end.

Local Close Scope Q_scope.
Local Open Scope Z_scope.

(** ** Truthiness *)

Class Truthy (A : Type) := truthy : A -> bool.

#[global] Instance num_truthy : Truthy Num := fun a =>
  match a with
  | Finite x => negb (Qeq_bool x 0%Q)
  | NaN => false
  | _ => true
  end.

#[global] Instance bool_truthy : Truthy bool := fun b => b.

#[global] Instance string_truthy : Truthy string := fun s =>
  match s with
  | EmptyString => false
  | _ => true
  end.

(** An array is an object: always truthy, also when empty. *)
#[global] Instance array_truthy {A} : Truthy (list A) := fun _ => true.

(** [None] is [undefined]. *)
#[global] Instance option_truthy {A} `{Truthy A} : Truthy (option A) := fun o =>
  match o with
  | Some a => truthy a
  | None => false
  end.

(** [a || b] *)
Definition js_or {A} `{Truthy A} (a b : A) : A := if truthy a then a else b.

(** [a ?? b], which the program does not use; it is here to state what a
    nullish fallback would compute. *)
Definition js_nullish {A} (a b : option A) : option A :=
  match a with
  | Some _ => a
  | None => b
  end.

(** ** JavaScript values and JSON bodies *)

Inductive JsVal : Type :=
| VUndefined
| VNull
| VBool (b : bool)
| VNum (n : Num)
| VStr (s : string)
| VArr (l : list JsVal)
| VObj (fields : gmap string JsVal).

#[global] Instance jsval_truthy : Truthy JsVal := fun v =>
  match v with
  | VUndefined | VNull => false
  | VBool b => truthy b
  | VNum n => truthy n
  | VStr s => truthy s
  | VArr _ | VObj _ => true
  end.

(** [v.k] on a value: [undefined] when the property is missing. *)
Definition prop (k : string) (v : JsVal) : JsVal :=
  match v with
  | VObj fields => default VUndefined (fields !! k)
  | _ => VUndefined
  end.

(** [Object.keys(v)] as a set *)
Definition keys (v : JsVal) : gset string :=
  match v with
  | VObj fields => dom fields
  | _ => ∅
  end.

(** An object literal [{ k1: v1, ..., kn: vn }], written in source order;
    a later key wins. *)
Definition obj (kvs : list (string * JsVal)) : gmap string JsVal :=
  fold_left (fun m kv => <[kv.1 := kv.2]> m) kvs ∅.

(** Typed fields as values. *)
Definition js_num (n : option Num) : JsVal :=
  match n with
  | Some x => VNum x
  | None => VUndefined
  end.

Definition js_Z (z : Z) : JsVal := VNum (num_of_Z z).

(** [a && b] *)
Definition js_and (a b : JsVal) : JsVal := if truthy a then b else a.

(** [ToNumber] of a numeric field: [undefined] becomes [NaN]. *)
Definition to_number (n : option Num) : Num := default NaN n.

(** [n === 0] for a numeric field *)
Definition is_zero (n : option Num) : bool :=
  match n with
  | Some (Finite q) => Qeq_bool q 0%Q
  | _ => false
  end.

(** A default parameter value applies when the argument is [undefined]. *)
Definition param {A} (dflt : A) (arg : option A) : A := default dflt arg.

(** ** HTTP responses and collaborator results *)

Record Response : Type := { res_status : Z; res_body : JsVal }.

(** [res.json(b)] and [res.status(c).json(b)] *)
Definition json (b : JsVal) : Response := {| res_status := 200; res_body := b |}.
Definition status_json (c : Z) (b : JsVal) : Response :=
  {| res_status := c; res_body := b |}.

(** The outcome of awaiting a collaborator: [snapshot.val()] of a read
    ([None] is [null], nothing stored at the path), or a rejection with the
    message of its error. *)
Inductive Await (A : Type) : Type :=
| Resolved (v : A)
| Rejected (message : string).
Arguments Resolved {A} v.
Arguments Rejected {A} message.

(** ** Range classifiers *)

Definition getHeartRateStatus (bpm : option Num) : string :=
  if negb (truthy bpm) || is_zero bpm then "No Signal"
  else if num_lt (to_number bpm) (num_of_Z 60) then "Slow"
  else if num_ge (to_number bpm) (num_of_Z 60) && num_le (to_number bpm) (num_of_Z 100)
  then "Normal"
  else if num_gt (to_number bpm) (num_of_Z 100) && num_le (to_number bpm) (num_of_Z 140)
  then "Elevated"
  else "High".

Definition getHeartRateZone (bpm : option Num) : string :=
  if negb (truthy bpm) || is_zero bpm then "No Signal"
  else if num_lt (to_number bpm) (num_of_Z 60) then "Resting"
  else if num_lt (to_number bpm) (num_of_Z 100) then "Normal"
  else if num_lt (to_number bpm) (num_of_Z 140) then "Light Exercise"
  else if num_lt (to_number bpm) (num_of_Z 170) then "Moderate Exercise"
  else "Intense Exercise".

Definition getPulseSignalStatus (pulseValue : option Num) : string :=
  if negb (truthy pulseValue) then "No Signal"
  else if num_lt (to_number pulseValue) (num_of_Z 1000) then "Very Weak"
  else if num_lt (to_number pulseValue) (num_of_Z 2000) then "Weak"
  else if num_lt (to_number pulseValue) (num_of_Z 3000) then "Normal"
  else if num_lt (to_number pulseValue) (num_of_Z 4000) then "Strong"
  else "Very Strong".

(** ** Blood-pressure estimator *)

Definition baseSystolic : Num := num_of_Z 120.
Definition baseDiastolic : Num := num_of_Z 80.
Definition half : Num := Finite (1 # 2).
(** The literal [0.3] *)
Definition three_tenths : Num := fin (3 # 10).

(** The guard of the estimator: [!heartRate || heartRate < 30 || heartRate > 220] *)
Definition rejects (heartRate : option Num) : bool :=
  negb (truthy heartRate)
  || num_lt (to_number heartRate) (num_of_Z 30)
  || num_gt (to_number heartRate) (num_of_Z 220).

Definition hrFactor (heartRate : option Num) : Num :=
  num_mul (num_sub (to_number heartRate) (num_of_Z 70)) half.

Definition ageFactor (age : Num) : Num :=
  Math_max (num_of_Z 0) (num_mul (num_sub age (num_of_Z 30)) three_tenths).

Definition bmi (weight height : Num) : Num :=
  num_div weight (num_sqr (num_div height (num_of_Z 100))).

Definition bmiFactor (weight height : Num) : Num :=
  Math_max (num_of_Z 0) (num_mul (num_sub (bmi weight height) (num_of_Z 25)) half).

Definition genderFactor (isMale : bool) : Num :=
  if isMale then num_of_Z 2 else num_of_Z 0.

Definition systolicOf (heartRate : option Num) (age : Num) (isMale : bool)
    (weight height : Num) : Num :=
  Math_round
    (num_add (num_add (num_add (num_add baseSystolic (hrFactor heartRate)) (ageFactor age))
                (bmiFactor weight height))
       (genderFactor isMale)).

Definition diastolicOf (heartRate : option Num) (age : Num) (weight height : Num) : Num :=
  Math_round
    (num_add (num_add (num_add baseDiastolic (num_mul (hrFactor heartRate) half))
                (num_mul (ageFactor age) half))
       (num_mul (bmiFactor weight height) half)).

Definition categoryOf (systolic diastolic : Num) : string :=
  if num_lt systolic (num_of_Z 120) && num_lt diastolic (num_of_Z 80) then "Normal"
  else if num_lt systolic (num_of_Z 130) && num_lt diastolic (num_of_Z 80) then "Elevated"
  else if num_lt systolic (num_of_Z 140) || num_lt diastolic (num_of_Z 90)
  then "Stage 1 Hypertension"
  else "Stage 2 Hypertension".

Definition predictBloodPressure (heartRate age : option Num) (isMale : option bool)
    (weight height : option Num) : gmap string JsVal :=
  let age := param (num_of_Z 30) age in
  let isMale := param true isMale in
  let weight := param (num_of_Z 70) weight in
  let height := param (num_of_Z 170) height in
  if rejects heartRate then
    obj [("systolic", js_Z 0); ("diastolic", js_Z 0); ("valid", VBool false);
         ("message", VStr "Invalid heart rate")]
  else
    let systolic := systolicOf heartRate age isMale weight height in
    let diastolic := diastolicOf heartRate age weight height in
    let category := categoryOf systolic diastolic in
    obj [("systolic", VNum systolic); ("diastolic", VNum diastolic);
         ("category", VStr category); ("valid", VBool true);
         ("confidence", VStr "Low");
         ("factors", VObj (obj [("heartRateFactor", VNum (hrFactor heartRate));
                                ("ageFactor", VNum (ageFactor age));
                                ("bmiFactor", VNum (bmiFactor weight height));
                                ("genderFactor", VNum (genderFactor isMale))]))].

(** ** Dates

    An instant is a count of milliseconds since the epoch.  The calendar
    date of an instant is taken in UTC, as [toISOString] and MongoDB's
    [$dateToString] do; years are printed with four digits, which is what
    both do for the years 0 to 9999. *)

Definition ms_per_day : Z := 86400000.

(** Year, month and day of a day count since 1970-01-01 (proleptic
    Gregorian calendar). *)
Definition civil_from_days (z : Z) : Z * Z * Z :=
  let z := z + 719468 in
  let era := z / 146097 in
  let doe := z - era * 146097 in
  let yoe := (doe - doe / 1460 + doe / 36524 - doe / 146096) / 365 in
  let doy := doe - (365 * yoe + yoe / 4 - yoe / 100) in
  let mp := (5 * doy + 2) / 153 in
  let d := doy - (153 * mp + 2) / 5 + 1 in
  let m := if mp <? 10 then mp + 3 else mp - 9 in
  let y := yoe + era * 400 + (if m <=? 2 then 1 else 0) in
  (y, m, d).

Definition digit (z : Z) : ascii := ascii_of_nat (48 + Z.to_nat (z mod 10))%nat.

(** The last [width] decimal digits of [z], zero-padded. *)
Fixpoint pad (width : nat) (z : Z) : string :=
  match width with
  | O => EmptyString
  | S w => pad w (z / 10) +:+ String (digit z) EmptyString
  end.

(** [%Y-%m-%d] *)
Definition dateToString (t : Z) : string :=
  let '(y, m, d) := civil_from_days (t / ms_per_day) in
  pad 4 y +:+ "-" +:+ pad 2 m +:+ "-" +:+ pad 2 d.

(** [new Date(t).toISOString()] *)
Definition toISOString (t : Z) : string :=
  let r := t mod ms_per_day in
  dateToString t +:+ "T" +:+ pad 2 (r / 3600000) +:+ ":" +:+ pad 2 (r / 60000 mod 60)
    +:+ ":" +:+ pad 2 (r / 1000 mod 60) +:+ "." +:+ pad 3 (r mod 1000) +:+ "Z".

(** ** Records of the live-data store *)

Record UserProfile : Type := {
  age : option Num;
  isMale : option bool;
  weight : option Num;
  height : option Num
}.

(** [health-tracker/latest-health] *)
Module HealthData.
Record t : Type := {
  bpm : option Num;
  valid_bpm : JsVal;
  pulse_value : option Num;
  waveform : option (list Num);
  userProfile : option UserProfile;
  health_id : JsVal;
  timestamp : JsVal
}.

(** [{}], what [snapshot.val() || {}] yields for a missing record *)
Definition empty : t :=
  {| bpm := None; valid_bpm := VUndefined; pulse_value := None; waveform := None;
     userProfile := None; health_id := VUndefined; timestamp := VUndefined |}.
End HealthData.

(** [health-tracker/current-status], as read field by field *)
Module StatusData.
Record t : Type := {
  gps_valid : JsVal;
  wifi_connected : JsVal;
  timestamp : JsVal;
  last_update : JsVal;
  device : JsVal;
  bpm : option Num;
  bpm_valid : JsVal;
  pulse_value : option Num
}.

Definition empty : t :=
  {| gps_valid := VUndefined; wifi_connected := VUndefined; timestamp := VUndefined;
     last_update := VUndefined; device := VUndefined; bpm := None;
     bpm_valid := VUndefined; pulse_value := None |}.
End StatusData.

Definition js_waveform (w : list Num) : JsVal := VArr (VNum <$> w).

(** ** Reading validator *)

(** [v >= lo && v <= hi] on a numeric field *)
Definition in_range (lo hi : Z) (v : option Num) : bool :=
  num_ge (to_number v) (num_of_Z lo) && num_le (to_number v) (num_of_Z hi).

(** [data.waveform ? data.waveform.length : 0] *)
Definition waveformLength (w : option (list Num)) : Z :=
  match w with
  | Some l => Z.of_nat (length l)
  | None => 0
  end.

(** The [validation] object, as the list of its entries in source order. *)
Definition validation (data : HealthData.t) : list (string * JsVal) :=
  [ ("pulseValue",
      VObj (obj [("valid", VBool (in_range 500 8000 (HealthData.pulse_value data)));
                 ("value", js_num (HealthData.pulse_value data));
                 ("range", VStr "500-8000")]));
    ("heartRate",
      VObj (obj [("valid", js_and (VBool (in_range 30 220 (HealthData.bpm data)))
                                  (HealthData.valid_bpm data));
                 ("value", js_num (HealthData.bpm data));
                 ("range", VStr "30-220 BPM")]));
    ("waveform",
      VObj (obj [("valid", match HealthData.waveform data with
                           | Some l => VBool (10 <=? Z.of_nat (length l))
                           | None => VUndefined
                           end);
                 ("length", js_Z (waveformLength (HealthData.waveform data)));
                 ("required", js_Z 10)]));
    ("signalQuality",
      VObj (obj [("valid", VBool (in_range 500 8000 (HealthData.pulse_value data)));
                 ("value", js_num (HealthData.pulse_value data));
                 ("range", VStr "500-8000")])) ].

(** [Object.values(validation).every(v => v.valid)] *)
Definition isValid (data : HealthData.t) : bool :=
  forallb (fun kv => truthy (prop "valid" kv.2)) (validation data).

Definition validateHeartRate (read : Await (option HealthData.t)) : Response :=
  match read with
  | Resolved None =>
      status_json 404
        (VObj (obj [("valid", VBool false); ("message", VStr "No heartbeat data found");
                    ("reason", VStr "No data available")]))
  | Resolved (Some data) =>
      json
        (VObj (obj [("valid", VBool (isValid data));
                    ("message", VStr (if isValid data then "Heart rate validation passed"
                                      else "Heart rate validation failed"));
                    ("validation", VObj (obj (validation data)));
                    ("data",
                      VObj (obj [("bpm", js_num (HealthData.bpm data));
                                 ("pulseValue", js_num (HealthData.pulse_value data));
                                 ("waveformLength",
                                   js_Z (waveformLength (HealthData.waveform data)));
                                 ("timestamp", HealthData.timestamp data)]))]))
  | Rejected message =>
      status_json 500
        (VObj (obj [("valid", VBool false); ("message", VStr "Error validating heart rate");
                    ("error", VStr message)]))
  end.

(** ** Latest-position view *)

Definition defaultData (now : Z) : gmap string JsVal :=
  obj [("latitude", js_Z 0); ("longitude", js_Z 0); ("gps_valid", VBool false);
       ("timestamp", VStr (toISOString now)); ("wifi_connected", VBool false);
       ("firebase_ready", VBool false); ("last_update", js_Z now)].

(** [data.k] on a record *)
Definition field (k : string) (data : gmap string JsVal) : JsVal :=
  default VUndefined (data !! k).

(** [{ ...defaultData, ...data, timestamp: .., last_update: .. }]: of two
    spreads the later one wins, and the named keys are written last. *)
Definition responseData (now : Z) (data : gmap string JsVal) : gmap string JsVal :=
  <["last_update" := js_or (field "last_update" data) (field "last_update" (defaultData now))]>
    (<["timestamp" := js_or (field "timestamp" data) (field "timestamp" (defaultData now))]>
       (data ∪ defaultData now)).

(** The record at [health-tracker/current-status] is forwarded whole, so
    here it is a map from keys to values. *)
Definition getLatestData (now : Z) (read : Await (option (gmap string JsVal))) : Response :=
  match read with
  | Resolved v =>
      let data := default ∅ v in
      json (VObj (obj [("data", VObj (responseData now data))]))
  | Rejected _ =>
      json (VObj (obj [("data",
        VObj (obj [("latitude", js_Z 0); ("longitude", js_Z 0); ("gps_valid", VBool false);
                   ("timestamp", VStr (toISOString now)); ("last_update", js_Z now);
                   ("wifi_connected", VBool false); ("firebase_ready", VBool false)]))]))
  end.

(** ** Composite health view *)

Definition defaultProfile : UserProfile :=
  {| age := Some (num_of_Z 30); isMale := Some true;
     weight := Some (num_of_Z 70); height := Some (num_of_Z 170) |}.

(** [healthData.bpm || statusData.bpm || 0] *)
Definition heartRateOf (healthData : HealthData.t) (statusData : StatusData.t) : option Num :=
  js_or (js_or (HealthData.bpm healthData) (StatusData.bpm statusData)) (Some (num_of_Z 0)).

Definition healthResponse (now : Z) (statusData : StatusData.t) (healthData : HealthData.t)
    : gmap string JsVal :=
  let currentTimestamp := toISOString now in
  let heartRate := heartRateOf healthData statusData in
  let userProfile := default defaultProfile (HealthData.userProfile healthData) in
  let bloodPressure :=
    predictBloodPressure heartRate (age userProfile) (isMale userProfile)
      (weight userProfile) (height userProfile) in
  obj [("heartRate",
         VObj (obj [("bpm", js_num heartRate);
                    ("valid", js_or (js_or (HealthData.valid_bpm healthData)
                                           (StatusData.bpm_valid statusData))
                                    (VBool false));
                    ("status", VStr (getHeartRateStatus heartRate));
                    ("zone", VStr (getHeartRateZone heartRate))]));
       ("bloodPressure",
         VObj (<["note" := VStr "Estimated based on heart rate and user profile"]>
                 (<["lastUpdated" := VStr currentTimestamp]> bloodPressure)));
       ("pulse",
         VObj (obj [("value",
                      js_num (js_or (js_or (HealthData.pulse_value healthData)
                                           (StatusData.pulse_value statusData))
                                    (Some (num_of_Z 0))));
                    ("threshold", js_Z 3300);
                    ("signal",
                      VStr (getPulseSignalStatus
                              (js_or (HealthData.pulse_value healthData)
                                     (StatusData.pulse_value statusData))))]));
       ("waveform", js_waveform (default [] (HealthData.waveform healthData)));
       ("timestamp",
         js_or (js_or (StatusData.timestamp statusData) (HealthData.timestamp healthData))
               (VStr currentTimestamp));
       ("last_update", js_or (StatusData.last_update statusData) (js_Z now));
       ("device", js_or (StatusData.device statusData) (VStr "ESP32_Health_Tracker"));
       ("healthId", js_or (HealthData.health_id healthData) (VStr "current"))].

(** The body of the [catch] branch *)
Definition offlineHealth (now : Z) : gmap string JsVal :=
  obj [("heartRate",
         VObj (obj [("bpm", js_Z 0); ("valid", VBool false);
                    ("status", VStr "No Signal"); ("zone", VStr "No Signal")]));
       ("bloodPressure",
         VObj (obj [("systolic", js_Z 0); ("diastolic", js_Z 0); ("valid", VBool false);
                    ("message", VStr "No data available")]));
       ("pulse",
         VObj (obj [("value", js_Z 0); ("threshold", js_Z 3300);
                    ("signal", VStr "No Signal")]));
       ("waveform", VArr []);
       ("timestamp", VStr (toISOString now));
       ("last_update", js_Z now);
       ("device", VStr "ESP32_Health_Tracker");
       ("healthId", VStr "offline")].

(** [Promise.all] of the two reads rejects as soon as one of them does. *)
Definition getHealthData (now : Z) (statusRead : Await (option StatusData.t))
    (healthRead : Await (option HealthData.t)) : Response :=
  match statusRead, healthRead with
  | Resolved statusVal, Resolved healthVal =>
      let statusData := default StatusData.empty statusVal in
      let healthData := default HealthData.empty healthVal in
      json (VObj (obj [("data", VObj (healthResponse now statusData healthData))]))
  | _, _ => json (VObj (obj [("data", VObj (offlineHealth now))]))
  end.

(** ** Status cache *)

#[global] Instance Z_truthy : Truthy Z := fun z => negb (z =? 0).

Module Cache.
Record t : Type := { data : JsVal; timestamp : option Z; ttl : Z }.
End Cache.

(** The module-level cache, as the process starts *)
Definition statusCache : Cache.t :=
  {| Cache.data := VNull; Cache.timestamp := None; Cache.ttl := 2000 |}.

(** The state of the process that [getStatus] touches: the cache, and a
    count of the reads issued to [health-tracker/current-status]. *)
Record Server : Type := { cache : Cache.t; upstreamReads : nat }.

Definition boot : Server := {| cache := statusCache; upstreamReads := 0 |}.

(** What one request meets: [Date.now()] on entry, the outcome of the
    read, and the clock once the read has settled. *)
Record StatusEnv : Type := {
  now : Z;
  statusRead : Await (option StatusData.t);
  later : Z
}.

(** [statusCache.data && statusCache.timestamp &&
     (now - statusCache.timestamp < statusCache.ttl)] *)
Definition cacheFresh (c : Cache.t) (now : Z) : bool :=
  truthy (Cache.data c) && truthy (Cache.timestamp c)
  && (now - default 0 (Cache.timestamp c) <? Cache.ttl c).

Definition store (c : Cache.t) (data : JsVal) (timestamp : Z) : Cache.t :=
  {| Cache.data := data; Cache.timestamp := Some timestamp; Cache.ttl := Cache.ttl c |}.

Definition offlineStatus (t : Z) : JsVal :=
  VObj (obj [("wifi", VBool false); ("gps", VBool false); ("heartbeat", VBool false);
             ("lastUpdate", VStr (toISOString t))]).

Section StatusCache.

(** The time value of [new Date(v)] for a truthy [v], which JavaScript
    parses from strings in ways left to the engine; [None] is an invalid
    date, on which [toISOString] throws. *)
Variable Date_value : JsVal -> option Z.

(** [data.timestamp ? new Date(data.timestamp).toISOString()
                    : new Date().toISOString()] *)
Definition lastUpdate (data : StatusData.t) (t : Z) : option string :=
  if truthy (StatusData.timestamp data)
  then toISOString <$> Date_value (StatusData.timestamp data)
  else Some (toISOString t).

Definition getStatus (env : StatusEnv) (s : Server) : Response * Server :=
  if cacheFresh (cache s) (now env)
  then (json (VObj (obj [("data", Cache.data (cache s))])), s)
  else
    let reads := S (upstreamReads s) in
    let caught :=
      let offline := offlineStatus (later env) in
      (json (VObj (obj [("data", offline)])),
       {| cache := store (cache s) offline (later env); upstreamReads := reads |}) in
    match statusRead env with
    | Resolved v =>
        let data := default StatusData.empty v in
        match lastUpdate data (later env) with
        | Some iso =>
            let status :=
              VObj (obj [("wifi", VBool (truthy (StatusData.wifi_connected data)));
                         ("gps", VBool (truthy (StatusData.gps_valid data)));
                         ("heartbeat", VBool (truthy (StatusData.bpm_valid data)));
                         ("lastUpdate", VStr iso)]) in
            (json (VObj (obj [("data", status)])),
             {| cache := store (cache s) status (now env); upstreamReads := reads |})
        | None => caught
        end
    | Rejected _ => caught
    end.

End StatusCache.

(** ** Stored measurements ([models/Health.js]) *)

Module Health.
(** A document that passed the schema: every path is [required]. *)
Record t : Type := {
  user : string;
  heartRate : Num;
  systolic : Num;
  diastolic : Num;
  timestamp : Z
}.

(** [new Health({ user, heartRate, systolic, diastolic, timestamp })]
    followed by the validation that [save] runs: a path that is missing
    fails [required], and the empty string is no ObjectId. *)
Definition validate (user : option string) (heartRate systolic diastolic : option Num)
    (timestamp : Z) : option t :=
  match user, heartRate, systolic, diastolic with
  | Some u, Some h, Some s, Some d =>
      if truthy u
      then Some {| user := u; heartRate := h; systolic := s; diastolic := d;
                   timestamp := timestamp |}
      else None
  | _, _, _, _ => None
  end.

(** The document in a response body; the identifier and the bookkeeping
    dates that the store adds are left out. *)
Definition toJSON (m : t) : JsVal :=
  VObj (obj [("user", VStr (user m)); ("heartRate", VNum (heartRate m));
             ("systolic", VNum (systolic m)); ("diastolic", VNum (diastolic m));
             ("timestamp", VStr (toISOString (timestamp m)))]).
End Health.

(** [req.user], which the [auth] middleware sets before either handler runs *)
Record User : Type := { _id : option string; id : option string }.

(** [req.user._id || req.user.id] *)
Definition userIdOf (u : User) : option string := js_or (_id u) (id u).

Record SaveRequest : Type := {
  save_user : User;
  body_heartRate : option Num;
  body_systolic : option Num;
  body_diastolic : option Num
}.

(** [!heartRate || !systolic || !diastolic] *)
Definition missingFields (req : SaveRequest) : bool :=
  negb (truthy (body_heartRate req)) || negb (truthy (body_systolic req))
  || negb (truthy (body_diastolic req)).

(** [now] is [new Date()]; [write] is whether the store takes the write. *)
Definition saveMeasurement (now : Z) (write : Await unit) (req : SaveRequest)
    (db : list Health.t) : Response * list Health.t :=
  let userId := userIdOf (save_user req) in
  if missingFields req
  then (status_json 400 (VObj (obj [("message", VStr "Missing required fields")])), db)
  else
    let caught :=
      (status_json 500 (VObj (obj [("message", VStr "Error saving measurement")])), db) in
    match Health.validate userId (body_heartRate req) (body_systolic req)
            (body_diastolic req) now, write with
    | Some measurement, Resolved _ =>
        (json (VObj (obj [("success", VBool true);
                          ("measurement", Health.toJSON measurement)])),
         db ++ [measurement])
    | _, _ => caught
    end.

(** ** Weekly report *)

Module DailyAverage.
Record t : Type := {
  _id : string;
  avgHeartRate : Num;
  avgSystolic : Num;
  avgDiastolic : Num;
  date : Z
}.

Definition toJSON (g : t) : JsVal :=
  VObj (obj [("_id", VStr (_id g)); ("avgHeartRate", VNum (avgHeartRate g));
             ("avgSystolic", VNum (avgSystolic g));
             ("avgDiastolic", VNum (avgDiastolic g));
             ("date", VStr (toISOString (date g)))]).
End DailyAverage.

(** [sevenDaysAgo.setDate(sevenDaysAgo.getDate() - 6)], on a server whose
    days all have 24 hours *)
Definition sevenDaysAgo (now : Z) : Z := now - 6 * ms_per_day.

(** [$match: { user, timestamp: { $gte: sevenDaysAgo } }] *)
Definition match_stage (userId : string) (since : Z) (docs : list Health.t)
    : list Health.t :=
  filter (fun m => Health.user m = userId ∧ since ≤ Health.timestamp m) docs.

(** The documents of each day, days in order of first appearance and
    documents in order of arrival. *)
Fixpoint bucket_add (key : string) (m : Health.t) (bs : list (string * list Health.t))
    : list (string * list Health.t) :=
  match bs with
  | [] => [(key, [m])]
  | (k, ms) :: rest =>
      if decide (k = key) then (k, ms ++ [m]) :: rest
      else (k, ms) :: bucket_add key m rest
  end.

Definition buckets (docs : list Health.t) : list (string * list Health.t) :=
  fold_left (fun bs m => bucket_add (dateToString (Health.timestamp m)) m bs) docs [].

(** [$avg] *)
Definition avg (xs : list Num) : Num :=
  num_div (fold_left num_add xs (num_of_Z 0)) (num_of_Z (Z.of_nat (length xs))).

(** [$first] of the timestamps *)
Definition firstTimestamp (ms : list Health.t) : Z :=
  match ms with
  | m :: _ => Health.timestamp m
  | [] => 0
  end.

(** [$group] by [$dateToString] of the timestamp *)
Definition group_stage (docs : list Health.t) : list DailyAverage.t :=
  (fun b : string * list Health.t =>
     {| DailyAverage._id := b.1;
        DailyAverage.avgHeartRate := avg (Health.heartRate <$> b.2);
        DailyAverage.avgSystolic := avg (Health.systolic <$> b.2);
        DailyAverage.avgDiastolic := avg (Health.diastolic <$> b.2);
        DailyAverage.date := firstTimestamp b.2 |}) <$> buckets docs.

(** [$sort: { date: 1 }] *)
Fixpoint insert_by_date (g : DailyAverage.t) (gs : list DailyAverage.t)
    : list DailyAverage.t :=
  match gs with
  | [] => [g]
  | h :: rest =>
      if DailyAverage.date g <=? DailyAverage.date h then g :: h :: rest
      else h :: insert_by_date g rest
  end.

Definition sort_stage (gs : list DailyAverage.t) : list DailyAverage.t :=
  foldr insert_by_date [] gs.

(** [Health.aggregate([...])] *)
Definition aggregate (userId : string) (since : Z) (docs : list Health.t)
    : list DailyAverage.t :=
  sort_stage (group_stage (match_stage userId since docs)).

(** [query] is whether the store answers the aggregation. *)
Definition getWeeklyReport (now : Z) (query : Await unit) (u : User) (db : list Health.t)
    : Response :=
  match userIdOf u with
  | Some userId =>
      if truthy userId then
        match query with
        | Resolved _ =>
            json (VArr (DailyAverage.toJSON <$> aggregate userId (sevenDaysAgo now) db))
        | Rejected message =>
            status_json 500 (VObj (obj [("message", VStr "Error fetching weekly report");
                                        ("error", VStr message)]))
        end
      else status_json 400 (VObj (obj [("message", VStr "User ID not found")]))
  | None => status_json 400 (VObj (obj [("message", VStr "User ID not found")]))
  end.

(** ** Vocabulary of the properties *)

(** The number stored under [k], [NaN] when there is none. *)
Definition number_at (k : string) (o : gmap string JsVal) : Num :=
  match o !! k with
  | Some (VNum n) => n
  | _ => NaN
  end.

(** A number that lies in the closed interval from [lo] to [hi]. *)
Definition inside (lo hi : Z) (n : option Num) : bool :=
  match n with
  | Some (Finite q) => Qle_bool (inject_Z lo) q && Qle_bool q (inject_Z hi)
  | _ => false
  end.

(** A binary64 value: [m * 2^e] with a significand of at most 53 bits and
    an exponent that binary64 has, below the overflow threshold. *)
Definition binary64 (c : Q) : Prop :=
  exists (m e : Z),
    -1074 <= e /\ Z.abs m <= 2 ^ 53 /\ (c == inject_Z m * pow2 e)%Q
    /\ (Qabs c < pow2 1024)%Q.

(** [n] is finite and within [eps] of [x]. *)
Definition near (n : Num) (x eps : Q) : Prop :=
  exists r, n = Finite r /\ (Qabs (r - x) <= eps)%Q.

(** [n] is not below [c]: it is [NaN], or at least [c]. *)
Definition not_below (c : Q) (n : Num) : Prop := num_lt n (Finite c) = false.

(** A factor of the estimate that is finite, not negative and at most
    [2^48]. *)
Definition moderate (n : Num) : bool :=
  match n with
  | Finite q => Qle_bool 0 q && Qle_bool q (inject_Z (2 ^ 48))
  | _ => false
  end.

(** The age factor and the BMI factor that the estimator computes from
    its arguments, defaults filled in *)
Definition ageFactorOf (age : option Num) : Num := ageFactor (param (num_of_Z 30) age).

Definition bmiFactorOf (weight height : option Num) : Num :=
  bmiFactor (param (num_of_Z 70) weight) (param (num_of_Z 170) height).

(** [n] is finite and its value is [q]. *)
Definition has_value (n : Num) (q : Q) : Prop := exists q', n = Finite q' /\ (q' == q)%Q.

(** The heart rate raised by ten: [heartRate + 10]. *)
Definition plus10 (heartRate : Num) : Num := num_add heartRate (num_of_Z 10).

(** The rejection that the estimator returns. *)
Definition rejected (r : gmap string JsVal) : Prop :=
  r !! "valid" = Some (VBool false) /\ r !! "systolic" = Some (js_Z 0)
  /\ r !! "diastolic" = Some (js_Z 0).

(** The overall verdict of a validation response, and the verdict of one
    of its checks. *)
Definition overall (r : Response) : JsVal := prop "valid" (res_body r).

Definition subcheck (name : string) (r : Response) : JsVal :=
  prop "valid" (prop name (prop "validation" (res_body r))).

Definition checks : list string := ["pulseValue"; "heartRate"; "waveform"; "signalQuality"].

(** The payload of a response: [body.data]. *)
Definition dataOf (r : Response) : JsVal := prop "data" (res_body r).

(** The heart rate as a nullish fallback would resolve it:
    [health.bpm ?? status.bpm ?? 0]. *)
Definition heartRate_nullish (healthData : HealthData.t) (statusData : StatusData.t)
    : option Num :=
  js_nullish (js_nullish (HealthData.bpm healthData) (StatusData.bpm statusData))
    (Some (num_of_Z 0)).

(** The heart rate resolved on truthiness: the health record's if it is
    truthy, else the status record's if it is truthy, else 0. *)
Definition heartRate_truthy (healthData : HealthData.t) (statusData : StatusData.t)
    : option Num :=
  if truthy (HealthData.bpm healthData) then HealthData.bpm healthData
  else if truthy (StatusData.bpm statusData) then StatusData.bpm statusData
  else Some (num_of_Z 0).

(** Records that carry a heart rate and nothing else. *)
Definition healthWithBpm (b : Z) : HealthData.t :=
  {| HealthData.bpm := Some (num_of_Z b); HealthData.valid_bpm := VUndefined;
     HealthData.pulse_value := None; HealthData.waveform := None;
     HealthData.userProfile := None; HealthData.health_id := VUndefined;
     HealthData.timestamp := VUndefined |}.

Definition statusWithBpm (b : Z) : StatusData.t :=
  {| StatusData.gps_valid := VUndefined; StatusData.wifi_connected := VUndefined;
     StatusData.timestamp := VUndefined; StatusData.last_update := VUndefined;
     StatusData.device := VUndefined; StatusData.bpm := Some (num_of_Z b);
     StatusData.bpm_valid := VUndefined; StatusData.pulse_value := None |}.

(** One of two awaited reads was rejected. *)
Definition failed {A B} (a : Await A) (b : Await B) : bool :=
  match a, b with
  | Resolved _, Resolved _ => false
  | _, _ => true
  end.

(** The keys of the composite health payload and of its nested objects. *)
Definition topKeys : gset string :=
  list_to_set ["heartRate"; "bloodPressure"; "pulse"; "waveform"; "timestamp";
               "last_update"; "device"; "healthId"].
Definition heartRateKeys : gset string := list_to_set ["bpm"; "valid"; "status"; "zone"].
Definition pulseKeys : gset string := list_to_set ["value"; "threshold"; "signal"].
Definition sharedPressureKeys : gset string := list_to_set ["systolic"; "diastolic"; "valid"].

(** Two records of the device: one without a timestamp, one whose
    timestamp is the number 0. *)
Definition sourceWithoutTimestamp : gmap string JsVal :=
  obj [("gps_valid", VBool true); ("latitude", VNum (Finite (123 # 10)))].

Definition sourceWithZeroTimestamp : gmap string JsVal :=
  obj [("gps_valid", VBool true); ("timestamp", js_Z 0)].

(** The clock of a request reads after the epoch. *)
Definition clock_ok (env : StatusEnv) : Prop := 0 < now env /\ 0 < later env.

(** The time to live of the status cache, in milliseconds *)
Definition ttlMs : Z := 2000.

(** The answer that serves the cached status *)
Definition cached (s : Server) : Response := json (VObj (obj [("data", Cache.data (cache s))])).

Section Reachable.
Variable Date_value : JsVal -> option Z.

(** The states of the process: as it starts, and after each request. *)
Inductive reachable : Server -> Prop :=
| reach_boot : reachable boot
| reach_request env s :
    clock_ok env -> reachable s -> reachable (getStatus Date_value env s).2.

End Reachable.

(** A [Date] constructor that takes numbers only, and two requests: one
    that finds no record, and one, a second and a half later, whose read
    would fail. *)
Definition numericDate (v : JsVal) : option Z :=
  match v with
  | VNum (Finite q) => Some (Qfloor q)
  | _ => None
  end.

Definition firstRequest : StatusEnv :=
  {| now := 1700000000000; statusRead := Resolved None; later := 1700000000040 |}.

Definition secondRequest : StatusEnv :=
  {| now := 1700000001500; statusRead := Rejected "unavailable"; later := 1700000001540 |}.

(** What holds of the cache in every state of the process *)
Definition cache_inv (s : Server) : Prop :=
  Cache.ttl (cache s) = ttlMs
  /\ match Cache.timestamp (cache s) with
     | Some ts => 0 < ts /\ truthy (Cache.data (cache s)) = true
     | None => True
     end.


(** A stored measurement with whole-number readings *)
Definition measurement (u : string) (t h s d : Z) : Health.t :=
  {| Health.user := u; Health.heartRate := num_of_Z h; Health.systolic := num_of_Z s;
     Health.diastolic := num_of_Z d; Health.timestamp := t |}.

(** What a daily average says, its [date] left aside *)
Definition summary (g : DailyAverage.t) : string * Num * Num * Num :=
  (DailyAverage._id g, DailyAverage.avgHeartRate g, DailyAverage.avgSystolic g,
   DailyAverage.avgDiastolic g).

(** Two readings taken at [t1] and [t2] and a third taken at [t3] *)
Definition threeReadings (u : string) (t1 t2 t3 : Z) : list Health.t :=
  [measurement u t1 70 120 80; measurement u t2 74 122 82; measurement u t3 80 125 85].

(** A signed-in user known by [_id] *)
Definition reader (u : string) : User := {| _id := Some u; id := None |}.

(** A request with three truthy readings *)
Definition goodRequest : SaveRequest :=
  {| save_user := reader "64b7f0c2a1d3e4f5a6b7c8d9";
     body_heartRate := Some (num_of_Z 72); body_systolic := Some (num_of_Z 118);
     body_diastolic := Some (num_of_Z 76) |}.

(** ** History views *)

(** [ref.limitToLast(n)] on a list-like sub-tree, given as its entries in
    key order *)
Definition limitToLast {A} (n : nat) (tree : list A) : list A :=
  drop (length tree - n) tree.

(** [snapshot.val()]: [null] when nothing is stored at the path *)
Definition val {A} (entries : list A) : option (list A) :=
  match entries with
  | [] => None
  | _ => Some entries
  end.

(** [Object.keys(data).map(key => ({ id: key, ...data[key] }))]: the
    spread comes after [id], so a record's own [id] wins.  The keys of
    [data] are distinct, as those of an object are. *)
Definition dataArray (data : list (string * gmap string JsVal)) : list JsVal :=
  (fun kv : string * gmap string JsVal => VObj (kv.2 ∪ {["id" := VStr kv.1]})) <$> data.

(** The body that both history handlers share, up to their messages. *)
Definition historyResponse (notFound failure : string)
    (read : Await (option (list (string * gmap string JsVal)))) : Response :=
  match read with
  | Resolved None => status_json 404 (VObj (obj [("message", VStr notFound)]))
  | Resolved (Some data) =>
      json (VObj (obj [("data", VArr (dataArray data));
                       ("count", js_Z (Z.of_nat (length (dataArray data))))]))
  | Rejected _ => status_json 500 (VObj (obj [("message", VStr failure)]))
  end.

(** A read of the last [n] entries of a sub-tree through the live-data
    store, which may fail *)
Definition readLast {A} (n : nat) (tree : Await (list A)) : Await (option (list A)) :=
  match tree with
  | Resolved entries => Resolved (val (limitToLast n entries))
  | Rejected message => Rejected message
  end.

(** [tree] is what [health-tracker/gps] holds, or the failure of the read. *)
Definition getDataHistory (tree : Await (list (string * gmap string JsVal))) : Response :=
  historyResponse "No ESP32 GPS history found" "Error fetching ESP32 GPS history"
    (readLast 10 tree).

(** [tree] is what [health-tracker/heartbeat] holds. *)
Definition getHeartbeatHistory (tree : Await (list (string * gmap string JsVal)))
    : Response :=
  historyResponse "No heartbeat history found" "Error fetching heartbeat history"
    (readLast 20 tree).

(** ** Strict combined view *)

(** The status record is read for truthiness and copied, so it is a map;
    the health record is computed with, so it is typed. *)
Definition combinedData (statusData : gmap string JsVal) (healthData : option HealthData.t)
    : gmap string JsVal :=
  obj [("gps",
         if truthy (field "gps_valid" statusData)
         then VObj (obj [("latitude", field "latitude" statusData);
                         ("longitude", field "longitude" statusData);
                         ("valid", field "gps_valid" statusData);
                         ("timestamp", field "timestamp" statusData)])
         else VObj (obj [("valid", VBool false);
                         ("message", VStr "GPS signal not available")]));
       ("heartbeat",
         match healthData with
         | Some healthData =>
             VObj (obj [("bpm", js_num (js_or (HealthData.bpm healthData)
                                              (Some (num_of_Z 0))));
                        ("valid", js_or (HealthData.valid_bpm healthData) (VBool false));
                        ("status", VStr (getHeartRateStatus (HealthData.bpm healthData)));
                        ("zone", VStr (getHeartRateZone (HealthData.bpm healthData)));
                        ("pulseValue", js_num (js_or (HealthData.pulse_value healthData)
                                                     (Some (num_of_Z 0))));
                        ("waveform",
                          js_waveform (default [] (HealthData.waveform healthData)))])
         | None =>
             VObj (obj [("valid", VBool false);
                        ("message", VStr "Heartbeat data not available")])
         end);
       ("system",
         VObj (obj [("wifi", field "wifi_connected" statusData);
                    ("firebase", field "firebase_ready" statusData);
                    ("device", js_or (field "device" statusData)
                                     (VStr "ESP32_Health_Tracker"));
                    ("timestamp", field "timestamp" statusData)]))].

Definition getCombinedData (statusRead : Await (option (gmap string JsVal)))
    (healthRead : Await (option HealthData.t)) : Response :=
  match statusRead, healthRead with
  | Resolved None, Resolved _ =>
      status_json 404 (VObj (obj [("message", VStr "No ESP32 data found")]))
  | Resolved (Some statusData), Resolved healthData =>
      json (VObj (obj [("data", VObj (combinedData statusData healthData))]))
  | _, _ => status_json 500 (VObj (obj [("message", VStr "Error fetching combined data")]))
  end.

(** ** Average heart rate *)

(** [health-tracker/latest-health] as the average probes it: the heart
    rate may sit under one of six names, the validity flag under one of
    three. *)
Module Reading.
Record nested : Type := { nested_bpm : option Num; nested_valid : JsVal }.

Record t : Type := {
  bpm : option Num;
  heartRate : option nested;
  heart_rate : option Num;
  heartbeat : option Num;
  BPM : option Num;
  HeartRate : option Num;
  valid_bpm : JsVal;
  validBPM : JsVal;
  timestamp : JsVal
}.
End Reading.

(** [v !== undefined] *)
Definition defined (v : JsVal) : bool :=
  match v with
  | VUndefined => false
  | _ => true
  end.

(** The chain of [if (data.bpm !== undefined) ... else if ...], starting
    from [let currentBPM = 0] *)
Definition currentBPM (data : Reading.t) : Num :=
  match Reading.bpm data with
  | Some b => b
  | None =>
      match Reading.nested_bpm <$> Reading.heartRate data with
      | Some (Some b) => b
      | _ =>
          match Reading.heart_rate data with
          | Some b => b
          | None =>
              match Reading.heartbeat data with
              | Some b => b
              | None =>
                  match Reading.BPM data with
                  | Some b => b
                  | None => default (num_of_Z 0) (Reading.HeartRate data)
                  end
              end
          end
      end
  end.

Definition isValidBPM (data : Reading.t) : JsVal :=
  if defined (Reading.valid_bpm data) then Reading.valid_bpm data
  else if defined (Reading.validBPM data) then Reading.validBPM data
  else
    match Reading.heartRate data with
    | Some n => if defined (Reading.nested_valid n) then Reading.nested_valid n
                else VBool true
    | None => VBool true
    end.

(** [isValidBPM && currentBPM > 0 && currentBPM < 220] *)
Definition averageIsValid (data : Reading.t) : JsVal :=
  js_and (js_and (isValidBPM data) (VBool (num_gt (currentBPM data) (num_of_Z 0))))
         (VBool (num_lt (currentBPM data) (num_of_Z 220))).

Definition getAverageHeartRate (read : Await (option Reading.t)) : Response :=
  match read with
  | Resolved None =>
      status_json 404
        (VObj (obj [("message", VStr "No heartbeat data found");
                    ("averageBPM", js_Z 0); ("readingsCount", js_Z 0)]))
  | Resolved (Some data) =>
      if negb (truthy (averageIsValid data)) then
        status_json 400
          (VObj (obj [("message", VStr "Current heartbeat reading is not valid");
                      ("averageBPM", js_Z 0); ("readingsCount", js_Z 0);
                      ("debug",
                        VObj (obj [("currentBPM", VNum (currentBPM data));
                                   ("valid_bpm", Reading.valid_bpm data);
                                   ("isValid", averageIsValid data)]))]))
      else
        json
          (VObj (obj [("averageBPM", VNum (Math_round (currentBPM data)));
                      ("readingsCount", js_Z 1);
                      ("timePeriod", js_Z 10000);
                      ("readings",
                        VArr [VObj (obj [("bpm", VNum (currentBPM data));
                                         ("timestamp", Reading.timestamp data)])]);
                      ("note",
                        VStr "Using current reading as average (historical data not available)");
                      ("debug",
                        VObj (obj [("rawBPM", VNum (currentBPM data));
                                   ("roundedBPM", VNum (Math_round (currentBPM data)))]))]))
  | Rejected message =>
      status_json 500
        (VObj (obj [("message", VStr "Error calculating average heart rate");
                    ("error", VStr message)]))
  end.

(** ** Change test *)

(** The equality of [Set]: numbers by value, [NaN] equal to itself; the
    objects of two different reads never equal. *)
Definition num_same (a b : Num) : bool :=
  match a, b with
  | Finite x, Finite y => Qeq_bool x y
  | PosInf, PosInf | NegInf, NegInf | NaN, NaN => true
  | _, _ => false
  end.

Definition same_value (a b : JsVal) : bool :=
  match a, b with
  | VUndefined, VUndefined | VNull, VNull => true
  | VBool x, VBool y => Bool.eqb x y
  | VNum x, VNum y => num_same x y
  | VStr x, VStr y => String.eqb x y
  | _, _ => false
  end.

(** [[...new Set(values)]]: first occurrences, in order *)
Definition unique (values : list JsVal) : list JsVal :=
  fold_left (fun seen v => if existsb (same_value v) seen then seen else seen ++ [v])
    values [].

(** [data?.bpm || 'N/A'] *)
Definition bpmOrNA (data : option (gmap string JsVal)) : JsVal :=
  js_or (default VUndefined (field "bpm" <$> data)) (VStr "N/A").

(** [bpm !== 'N/A'] *)
Definition notNA (v : JsVal) : bool :=
  match v with
  | VStr s => negb (String.eqb s "N/A")
  | _ => true
  end.

(** The loop body run [n] times from iteration [i]: the [i]-th read
    settles as [reads i], at the instant [clock i]; a rejection leaves the
    loop for [catch]. *)
Fixpoint readings (reads : nat -> Await (option (gmap string JsVal))) (clock : nat -> Z)
    (i n : nat) : Await (list (Z * option (gmap string JsVal))) :=
  match n with
  | O => Resolved []
  | S n' =>
      match reads i with
      | Rejected message => Rejected message
      | Resolved data =>
          match readings reads clock (S i) n' with
          | Resolved rest => Resolved ((clock i, data) :: rest)
          | Rejected message => Rejected message
          end
      end
  end.

Definition bpmValues (rs : list (Z * option (gmap string JsVal))) : list JsVal :=
  filter (fun v => notNA v = true) ((fun r : Z * option (gmap string JsVal) => bpmOrNA r.2) <$> rs).

Definition isChanging (rs : list (Z * option (gmap string JsVal))) : bool :=
  (1 <? length (unique (bpmValues rs)))%nat.

Definition testESP32DataChange (reads : nat -> Await (option (gmap string JsVal)))
    (clock : nat -> Z) : Response :=
  match readings reads clock 0 5 with
  | Resolved rs =>
      json
        (VObj (obj [("message", VStr "ESP32 data change test");
                    ("readings",
                      VArr ((fun r : Z * option (gmap string JsVal) =>
                               VObj (obj [("timestamp", VStr (toISOString r.1));
                                          ("data", match r.2 with
                                                   | Some d => VObj d
                                                   | None => VNull
                                                   end);
                                          ("bpm", bpmOrNA r.2)])) <$> rs));
                    ("bpmValues", VArr (bpmValues rs));
                    ("uniqueBPMs", VArr (unique (bpmValues rs)));
                    ("isChanging", VBool (isChanging rs));
                    ("conclusion",
                      VStr (if isChanging rs then "Data is changing"
                            else "Data is static (same value)"))]))
  | Rejected message =>
      status_json 500
        (VObj (obj [("message", VStr "Error testing ESP32 data change");
                    ("error", VStr message)]))
  end.

(** ** Runs of status requests *)

Section Runs.
Variable Date_value : JsVal -> option Z.

(** Requests served one after the other: their answers, and the state
    they leave. *)
Fixpoint serve (envs : list StatusEnv) (s : Server) : list Response * Server :=
  match envs with
  | [] => ([], s)
  | env :: rest =>
      let '(r, s1) := getStatus Date_value env s in
      let '(rs, s2) := serve rest s1 in
      (r :: rs, s2)
  end.

(** The read of a request ends in [catch]: it is rejected, or the record's
    timestamp is no date. *)
Definition unreadable (env : StatusEnv) : Prop :=
  match statusRead env with
  | Rejected _ => True
  | Resolved v => lastUpdate Date_value (default StatusData.empty v) (later env) = None
  end.

End Runs.

(** ** Vocabulary of the further properties *)

(** A status object: three flags and the instant of the last update *)
Definition statusObject (wifi gps heartbeat : bool) (lastUpdate : string) : JsVal :=
  VObj (obj [("wifi", VBool wifi); ("gps", VBool gps); ("heartbeat", VBool heartbeat);
             ("lastUpdate", VStr lastUpdate)]).

(** The cache holds nothing, or a status object. *)
Definition cache_shaped (s : Server) : Prop :=
  match Cache.timestamp (cache s) with
  | Some _ => exists w g h iso, Cache.data (cache s) = statusObject w g h iso
  | None => True
  end.

(** A record of a connected device whose timestamp is no date, and the
    request that reads it *)
Definition undatedStatus : StatusData.t :=
  {| StatusData.gps_valid := VBool true; StatusData.wifi_connected := VBool true;
     StatusData.timestamp := VStr "soon"; StatusData.last_update := VUndefined;
     StatusData.device := VUndefined; StatusData.bpm := None;
     StatusData.bpm_valid := VBool true; StatusData.pulse_value := None |}.

Definition undatedRequest : StatusEnv :=
  {| now := 1700000000000; statusRead := Resolved (Some undatedStatus);
     later := 1700000000040 |}.

(** The keys that the latest-position view always has *)
Definition defaultKeys : gset string :=
  list_to_set ["latitude"; "longitude"; "gps_valid"; "timestamp"; "wifi_connected";
               "firebase_ready"; "last_update"].

(** [v[i]] on an array: [undefined] past its end *)
Definition item_at (i : nat) (v : JsVal) : JsVal :=
  match v with
  | VArr l => default VUndefined (l !! i)
  | _ => VUndefined
  end.

(** [v.length] of an array *)
Definition array_length (v : JsVal) : Z :=
  match v with
  | VArr l => Z.of_nat (length l)
  | _ => 0
  end.

(** The record of [health-tracker/latest-health] with a heart rate under
    [bpm] and a validity flag under [valid_bpm], as the average reads it
    and as the validator reads it *)
Definition readingOf (b : Num) (flag : JsVal) : Reading.t :=
  {| Reading.bpm := Some b; Reading.heartRate := None; Reading.heart_rate := None;
     Reading.heartbeat := None; Reading.BPM := None; Reading.HeartRate := None;
     Reading.valid_bpm := flag; Reading.validBPM := VUndefined;
     Reading.timestamp := VUndefined |}.

Definition healthOf (b : Num) (flag : JsVal) : HealthData.t :=
  {| HealthData.bpm := Some b; HealthData.valid_bpm := flag;
     HealthData.pulse_value := None; HealthData.waveform := None;
     HealthData.userProfile := None; HealthData.health_id := VUndefined;
     HealthData.timestamp := VUndefined |}.

(** [data?.bpm] *)
Definition rawBpm (data : option (gmap string JsVal)) : JsVal :=
  default VUndefined (field "bpm" <$> data).

(** A value that enters the comparison of the change test: truthy, and
    not the placeholder itself *)
Definition usable (v : JsVal) : bool := truthy v && notNA v.

(** A snapshot that holds [bpm] and nothing else *)
Definition snapshotOf (v : JsVal) : option (gmap string JsVal) := Some {["bpm" := v]}.

(** A measurement that the report of [userId] since [since] takes in *)
Definition matching (userId : string) (since : Z) (m : Health.t) : Prop :=
  Health.user m = userId /\ since <= Health.timestamp m.

(** What the buckets built from the documents [seen] hold: each day once,
    no bucket empty, every document of a bucket one of [seen] and of the
    bucket's day, every document of [seen] with a bucket for its day. *)
Definition bucketed (seen : list Health.t) (bs : list (string * list Health.t)) : Prop :=
  NoDup bs.*1
  /\ (forall k ms, (k, ms) ∈ bs ->
        ms <> [] /\ forall m, m ∈ ms -> m ∈ seen /\ dateToString (Health.timestamp m) = k)
  /\ (forall m, m ∈ seen -> dateToString (Health.timestamp m) ∈ bs.*1).

(** The order of the sort *)
Definition by_date (g h : DailyAverage.t) : Prop := DailyAverage.date g <= DailyAverage.date h.


(** An instant half an hour after midnight (UTC), and eight measurements
    that end at it, one every seventh of 145 hours *)
Definition longWeekNow : Z := 1700094600000.

Definition longWeek : list Health.t :=
  (fun k => measurement "64b7f0c2a1d3e4f5a6b7c8d9" (longWeekNow - k * 74571428) 70 120 80)
    <$> seqZ 0 8.

(** * Properties *)

(** Reading properties out of object literals *)
Ltac key_sets :=
  cbn [keys list_to_set]; unfold obj; cbn [fold_left fst snd];
  rewrite ?dom_insert_L, ?dom_empty_L; compute_done.

Ltac lookups :=
  repeat (progress (cbn [res_body res_status prop default json status_json from_option];
                    unfold obj; cbn [fold_left fst snd]; simplify_map_eq)).

(** ** Numbers *)

(** *** Rounding to binary64 *)

Section Rounding.
Local Open Scope Q_scope.

Lemma pow2_pos e : 0 < pow2 e.
Proof. apply Qpower_0_lt. reflexivity. Qed.

Lemma pow2_add a b : pow2 (a + b) == pow2 a * pow2 b.
Proof. apply Qpower_plus. discriminate. Qed.

Lemma pow2_le a b : (a <= b)%Z -> pow2 a <= pow2 b.
Proof. intros H. apply Qpower_le_compat_l; [exact H | discriminate]. Qed.

Lemma pow2_lt a b : (a < b)%Z -> pow2 a < pow2 b.
Proof. intros H. apply Qpower_lt_compat_l; [exact H | reflexivity]. Qed.

Lemma pow2_le_inv a b : pow2 a <= pow2 b -> (a <= b)%Z.
Proof. intros H. apply (Qpower_le_compat_l_inv 2); [exact H | reflexivity]. Qed.

Lemma pow2_Z n : (0 <= n)%Z -> pow2 n == inject_Z (2 ^ n).
Proof. intros H. unfold pow2. now rewrite Zpower_Qpower. Qed.

Lemma pow2_sub a b : pow2 (a - b) == pow2 a / pow2 b.
Proof.
  pose proof (pow2_pos b) as P. pose proof (pow2_add (a - b) b) as E.
  replace (a - b + b)%Z with a in E by lia. rewrite E. field. lra.
Qed.

Lemma Qnum_pos a : 0 < a -> (0 < Qnum a)%Z.
Proof. destruct a as [n d]. unfold Qlt. cbn. lia. Qed.

(** The binade of a positive rational *)
Lemma ilog2_spec a : 0 < a -> pow2 (ilog2 a) <= a /\ a < pow2 (ilog2 a + 1).
Proof.
  intros Ha. pose proof (Qnum_pos a Ha) as Hn.
  set (n := Qnum a) in *. set (d := Zpos (Qden a)).
  assert (Hd : (0 < d)%Z) by reflexivity.
  destruct (Z.log2_spec n Hn) as [N1 N2]. destruct (Z.log2_spec d Hd) as [D1 D2].
  rewrite <- Z.add_1_r in N2, D2.
  assert (E : a * inject_Z d == inject_Z n).
  { destruct a as [an ad]. unfold Qeq, n, d. cbn. lia. }
  assert (Dp : 0 < inject_Z d) by (rewrite <- (Zlt_Qlt 0); exact Hd).
  rewrite Zle_Qle, <- pow2_Z in N1, D1 by apply Z.log2_nonneg.
  rewrite Zlt_Qlt, <- pow2_Z in N2, D2 by (pose proof (Z.log2_nonneg n); pose proof (Z.log2_nonneg d); lia).
  unfold ilog2. fold n d. set (c := (Z.log2 n - Z.log2 d)%Z).
  pose proof (pow2_pos (c - 1)) as P1. pose proof (pow2_pos (c + 1)) as P2.
  destruct (Qle_bool (pow2 c) a) eqn:B.
  - apply Qle_bool_iff in B. split; [exact B |].
    assert (X : pow2 (Z.log2 n + 1) == pow2 (c + 1) * pow2 (Z.log2 d)).
    { rewrite <- pow2_add. unfold c. now replace (Z.log2 n - Z.log2 d + 1 + Z.log2 d)%Z
        with (Z.log2 n + 1)%Z by lia. }
    nra.
  - assert (B' : a < pow2 c).
    { apply Qnot_le_lt. intros L. apply Qle_bool_iff in L. congruence. }
    replace (c - 1 + 1)%Z with c by lia. split; [| exact B'].
    assert (X : pow2 (Z.log2 n) == pow2 (c - 1) * pow2 (Z.log2 d + 1)).
    { rewrite <- pow2_add. unfold c. now replace (Z.log2 n - Z.log2 d - 1 + (Z.log2 d + 1))%Z
        with (Z.log2 n) by lia. }
    nra.
Qed.

(** Rounding to the nearest integer, ties to even *)
Lemma rne_floor y : (Qfloor y <= rne y <= Qfloor y + 1)%Z.
Proof.
  unfold rne. destruct (Qcompare _ _); [destruct (Z.even _) | |]; lia.
Qed.

Lemma rne_ge k y : inject_Z k <= y -> (k <= rne y)%Z.
Proof.
  intros H. apply Qfloor_resp_le in H. rewrite Qfloor_Z in H.
  pose proof (rne_floor y). lia.
Qed.

Lemma rne_le k y : y <= inject_Z k -> (rne y <= k)%Z.
Proof.
  intros H. pose proof (Qfloor_resp_le _ _ H) as F. rewrite Qfloor_Z in F.
  pose proof (rne_floor y) as R.
  destruct (Z.eq_dec (Qfloor y) k) as [E | N]; [| lia].
  unfold rne. rewrite E.
  assert (C : Qcompare (y - inject_Z k) (1 # 2) = Lt) by (apply (proj1 (Qlt_alt _ _)); lra).
  rewrite C. lia.
Qed.

Lemma rne_near y : Qabs (inject_Z (rne y) - y) <= 1 # 2.
Proof.
  pose proof (Qfloor_le y) as L. pose proof (Qlt_floor y) as U.
  rewrite inject_Z_plus in U. change (inject_Z 1) with 1 in U.
  apply Qabs_Qle_condition. unfold rne.
  destruct (Qcompare (y - inject_Z (Qfloor y)) (1 # 2)) eqn:C.
  - apply (proj2 (Qeq_alt _ _)) in C.
    destruct (Z.even (Qfloor y)); rewrite ?inject_Z_plus; change (inject_Z 1) with 1; lra.
  - apply (proj2 (Qlt_alt _ _)) in C. lra.
  - apply (proj2 (Qgt_alt _ _)) in C. rewrite inject_Z_plus. change (inject_Z 1) with 1. lra.
Qed.

(** Rounding a positive rational to its binade's grid *)
Lemma nearest64_near a :
  0 < a -> Qabs (nearest64 a - a) <= pow2 (exponent a) * (1 # 2).
Proof.
  intros Ha. unfold nearest64. set (P := pow2 (exponent a)).
  pose proof (pow2_pos (exponent a)) as Pp. fold P in Pp.
  pose proof (rne_near (a / P)) as R. apply Qabs_Qle_condition in R.
  apply Qabs_Qle_condition.
  assert (E : a == a / P * P) by (field; lra). nra.
Qed.

Lemma exponent_le a k : 0 < a -> a <= pow2 k -> (-1022 <= k)%Z -> (exponent a <= k - 52)%Z.
Proof.
  intros Ha Hk K. destruct (ilog2_spec a Ha) as [L _].
  assert (ilog2 a <= k)%Z by (apply pow2_le_inv; lra).
  unfold exponent. lia.
Qed.

Lemma nearest64_grid_le a m e :
  0 < a -> (0 <= m <= 2 ^ 53)%Z -> (-1074 <= e)%Z ->
  a <= inject_Z m * pow2 e -> nearest64 a <= inject_Z m * pow2 e.
Proof.
  intros Ha Hm He H. unfold nearest64. set (x := exponent a).
  pose proof (pow2_pos x) as Px. pose proof (pow2_pos e) as Pe.
  destruct (Z_le_gt_dec x e) as [G | G].
  - (* the bound lies on the grid of [a] *)
    assert (E : inject_Z m * pow2 e == inject_Z (m * 2 ^ (e - x)) * pow2 x).
    { rewrite inject_Z_mult, <- pow2_Z by lia. rewrite pow2_sub. field. lra. }
    rewrite E in *.
    assert (R : (rne (a / pow2 x) <= m * 2 ^ (e - x))%Z).
    { apply rne_le. apply Qle_shift_div_r; [exact Px | exact H]. }
    rewrite Zle_Qle in R. nra.
  - (* the bound lies below the binade of [a] *)
    assert (X : x = (ilog2 a - 52)%Z) by (unfold x, exponent in *; lia).
    destruct (ilog2_spec a Ha) as [L _].
    assert (B : inject_Z m * pow2 e <= pow2 (ilog2 a)).
    { apply Qle_trans with (pow2 53 * pow2 e).
      - assert (inject_Z m <= pow2 53) by (rewrite pow2_Z by lia; rewrite <- Zle_Qle; lia).
        nra.
      - rewrite <- pow2_add. apply pow2_le. lia. }
    assert (R : (rne (a / pow2 x) <= 2 ^ 52)%Z).
    { apply rne_le. apply Qle_shift_div_r; [exact Px |].
      rewrite <- pow2_Z, <- pow2_add by lia. replace (52 + x)%Z with (ilog2 a) by lia. lra. }
    rewrite Zle_Qle, <- pow2_Z in R by lia.
    assert (Y : pow2 52 * pow2 x == pow2 (ilog2 a)).
    { rewrite <- pow2_add. now replace (52 + x)%Z with (ilog2 a) by lia. }
    nra.
Qed.

Lemma nearest64_grid_ge a m e :
  0 < a -> (0 <= m <= 2 ^ 53)%Z -> (-1074 <= e)%Z ->
  inject_Z m * pow2 e <= a -> inject_Z m * pow2 e <= nearest64 a.
Proof.
  intros Ha Hm He H. unfold nearest64. set (x := exponent a).
  pose proof (pow2_pos x) as Px. pose proof (pow2_pos e) as Pe.
  destruct (Z_le_gt_dec x e) as [G | G].
  - assert (E : inject_Z m * pow2 e == inject_Z (m * 2 ^ (e - x)) * pow2 x).
    { rewrite inject_Z_mult, <- pow2_Z by lia. rewrite pow2_sub. field. lra. }
    rewrite E in *.
    assert (R : (m * 2 ^ (e - x) <= rne (a / pow2 x))%Z).
    { apply rne_ge. apply Qle_shift_div_l; [exact Px | exact H]. }
    rewrite Zle_Qle in R. nra.
  - assert (X : x = (ilog2 a - 52)%Z) by (unfold x, exponent in *; lia).
    destruct (ilog2_spec a Ha) as [L _].
    assert (B : inject_Z m * pow2 e <= pow2 (ilog2 a)).
    { apply Qle_trans with (pow2 53 * pow2 e).
      - assert (inject_Z m <= pow2 53) by (rewrite pow2_Z by lia; rewrite <- Zle_Qle; lia).
        nra.
      - rewrite <- pow2_add. apply pow2_le. lia. }
    assert (R : (2 ^ 52 <= rne (a / pow2 x))%Z).
    { apply rne_ge. apply Qle_shift_div_l; [exact Px |].
      rewrite <- pow2_Z, <- pow2_add by lia. replace (52 + x)%Z with (ilog2 a) by lia. lra. }
    rewrite Zle_Qle, <- pow2_Z in R by lia.
    assert (Y : pow2 52 * pow2 x == pow2 (ilog2 a)).
    { rewrite <- pow2_add. now replace (52 + x)%Z with (ilog2 a) by lia. }
    nra.
Qed.

Lemma nearest64_nonneg a : 0 < a -> 0 <= nearest64 a.
Proof.
  intros Ha. pose proof (nearest64_grid_ge a 0 0 Ha) as G.
  assert (Z0 : inject_Z 0 * pow2 0 == 0) by reflexivity.
  rewrite Z0 in G. apply G; [lia | lia | lra].
Qed.

Lemma pow2_half k : pow2 (k - 53) == pow2 (k - 52) * (1 # 2).
Proof.
  replace (k - 53)%Z with (k - 52 + -1)%Z by lia. rewrite pow2_add. reflexivity.
Qed.

Lemma round64_near q k :
  Qabs q <= pow2 k -> (-1022 <= k <= 1023)%Z ->
  exists r, round64 q = Finite r /\ Qabs (r - q) <= pow2 (k - 53) /\ Qabs r <= pow2 k.
Proof.
  intros H K. pose proof (pow2_pos (k - 53)) as Pe. pose proof (pow2_pos k) as Pk.
  assert (Big : pow2 k < pow2 1024) by (apply pow2_lt; lia).
  assert (G : forall a, 0 < a -> a <= pow2 k ->
              Qabs (nearest64 a - a) <= pow2 (k - 53)
              /\ 0 <= nearest64 a <= pow2 k
              /\ Qle_bool (pow2 1024) (nearest64 a) = false).
  { intros a Ha Hk. pose proof (nearest64_near a Ha) as N.
    pose proof (exponent_le a k Ha Hk ltac:(lia)) as X. apply pow2_le in X.
    pose proof (nearest64_grid_le a 1 k Ha ltac:(lia) ltac:(lia)) as U.
    assert (E1 : inject_Z 1 * pow2 k == pow2 k) by (change (inject_Z 1) with 1; ring).
    rewrite E1 in U. specialize (U Hk).
    pose proof (nearest64_nonneg a Ha) as L.
    split; [| split; [split; assumption |]].
    - rewrite pow2_half. eapply Qle_trans; [exact N |]. lra.
    - destruct (Qle_bool (pow2 1024) (nearest64 a)) eqn:B; [| reflexivity].
      apply Qle_bool_iff in B. lra. }
  unfold round64. destruct (Qcompare q 0) eqn:C.
  - apply (proj2 (Qeq_alt _ _)) in C. exists 0. split; [reflexivity |].
    split; apply Qabs_Qle_condition; lra.
  - apply (proj2 (Qlt_alt _ _)) in C.
    assert (Hq : Qabs q == - q) by (apply Qabs_neg; lra).
    destruct (G (- q)) as (N & [L U] & B); [lra | lra |].
    cbv zeta. rewrite B. eexists. split; [reflexivity |].
    rewrite Qred_correct. apply Qabs_Qle_condition in N.
    split; apply Qabs_Qle_condition; lra.
  - apply (proj2 (Qgt_alt _ _)) in C.
    assert (Hq : Qabs q == q) by (apply Qabs_pos; lra).
    destruct (G q) as (N & [L U] & B); [lra | lra |].
    cbv zeta. rewrite B. eexists. split; [reflexivity |].
    rewrite Qred_correct. apply Qabs_Qle_condition in N.
    split; apply Qabs_Qle_condition; lra.
Qed.

Lemma round64_ge c q : binary64 c -> c <= q -> num_le (Finite c) (round64 q) = true.
Proof.
  intros (m & e & He & Hm & Ec & Hc) H. pose proof (pow2_pos e) as Pe.
  unfold round64. destruct (Qcompare q 0) eqn:C.
  - apply (proj2 (Qeq_alt _ _)) in C. cbn [num_le]. apply Qle_bool_iff. lra.
  - apply (proj2 (Qlt_alt _ _)) in C.
    assert (Hc' : Qabs c == - c) by (apply Qabs_neg; lra).
    assert (M : (m <= 0)%Z).
    { destruct (Z_le_gt_dec m 0) as [M | M]; [exact M | exfalso].
      assert (0 < inject_Z m) by (rewrite <- (Zlt_Qlt 0); lia). nra. }
    pose proof (nearest64_grid_le (- q) (- m) e ltac:(lra) ltac:(lia) He) as U.
    rewrite inject_Z_opp in U.
    assert (U' : nearest64 (- q) <= - c).
    { assert (X : - q <= - inject_Z m * pow2 e) by (rewrite Ec in H; lra).
      specialize (U X). rewrite Ec. lra. }
    cbv zeta.
    assert (B : Qle_bool (pow2 1024) (nearest64 (- q)) = false).
    { destruct (Qle_bool (pow2 1024) (nearest64 (- q))) eqn:B; [| reflexivity].
      apply Qle_bool_iff in B. lra. }
    rewrite B. cbn [num_le]. apply Qle_bool_iff. rewrite Qred_correct. lra.
  - apply (proj2 (Qgt_alt _ _)) in C. cbv zeta.
    destruct (Qle_bool (pow2 1024) (nearest64 q)); [reflexivity |].
    cbn [num_le]. apply Qle_bool_iff. rewrite Qred_correct.
    pose proof (nearest64_nonneg q C) as L.
    destruct (Qlt_le_dec 0 c) as [P | P]; [| lra].
    assert (M : (0 <= m)%Z).
    { destruct (Z_le_gt_dec 0 m) as [M | M]; [exact M | exfalso].
      assert (inject_Z m < 0) by (rewrite <- (Zlt_Qlt _ 0); lia). nra. }
    rewrite Ec. apply nearest64_grid_ge; [exact C | lia | exact He | rewrite <- Ec; exact H].
Qed.

Lemma round64_le c q : binary64 c -> q <= c -> num_le (round64 q) (Finite c) = true.
Proof.
  intros (m & e & He & Hm & Ec & Hc) H. pose proof (pow2_pos e) as Pe.
  unfold round64. destruct (Qcompare q 0) eqn:C.
  - apply (proj2 (Qeq_alt _ _)) in C. cbn [num_le]. apply Qle_bool_iff. lra.
  - apply (proj2 (Qlt_alt _ _)) in C. cbv zeta.
    destruct (Qle_bool (pow2 1024) (nearest64 (- q))); [reflexivity |].
    cbn [num_le]. apply Qle_bool_iff. rewrite Qred_correct.
    pose proof (nearest64_nonneg (- q) ltac:(lra)) as L.
    destruct (Qlt_le_dec c 0) as [P | P]; [| lra].
    assert (M : (m <= 0)%Z).
    { destruct (Z_le_gt_dec m 0) as [M | M]; [exact M | exfalso].
      assert (0 < inject_Z m) by (rewrite <- (Zlt_Qlt 0); lia). nra. }
    pose proof (nearest64_grid_ge (- q) (- m) e ltac:(lra) ltac:(lia) He) as G.
    rewrite inject_Z_opp in G.
    assert (X : - inject_Z m * pow2 e <= - q) by (rewrite Ec in H; lra).
    specialize (G X). rewrite Ec. lra.
  - apply (proj2 (Qgt_alt _ _)) in C.
    assert (Hc' : Qabs c == c) by (apply Qabs_pos; lra).
    assert (M : (0 <= m)%Z).
    { destruct (Z_le_gt_dec 0 m) as [M | M]; [exact M | exfalso].
      assert (inject_Z m < 0) by (rewrite <- (Zlt_Qlt _ 0); lia). nra. }
    pose proof (nearest64_grid_le q m e C ltac:(lia) He) as U.
    assert (U' : nearest64 q <= c) by (rewrite Ec; apply U; rewrite <- Ec; exact H).
    cbv zeta.
    assert (B : Qle_bool (pow2 1024) (nearest64 q) = false).
    { destruct (Qle_bool (pow2 1024) (nearest64 q)) eqn:B; [| reflexivity].
      apply Qle_bool_iff in B. lra. }
    rewrite B. cbn [num_le]. apply Qle_bool_iff. rewrite Qred_correct. lra.
Qed.

(** A dyadic number with a short numerator is a binary64 value. *)
Lemma binary64_dyadic (n : Z) (j : Z) :
  (Z.abs n <= 2 ^ 53)%Z -> (0 <= j <= 900)%Z -> binary64 (inject_Z n * pow2 (- j)).
Proof.
  intros Hn Hj. exists n, (- j)%Z. split; [lia |]. split; [exact Hn |].
  split; [reflexivity |].
  rewrite Qabs_Qmult, (Qabs_pos (pow2 _)) by (apply Qlt_le_weak, pow2_pos).
  assert (A : Qabs (inject_Z n) <= pow2 53).
  { rewrite pow2_Z by lia. change (Qabs (inject_Z n)) with (inject_Z (Z.abs n)).
    rewrite <- Zle_Qle. exact Hn. }
  assert (B : pow2 (- j) <= pow2 0) by (apply pow2_le; lia).
  assert (C : pow2 53 < pow2 1024) by (apply pow2_lt; lia).
  pose proof (pow2_pos (- j)). pose proof (Qabs_nonneg (inject_Z n)).
  change (pow2 0) with 1 in B. nra.
Qed.

End Rounding.

Lemma Qfloor_add_Z (x : Q) (k : Z) : Qfloor (x + inject_Z k) = Qfloor x + k.
Proof.
  destruct x as [n d]. unfold Qfloor, Qplus, inject_Z. cbn.
  rewrite Z.mul_1_r, Pos.mul_1_r. apply Z.div_add. discriminate.
Qed.

Lemma Qfloor_lower (z : Z) (x : Q) : (inject_Z z <= x)%Q -> z <= Qfloor x.
Proof. intros H. rewrite <- (Qfloor_Z z). apply Qfloor_resp_le, H. Qed.

Lemma Qltb_true a b : Qltb a b = true <-> (a < b)%Q.
Proof.
  unfold Qltb. rewrite negb_true_iff. split.
  - intros H. apply Qnot_le_lt. intros L. apply Qle_bool_iff in L. congruence.
  - intros H. destruct (Qle_bool b a) eqn:E; [| reflexivity].
    apply Qle_bool_iff in E. exfalso. exact (Qlt_not_le _ _ H E).
Qed.

Lemma num_lt_Z a b : num_lt (num_of_Z a) (num_of_Z b) = true <-> a < b.
Proof.
  cbn [num_lt num_of_Z]. rewrite Qltb_true, <- Zlt_Qlt. reflexivity.
Qed.

(** Shifting the argument of the floor by an integer *)
Lemma Qfloor_shift (x : Q) (k : Z) : Qfloor x + k <= Qfloor (x + inject_Z k).
Proof.
  rewrite <- (Qfloor_Z (Qfloor x + k)). apply Qfloor_resp_le.
  rewrite inject_Z_plus. apply Qplus_le_l. apply Qfloor_le.
Qed.

(** ** Blood-pressure estimator *)

Lemma predict_rejected hr a m w h :
  rejects hr = true ->
  predictBloodPressure hr a m w h =
  obj [("systolic", js_Z 0); ("diastolic", js_Z 0); ("valid", VBool false);
       ("message", VStr "Invalid heart rate")].
Proof. intros H. unfold predictBloodPressure. rewrite H. reflexivity. Qed.

Lemma predict_accepted hr a m w h :
  rejects hr = false ->
  predictBloodPressure hr a m w h !! "valid" = Some (VBool true)
  /\ predictBloodPressure hr a m w h !! "systolic" =
     Some (VNum (systolicOf hr (param (num_of_Z 30) a) (param true m)
                   (param (num_of_Z 70) w) (param (num_of_Z 170) h))).
Proof.
  intros H. unfold predictBloodPressure. rewrite H. cbv zeta.
  unfold obj. cbn [fold_left fst snd]. split; simplify_map_eq; reflexivity.
Qed.

(** The guard fires on a falsy heart rate and on one outside 30..220, and
    on nothing else. *)
Lemma rejects_iff hr : rejects hr = true <-> truthy hr = false \/ inside 30 220 hr = false.
Proof.
  unfold rejects. rewrite !orb_true_iff, negb_true_iff.
  destruct hr as [[q| | |]|]; cbn; try tauto.
  unfold Qltb. rewrite !negb_true_iff, andb_false_iff. tauto.
Qed.

Lemma inside_accepted hr : inside 30 220 (Some hr) = true -> rejects (Some hr) = false.
Proof.
  intros H. destruct (rejects (Some hr)) eqn:E; [| reflexivity].
  apply rejects_iff in E. destruct E as [E | E]; [| congruence].
  destruct hr as [q| | |]; try discriminate.
  cbn in H, E. apply andb_true_iff in H as [H _].
  apply negb_false_iff, Qeq_bool_iff in E. apply Qle_bool_iff in H.
  rewrite E in H. unfold Qle in H. cbn in H. lia.
Qed.

(** *** Bounds that rounding keeps *)

Section Bounds.
Local Open Scope Q_scope.

Lemma binary64_closed c (n j : Z) :
  (Z.abs n <= 2 ^ 53)%Z -> (0 <= j <= 900)%Z -> c == inject_Z n * pow2 (- j) -> binary64 c.
Proof.
  intros Hn Hj E. destruct (binary64_dyadic n j Hn Hj) as (m & e & He & Hm & Ec & Hc).
  exists m, e. split; [exact He |]. split; [exact Hm |]. rewrite E. split; assumption.
Qed.

Lemma num_le_not_lt a b : num_le a b = true -> num_lt b a = false.
Proof.
  destruct a as [x | | |], b as [y | | |]; cbn; try discriminate; try reflexivity.
  unfold Qltb. intros ->. reflexivity.
Qed.

Lemma not_below_Finite c x : c <= x -> not_below c (Finite x).
Proof.
  intros H. unfold not_below. cbn. unfold Qltb.
  apply Qle_bool_iff in H. now rewrite H.
Qed.

Lemma not_below_inv c n :
  not_below c n -> n = NaN \/ n = PosInf \/ exists x, n = Finite x /\ c <= x.
Proof.
  unfold not_below. destruct n as [x | | |]; cbn; try discriminate; auto.
  unfold Qltb. intros H. right. right. exists x. split; [reflexivity |].
  apply Qle_bool_iff. now destruct (Qle_bool c x).
Qed.

Lemma not_below_weaken c c' n : c' <= c -> not_below c n -> not_below c' n.
Proof.
  intros H [-> | [-> | (x & -> & L)]]%not_below_inv; try reflexivity.
  apply not_below_Finite. lra.
Qed.

Lemma not_below_fin c q : binary64 c -> c <= q -> not_below c (fin q).
Proof. intros B H. apply num_le_not_lt, round64_ge; assumption. Qed.

Lemma not_below_add c d e a b :
  binary64 e -> e <= c + d ->
  not_below c a -> not_below d b -> not_below e (num_add a b).
Proof.
  intros B H [-> | [-> | (x & -> & Lx)]]%not_below_inv
             [-> | [-> | (y & -> & Ly)]]%not_below_inv; try reflexivity.
  cbn [num_add]. apply not_below_fin; [exact B | lra].
Qed.

Lemma not_below_mul_half c e a :
  binary64 e -> e <= c * (1 # 2) -> not_below c a -> not_below e (num_mul a half).
Proof.
  intros B H [-> | [-> | (x & -> & Lx)]]%not_below_inv; try reflexivity.
  unfold half. cbn [num_mul]. apply not_below_fin; [exact B | lra].
Qed.

Lemma not_below_max x : not_below 0 (Math_max (num_of_Z 0) x).
Proof.
  destruct x as [q | | |]; try reflexivity.
  cbn [Math_max num_of_Z num_lt]. destruct (Qltb (inject_Z 0) q) eqn:E.
  - apply Qltb_true in E. apply not_below_Finite. unfold inject_Z in E. lra.
  - apply not_below_Finite. unfold inject_Z. lra.
Qed.

Lemma not_below_round c k v :
  inject_Z k <= c + (1 # 2) -> not_below c v -> not_below (inject_Z k) (Math_round v).
Proof.
  intros H [-> | [-> | (x & -> & Lx)]]%not_below_inv; try reflexivity.
  cbn [Math_round]. apply not_below_Finite. rewrite <- Zle_Qle.
  apply Qfloor_lower. lra.
Qed.

End Bounds.

(** *** The estimate never falls below its base *)

Section Floor.
Local Open Scope Q_scope.

Lemma hrFactor_not_below c x :
  binary64 (c - 70) -> binary64 ((c - 70) * (1 # 2)) -> c <= x ->
  not_below ((c - 70) * (1 # 2)) (hrFactor (Some (Finite x))).
Proof.
  intros B1 B2 H. unfold hrFactor. cbn [to_number default from_option num_sub num_of_Z].
  apply (not_below_mul_half (c - 70)); [exact B2 | lra |].
  apply not_below_fin; [exact B1 | unfold inject_Z; lra].
Qed.

Lemma genderFactor_not_below m : not_below 0 (genderFactor m).
Proof. destruct m; reflexivity. Qed.

Lemma systolic_not_below c k x a m w h :
  binary64 (c - 70) -> binary64 ((c - 70) * (1 # 2)) ->
  binary64 (120 + (c - 70) * (1 # 2)) ->
  c <= x -> inject_Z k <= 120 + (c - 70) * (1 # 2) + (1 # 2) ->
  not_below (inject_Z k) (systolicOf (Some (Finite x)) a m w h).
Proof.
  intros B1 B2 B3 H K. unfold systolicOf. apply (not_below_round _ _ _ K).
  apply (not_below_add (120 + (c - 70) * (1 # 2)) 0); [exact B3 | lra | | apply genderFactor_not_below].
  apply (not_below_add (120 + (c - 70) * (1 # 2)) 0); [exact B3 | lra | | apply not_below_max].
  apply (not_below_add (120 + (c - 70) * (1 # 2)) 0); [exact B3 | lra | | apply not_below_max].
  apply (not_below_add 120 ((c - 70) * (1 # 2))); [exact B3 | lra | |].
  - apply not_below_Finite. unfold inject_Z. lra.
  - apply hrFactor_not_below; assumption.
Qed.

Lemma diastolic_not_below c k x a w h :
  binary64 (c - 70) -> binary64 ((c - 70) * (1 # 2)) ->
  binary64 ((c - 70) * (1 # 4)) -> binary64 (80 + (c - 70) * (1 # 4)) ->
  c <= x -> inject_Z k <= 80 + (c - 70) * (1 # 4) + (1 # 2) ->
  not_below (inject_Z k) (diastolicOf (Some (Finite x)) a w h).
Proof.
  intros B1 B2 B3 B4 H K. unfold diastolicOf. apply (not_below_round _ _ _ K).
  assert (Z0 : binary64 0) by (apply (binary64_closed _ 0 0); [lia | lia | reflexivity]).
  apply (not_below_add (80 + (c - 70) * (1 # 4)) 0); [exact B4 | lra | |].
  2:{ apply (not_below_mul_half 0); [exact Z0 | lra | apply not_below_max]. }
  apply (not_below_add (80 + (c - 70) * (1 # 4)) 0); [exact B4 | lra | |].
  2:{ apply (not_below_mul_half 0); [exact Z0 | lra | apply not_below_max]. }
  apply (not_below_add 80 ((c - 70) * (1 # 4))); [exact B4 | lra | |].
  - apply not_below_Finite. unfold inject_Z. lra.
  - apply (not_below_mul_half ((c - 70) * (1 # 2))); [exact B3 | lra |].
    apply hrFactor_not_below; assumption.
Qed.

End Floor.

(** A closed dyadic number is a binary64 value. *)
Ltac b64 n j :=
  apply (binary64_closed _ n j); [vm_compute; discriminate | lia | vm_compute; reflexivity].

Lemma inside_value lo hi hr :
  inside lo hi (Some hr) = true ->
  exists x, hr = Finite x /\ (inject_Z lo <= x)%Q /\ (x <= inject_Z hi)%Q.
Proof.
  destruct hr as [x | | |]; try discriminate. cbn [inside].
  intros [L U]%andb_true_iff. apply Qle_bool_iff in L, U. eauto.
Qed.

Lemma inside_wider lo hi hr :
  30 <= lo -> hi <= 220 -> inside lo hi (Some hr) = true -> inside 30 220 (Some hr) = true.
Proof.
  intros Hl Hh (x & -> & L & U)%inside_value. cbn [inside].
  rewrite Zle_Qle in Hl, Hh.
  apply andb_true_iff. split; apply Qle_bool_iff; lra.
Qed.

Lemma predict_diastolic hr a m w h :
  rejects hr = false ->
  predictBloodPressure hr a m w h !! "diastolic" =
  Some (VNum (diastolicOf hr (param (num_of_Z 30) a) (param (num_of_Z 70) w)
                (param (num_of_Z 170) h))).
Proof.
  intros H. unfold predictBloodPressure. rewrite H. cbv zeta.
  unfold obj. cbn [fold_left fst snd]. simplify_map_eq. reflexivity.
Qed.

Lemma predict_category hr a m w h :
  rejects hr = false ->
  predictBloodPressure hr a m w h !! "category" =
  Some (VStr (categoryOf
                (systolicOf hr (param (num_of_Z 30) a) (param true m)
                   (param (num_of_Z 70) w) (param (num_of_Z 170) h))
                (diastolicOf hr (param (num_of_Z 30) a) (param (num_of_Z 70) w)
                   (param (num_of_Z 170) h)))).
Proof.
  intros H. unfold predictBloodPressure. rewrite H. cbv zeta.
  unfold obj. cbn [fold_left fst snd]. simplify_map_eq. reflexivity.
Qed.

(** The estimate of an accepted heart rate of at least [lo], whatever the
    profile *)
Lemma estimate_not_below (lo s d : Z) hr a m w h :
  30 <= lo <= 220 -> 2 * s <= lo + 171 -> 4 * d <= lo + 252 ->
  inside lo 220 (Some hr) = true ->
  not_below (inject_Z s)
    (systolicOf (Some hr) (param (num_of_Z 30) a) (param true m)
       (param (num_of_Z 70) w) (param (num_of_Z 170) h))
  /\ not_below (inject_Z d)
       (diastolicOf (Some hr) (param (num_of_Z 30) a) (param (num_of_Z 70) w)
          (param (num_of_Z 170) h)).
Proof.
  intros Hlo Hs Hd (x & -> & L & _)%inside_value.
  assert (B : forall (n j : Z) c, Z.abs n <= 1000 -> 0 <= j <= 2 ->
              (c == inject_Z n * pow2 (- j))%Q -> binary64 c).
  { intros n j c Hn Hj E. apply (binary64_closed c n j); [| lia | exact E].
    change (2 ^ 53) with 9007199254740992. lia. }
  rewrite Zle_Qle in Hs, Hd. rewrite inject_Z_mult, inject_Z_plus in Hs, Hd.
  change (inject_Z 2) with (2 # 1)%Q in Hs. change (inject_Z 4) with (4 # 1)%Q in Hd.
  change (inject_Z 171) with (171 # 1)%Q in Hs. change (inject_Z 252) with (252 # 1)%Q in Hd.
  assert (I70 : (inject_Z (lo - 70) == inject_Z lo - 70)%Q).
  { unfold Z.sub. rewrite inject_Z_plus. apply Qeq_refl. }
  assert (I170 : (inject_Z (lo + 170) == inject_Z lo + 170)%Q).
  { rewrite inject_Z_plus. apply Qeq_refl. }
  assert (I250 : (inject_Z (lo + 250) == inject_Z lo + 250)%Q).
  { rewrite inject_Z_plus. apply Qeq_refl. }
  assert (B1 : binary64 (inject_Z lo - 70)).
  { apply (B (lo - 70) 0); [lia | lia |]. change (pow2 (Z.opp 0)) with 1%Q.
    clear - I70. revert I70. generalize (inject_Z (lo - 70)) (inject_Z lo). intros. lra. }
  assert (B2 : binary64 ((inject_Z lo - 70) * (1 # 2))).
  { apply (B (lo - 70) 1); [lia | lia |]. change (pow2 (Z.opp 1)) with (1 # 2)%Q.
    clear - I70. revert I70. generalize (inject_Z (lo - 70)) (inject_Z lo). intros. lra. }
  assert (B3 : binary64 ((inject_Z lo - 70) * (1 # 4))).
  { apply (B (lo - 70) 2); [lia | lia |]. change (pow2 (Z.opp 2)) with (1 # 4)%Q.
    clear - I70. revert I70. generalize (inject_Z (lo - 70)) (inject_Z lo). intros. lra. }
  assert (B4 : binary64 (120 + (inject_Z lo - 70) * (1 # 2))).
  { apply (B (lo + 170) 1); [lia | lia |]. change (pow2 (Z.opp 1)) with (1 # 2)%Q.
    clear - I170. revert I170. generalize (inject_Z (lo + 170)) (inject_Z lo). intros. lra. }
  assert (B5 : binary64 (80 + (inject_Z lo - 70) * (1 # 4))).
  { apply (B (lo + 250) 2); [lia | lia |]. change (pow2 (Z.opp 2)) with (1 # 4)%Q.
    clear - I250. revert I250. generalize (inject_Z (lo + 250)) (inject_Z lo). intros. lra. }
  clear I70 I170 I250 B.
  split.
  - apply (systolic_not_below (inject_Z lo)); try assumption. lra.
  - apply (diastolic_not_below (inject_Z lo)); try assumption. lra.
Qed.

(** *** The error of a rounded sum *)

Section Errors.
Local Open Scope Q_scope.

Lemma near_fin q k :
  Qabs q <= pow2 k -> (-1022 <= k <= 1023)%Z -> near (fin q) q (pow2 (k - 53)).
Proof.
  intros H K. destruct (round64_near q k H K) as (r & E & N & _).
  exists r. split; assumption.
Qed.

Lemma near_Finite x : near (Finite x) x 0.
Proof.
  exists x. split; [reflexivity |]. apply Qabs_Qle_condition. lra.
Qed.

Lemma near_weaken n x e e' : e <= e' -> near n x e -> near n x e'.
Proof. intros H (r & -> & N). exists r. split; [reflexivity | lra]. Qed.

Lemma near_shift n x y e : x == y -> near n x e -> near n y e.
Proof.
  intros H (r & -> & N). exists r. split; [reflexivity |].
  apply Qabs_Qle_condition in N. apply Qabs_Qle_condition. lra.
Qed.

Lemma near_add a b x y ea eb k e :
  near a x ea -> near b y eb ->
  Qabs x + ea + Qabs y + eb <= pow2 k -> (-1022 <= k <= 1023)%Z ->
  ea + eb + pow2 (k - 53) <= e ->
  near (num_add a b) (x + y) e.
Proof.
  intros (r & -> & Nr) (t & -> & Nt) H K He. cbn [num_add].
  apply Qabs_Qle_condition in Nr, Nt.
  pose proof (Qabs_Qle_condition x (Qabs x)) as [Ax _]. specialize (Ax (Qle_refl _)).
  pose proof (Qabs_Qle_condition y (Qabs y)) as [Ay _]. specialize (Ay (Qle_refl _)).
  destruct (near_fin (r + t) k) as (v & E & Nv); [apply Qabs_Qle_condition; lra | exact K |].
  exists v. split; [exact E |].
  apply Qabs_Qle_condition in Nv. apply Qabs_Qle_condition. lra.
Qed.

Lemma near_mul_half a x ea k e :
  near a x ea -> (Qabs x + ea) * (1 # 2) <= pow2 k -> (-1022 <= k <= 1023)%Z ->
  ea * (1 # 2) + pow2 (k - 53) <= e ->
  near (num_mul a half) (x * (1 # 2)) e.
Proof.
  intros (r & -> & Nr) H K He. unfold half. cbn [num_mul].
  apply Qabs_Qle_condition in Nr.
  pose proof (Qabs_Qle_condition x (Qabs x)) as [Ax _]. specialize (Ax (Qle_refl _)).
  destruct (near_fin (r * (1 # 2)) k) as (v & E & Nv); [apply Qabs_Qle_condition; lra | exact K |].
  exists v. split; [exact E |].
  apply Qabs_Qle_condition in Nv. apply Qabs_Qle_condition. lra.
Qed.

Lemma moderate_value n :
  moderate n = true -> exists q, n = Finite q /\ 0 <= q /\ q <= 281474976710656.
Proof.
  destruct n as [q | | |]; try discriminate. cbn [moderate].
  intros [L U]%andb_true_iff. apply Qle_bool_iff in L, U.
  exists q. split; [reflexivity |]. split; [exact L | exact U].
Qed.

(** The heart-rate factor of a rate between 0 and 256 *)
Lemma hrFactor_near x :
  0 <= x -> x <= 256 ->
  near (hrFactor (Some (Finite x))) ((x - 70) * (1 # 2)) (1 # 17592186044416).
Proof.
  intros L U. unfold hrFactor. cbn [to_number default from_option num_sub num_of_Z].
  apply (near_mul_half _ (x - 70) (1 # 35184372088832) 7).
  - apply (near_shift _ (x - inject_Z 70)); [unfold inject_Z; lra |].
    apply (near_weaken _ _ (pow2 (8 - 53))); [apply Qle_refl |].
    apply near_fin; [| lia]. apply Qabs_Qle_condition.
    change (pow2 8) with 256. unfold inject_Z. lra.
  - change (pow2 7) with 128.
    assert (Qabs (x - 70) <= 186) by (apply Qabs_Qle_condition; lra). lra.
  - lia.
  - apply Qle_bool_iff. vm_compute. reflexivity.
Qed.

(** The sum that [Math.round] receives for the systolic estimate, within a
    half of its exact value when the factors are moderate *)
Lemma systolic_sum_near x af bf m :
  0 <= x -> x <= 256 ->
  0 <= af -> af <= 281474976710656 -> 0 <= bf -> bf <= 281474976710656 ->
  near (num_add (num_add (num_add (num_add baseSystolic (hrFactor (Some (Finite x))))
                            (Finite af)) (Finite bf)) (genderFactor m))
       (120 + (x - 70) * (1 # 2) + af + bf + (if m then 2 else 0))
       (15 # 32).
Proof.
  intros L U A1 A2 B1 B2.
  assert (Hx : Qabs ((x - 70) * (1 # 2)) <= 93) by (apply Qabs_Qle_condition; lra).
  assert (Ha : Qabs af == af) by (apply Qabs_pos; exact A1).
  assert (Hb : Qabs bf == bf) by (apply Qabs_pos; exact B1).
  assert (S1 : near (num_add baseSystolic (hrFactor (Some (Finite x))))
                    (120 + (x - 70) * (1 # 2)) (1 # 4398046511104)).
  { apply (near_add _ _ _ _ 0 (1 # 17592186044416) 9);
      [apply near_Finite | apply hrFactor_near; assumption | | lia |].
    - change (pow2 9) with 512. change (Qabs 120) with 120. lra.
    - apply Qle_bool_iff. vm_compute. reflexivity. }
  assert (H1 : Qabs (120 + (x - 70) * (1 # 2)) <= 213) by (apply Qabs_Qle_condition; lra).
  assert (S2 : near (num_add (num_add baseSystolic (hrFactor (Some (Finite x)))) (Finite af))
                    (120 + (x - 70) * (1 # 2) + af) (1 # 15)).
  { apply (near_add _ _ _ _ (1 # 4398046511104) 0 49); [exact S1 | apply near_Finite | | lia |].
    - change (pow2 49) with 562949953421312. lra.
    - apply Qle_bool_iff. vm_compute. reflexivity. }
  assert (H2 : Qabs (120 + (x - 70) * (1 # 2) + af) <= 281474976710869)
    by (apply Qabs_Qle_condition; lra).
  assert (S3 : near (num_add (num_add (num_add baseSystolic (hrFactor (Some (Finite x))))
                                (Finite af)) (Finite bf))
                    (120 + (x - 70) * (1 # 2) + af + bf) (1 # 5)).
  { apply (near_add _ _ _ _ (1 # 15) 0 50); [exact S2 | apply near_Finite | | lia |].
    - change (pow2 50) with 1125899906842624. lra.
    - apply Qle_bool_iff. vm_compute. reflexivity. }
  assert (H3 : Qabs (120 + (x - 70) * (1 # 2) + af + bf) <= 562949953421525)
    by (apply Qabs_Qle_condition; lra).
  apply (near_add _ _ _ _ (1 # 5) 0 51); [exact S3 | | | lia |].
  - destruct m; apply near_Finite.
  - change (pow2 51) with 2251799813685248.
    destruct m; [change (Qabs 2) with 2 | change (Qabs 0) with 0]; lra.
  - apply Qle_bool_iff. vm_compute. reflexivity.
Qed.

(** The same for the diastolic estimate, within a seventh *)
Lemma diastolic_sum_near x af bf :
  0 <= x -> x <= 256 ->
  0 <= af -> af <= 281474976710656 -> 0 <= bf -> bf <= 281474976710656 ->
  near (num_add (num_add (num_add baseDiastolic (num_mul (hrFactor (Some (Finite x))) half))
                   (num_mul (Finite af) half))
          (num_mul (Finite bf) half))
       (80 + (x - 70) * (1 # 2) * (1 # 2) + af * (1 # 2) + bf * (1 # 2))
       (1 # 7).
Proof.
  intros L U A1 A2 B1 B2.
  assert (Hx : Qabs ((x - 70) * (1 # 2)) <= 93) by (apply Qabs_Qle_condition; lra).
  assert (Hy : Qabs ((x - 70) * (1 # 2) * (1 # 2)) <= 47) by (apply Qabs_Qle_condition; lra).
  assert (Ha : Qabs af == af) by (apply Qabs_pos; exact A1).
  assert (Hb : Qabs bf == bf) by (apply Qabs_pos; exact B1).
  assert (Ha2 : Qabs (af * (1 # 2)) == af * (1 # 2)) by (apply Qabs_pos; lra).
  assert (Hb2 : Qabs (bf * (1 # 2)) == bf * (1 # 2)) by (apply Qabs_pos; lra).
  assert (F1 : near (num_mul (hrFactor (Some (Finite x))) half)
                    ((x - 70) * (1 # 2) * (1 # 2)) (1 # 17592186044416)).
  { apply (near_mul_half _ _ (1 # 17592186044416) 6); [apply hrFactor_near; assumption | | lia |].
    - change (pow2 6) with 64. lra.
    - apply Qle_bool_iff. vm_compute. reflexivity. }
  assert (F2 : near (num_mul (Finite af) half) (af * (1 # 2)) (1 # 64)).
  { apply (near_mul_half _ _ 0 47); [apply near_Finite | | lia |].
    - change (pow2 47) with 140737488355328. lra.
    - apply Qle_bool_iff. vm_compute. reflexivity. }
  assert (F3 : near (num_mul (Finite bf) half) (bf * (1 # 2)) (1 # 64)).
  { apply (near_mul_half _ _ 0 47); [apply near_Finite | | lia |].
    - change (pow2 47) with 140737488355328. lra.
    - apply Qle_bool_iff. vm_compute. reflexivity. }
  assert (S1 : near (num_add baseDiastolic (num_mul (hrFactor (Some (Finite x))) half))
                    (80 + (x - 70) * (1 # 2) * (1 # 2)) (1 # 4398046511104)).
  { apply (near_add _ _ _ _ 0 (1 # 17592186044416) 8); [apply near_Finite | exact F1 | | lia |].
    - change (pow2 8) with 256. change (Qabs 80) with 80. lra.
    - apply Qle_bool_iff. vm_compute. reflexivity. }
  assert (H1 : Qabs (80 + (x - 70) * (1 # 2) * (1 # 2)) <= 127)
    by (apply Qabs_Qle_condition; lra).
  assert (S2 : near (num_add (num_add baseDiastolic
                                (num_mul (hrFactor (Some (Finite x))) half))
                       (num_mul (Finite af) half))
                    (80 + (x - 70) * (1 # 2) * (1 # 2) + af * (1 # 2)) (1 # 21)).
  { apply (near_add _ _ _ _ (1 # 4398046511104) (1 # 64) 48); [exact S1 | exact F2 | | lia |].
    - change (pow2 48) with 281474976710656. lra.
    - apply Qle_bool_iff. vm_compute. reflexivity. }
  assert (H2 : Qabs (80 + (x - 70) * (1 # 2) * (1 # 2) + af * (1 # 2)) <= 140737488355455)
    by (apply Qabs_Qle_condition; lra).
  apply (near_add _ _ _ _ (1 # 21) (1 # 64) 49); [exact S2 | exact F3 | | lia |].
  - change (pow2 49) with 562949953421312. lra.
  - apply Qle_bool_iff. vm_compute. reflexivity.
Qed.

End Errors.

(** *** The estimate under rounding *)

(** The estimate of an accepted heart rate when the factors are moderate:
    each number is the rounding of a sum that is close to its exact value. *)
Lemma moderate_estimate x age isMale weight height af bf :
  (30 <= x)%Q -> (x <= 220)%Q ->
  ageFactorOf age = Finite af -> bmiFactorOf weight height = Finite bf ->
  (0 <= af)%Q -> (af <= 281474976710656)%Q -> (0 <= bf)%Q -> (bf <= 281474976710656)%Q ->
  exists rs rd : Q,
    predictBloodPressure (Some (Finite x)) age isMale weight height !! "systolic"
    = Some (js_Z (Qfloor (rs + (1 # 2))))
    /\ predictBloodPressure (Some (Finite x)) age isMale weight height !! "diastolic"
       = Some (js_Z (Qfloor (rd + (1 # 2))))
    /\ (Qabs (rs - (120 + (x - 70) * (1 # 2) + af + bf
                    + (if param true isMale then 2 else 0))) <= 15 # 32)%Q
    /\ (Qabs (rd - (80 + (x - 70) * (1 # 2) * (1 # 2) + af * (1 # 2) + bf * (1 # 2)))
        <= 1 # 7)%Q.
Proof.
  intros L U Ea Eb A1 A2 B1 B2.
  assert (I : inside 30 220 (Some (Finite x)) = true).
  { cbn [inside]. apply andb_true_iff. split; apply Qle_bool_iff; unfold inject_Z; lra. }
  pose proof (inside_accepted _ I) as R.
  destruct (predict_accepted _ age isMale weight height R) as [_ S].
  pose proof (predict_diastolic _ age isMale weight height R) as D.
  unfold ageFactorOf in Ea. unfold bmiFactorOf in Eb.
  destruct (systolic_sum_near x af bf (param true isMale)) as (rs & Es & Ns);
    try assumption; try lra.
  destruct (diastolic_sum_near x af bf) as (rd & Ed & Nd); try assumption; try lra.
  exists rs, rd. split; [| split; [| split; [exact Ns | exact Nd]]].
  - rewrite S. unfold systolicOf. rewrite Ea, Eb, Es. reflexivity.
  - rewrite D. unfold diastolicOf. rewrite Ea, Eb, Ed. reflexivity.
Qed.

(** What [heartRate + 10] within 30..220 says of [heartRate] *)
Lemma plus10_inside heartRate :
  inside 30 220 (Some (plus10 heartRate)) = true ->
  exists x x', heartRate = Finite x /\ plus10 heartRate = Finite x'
    /\ (30 <= x')%Q /\ (x' <= 220)%Q
    /\ (Qabs (x' - (x + 10)) <= 1 # 35184372088832)%Q.
Proof.
  intros I. destruct heartRate as [x | | |]; try discriminate I.
  destruct (inside_value _ _ _ I) as (x' & E & L & U). unfold inject_Z in L, U.
  exists x, x'. split; [reflexivity |]. split; [exact E |].
  split; [exact L |]. split; [exact U |].
  cbn [plus10 num_add num_of_Z] in E.
  assert (Lo : (0 <= x + inject_Z 10)%Q).
  { apply Qnot_lt_le. intros N.
    assert (Z0 : binary64 0) by (apply (binary64_closed _ 0 0); [lia | lia | reflexivity]).
    pose proof (round64_le 0 (x + inject_Z 10) Z0 ltac:(lra)) as R.
    unfold fin in E. rewrite E in R. cbn [num_le] in R. apply Qle_bool_iff in R. lra. }
  assert (Hi : (x + inject_Z 10 <= 256)%Q).
  { apply Qnot_lt_le. intros N.
    assert (Z0 : binary64 256) by b64 256 0.
    pose proof (round64_ge 256 (x + inject_Z 10) Z0 ltac:(lra)) as R.
    unfold fin in E. rewrite E in R. cbn [num_le] in R. apply Qle_bool_iff in R. lra. }
  destruct (near_fin (x + inject_Z 10) 8) as (r & Er & N).
  { apply Qabs_Qle_condition. change (pow2 8) with 256%Q. lra. }
  { lia. }
  rewrite E in Er. injection Er as <-.
  change (pow2 (8 - 53)) with (1 # 35184372088832)%Q in N.
  apply Qabs_Qle_condition in N. apply Qabs_Qle_condition.
  unfold inject_Z in *. lra.
Qed.

Lemma moderate_both age weight height :
  moderate (ageFactorOf age) = true -> moderate (bmiFactorOf weight height) = true ->
  exists af bf,
    ageFactorOf age = Finite af /\ bmiFactorOf weight height = Finite bf
    /\ (0 <= af)%Q /\ (af <= 281474976710656)%Q
    /\ (0 <= bf)%Q /\ (bf <= 281474976710656)%Q.
Proof.
  intros (af & Ea & A1 & A2)%moderate_value (bf & Eb & B1 & B2)%moderate_value.
  exists af, bf. auto 10.
Qed.

Lemma Qfloor_between (r r' : Q) (lo hi : Z) :
  (r + inject_Z lo <= r')%Q -> (r' <= r + inject_Z hi)%Q ->
  Qfloor (r + (1 # 2)) + lo <= Qfloor (r' + (1 # 2)) <= Qfloor (r + (1 # 2)) + hi.
Proof.
  intros L U. rewrite <- !Qfloor_add_Z. split; apply Qfloor_resp_le; lra.
Qed.

Lemma rejected_systolic hr a m w h :
  rejects hr = true -> number_at "systolic" (predictBloodPressure hr a m w h) = num_of_Z 0.
Proof. intros R. rewrite (predict_rejected _ _ _ _ _ R). reflexivity. Qed.

(** C6. The estimator returns [valid: false] with [systolic] and
    [diastolic] 0 exactly when the heart rate is falsy or not within
    30..220, whatever the profile; a heart rate of 0 is such a case. *)
Theorem estimator_rejects_iff :
  (forall heartRate age isMale weight height,
      rejected (predictBloodPressure heartRate age isMale weight height)
      <-> truthy heartRate = false \/ inside 30 220 heartRate = false)
  /\ (forall age isMale weight height,
      rejected (predictBloodPressure (Some (num_of_Z 0)) age isMale weight height)).
Proof.
  assert (G : forall heartRate age isMale weight height,
      rejected (predictBloodPressure heartRate age isMale weight height)
      <-> truthy heartRate = false \/ inside 30 220 heartRate = false).
  { intros hr a m w h. rewrite <- rejects_iff. split.
    - intros (V & _). destruct (rejects hr) eqn:E; [reflexivity |].
      destruct (predict_accepted hr a m w h E) as [V' _]. congruence.
    - intros E. rewrite (predict_rejected _ _ _ _ _ E). repeat split. }
  split; [exact G |]. intros a m w h. apply G. left. reflexivity.
Qed.

(** C8, as stated, fails: from 216 to 226 beats per minute, with the
    default profile, the estimate falls from 195 to the 0 of a rejection. *)
Lemma systolic_drops_past_220 :
  number_at "systolic" (predictBloodPressure (Some (num_of_Z 216)) None None None None)
  = num_of_Z 195
  /\ number_at "systolic"
       (predictBloodPressure (Some (plus10 (num_of_Z 216))) None None None None)
     = num_of_Z 0
  /\ num_lt
       (number_at "systolic" (predictBloodPressure (Some (num_of_Z 216)) None None None None))
       (number_at "systolic"
          (predictBloodPressure (Some (plus10 (num_of_Z 216))) None None None None))
     = false.
Proof. repeat split; vm_compute; reflexivity. Qed.

(** C8, amended. When the heart rate plus 10 lies within 30..220, and the
    age factor and the BMI factor that the estimator computes from the
    profile are finite and at most [2^48], raising the heart rate by 10
    strictly raises the systolic estimate, the arithmetic being that of
    binary64.  The lower rate may lie below 30: it is then refused with a
    systolic value of 0, which the estimate of the higher rate exceeds. *)
Theorem systolic_increases_in_range heartRate age isMale weight height :
  inside 30 220 (Some (plus10 heartRate)) = true ->
  moderate (ageFactorOf age) = true -> moderate (bmiFactorOf weight height) = true ->
  num_lt
    (number_at "systolic" (predictBloodPressure (Some heartRate) age isMale weight height))
    (number_at "systolic"
       (predictBloodPressure (Some (plus10 heartRate)) age isMale weight height))
  = true.
Proof.
  intros I Ma Mb.
  destruct (plus10_inside _ I) as (x & x' & -> & E' & L' & U' & N).
  destruct (moderate_both _ _ _ Ma Mb) as (af & bf & Ea & Eb & A1 & A2 & B1 & B2).
  rewrite E'. apply Qabs_Qle_condition in N.
  destruct (moderate_estimate x' age isMale weight height af bf L' U' Ea Eb A1 A2 B1 B2)
    as (rs' & _ & S' & _ & Ns' & _).
  apply Qabs_Qle_condition in Ns'.
  unfold number_at at 2. rewrite S'.
  destruct (rejects (Some (Finite x))) eqn:R.
  - (* the lower rate is refused: its estimate is 0 *)
    rewrite (rejected_systolic _ _ _ _ _ R). apply num_lt_Z.
    assert (100 <= Qfloor (rs' + (1 # 2))); [| lia].
    apply Qfloor_lower. unfold inject_Z. destruct (param true isMale); lra.
  - (* both rates are accepted *)
    assert (Ix : inside 30 220 (Some (Finite x)) = true).
    { destruct (inside 30 220 (Some (Finite x))) eqn:Ix; [reflexivity |].
      assert (X : rejects (Some (Finite x)) = true) by (apply rejects_iff; right; exact Ix).
      congruence. }
    destruct (inside_value _ _ _ Ix) as (y & [= <-] & L & U). unfold inject_Z in L, U.
    destruct (moderate_estimate x age isMale weight height af bf L U Ea Eb A1 A2 B1 B2)
      as (rs & _ & S & _ & Ns & _).
    apply Qabs_Qle_condition in Ns.
    unfold number_at. rewrite S. apply num_lt_Z.
    pose proof (Qfloor_between rs rs' 4 6) as F. unfold inject_Z in F.
    destruct F as [F _]; [lra | lra | lia].
Qed.

Lemma systolic_increases_in_range_witness :
  inside 30 220 (Some (plus10 (num_of_Z 25))) = true
  /\ num_lt
       (number_at "systolic" (predictBloodPressure (Some (num_of_Z 25)) None None None None))
       (number_at "systolic"
          (predictBloodPressure (Some (plus10 (num_of_Z 25))) None None None None))
     = true.
Proof.
  split; [vm_compute; reflexivity |].
  apply (systolic_increases_in_range (num_of_Z 25) None None None None);
    vm_compute; reflexivity.
Defined.

(** Why the factors must be moderate: at an age of [10^18] the age factor
    is near [3 * 10^17], where the binary64 values are 64 apart, and the
    increase by 5 is absorbed: the estimate is the same at 75 and at 85
    beats per minute. *)
Example large_age_absorbs_the_increase :
  number_at "systolic"
    (predictBloodPressure (Some (num_of_Z 75)) (Some (num_of_Z (10 ^ 18))) None None None)
  = num_of_Z 300000000000000128
  /\ number_at "systolic"
       (predictBloodPressure (Some (plus10 (num_of_Z 75))) (Some (num_of_Z (10 ^ 18)))
          None None None)
     = num_of_Z 300000000000000128.
Proof. split; vm_compute; reflexivity. Qed.

(** The arithmetic rounds as JavaScript's does: [0.1 + 0.2] is
    [0.30000000000000004], not [0.3]; the age factor at 33 is
    [0.8999999999999999] and the body-mass factor of 36 kg at 40 cm is
    [99.99999999999997]. *)
Example sum_of_tenths_is_rounded :
  num_add (fin (1 # 10)) (fin (2 # 10)) = fin (30000000000000004 # 100000000000000000)
  /\ num_add (fin (1 # 10)) (fin (2 # 10)) <> three_tenths.
Proof. split; [vm_compute; reflexivity | vm_compute; discriminate]. Qed.

Example factors_are_rounded :
  ageFactorOf (Some (num_of_Z 33)) = fin (8999999999999999 # 10000000000000000)
  /\ bmiFactorOf (Some (num_of_Z 36)) (Some (num_of_Z 40))
     = fin (9999999999999997 # 100000000000000).
Proof. split; vm_compute; reflexivity. Qed.

(** ** Reading validator *)

Lemma overall_isValid data :
  overall (validateHeartRate (Resolved (Some data))) = VBool (isValid data).
Proof. unfold overall, validateHeartRate. lookups. reflexivity. Qed.

Lemma subcheck_pulseValue data :
  subcheck "pulseValue" (validateHeartRate (Resolved (Some data)))
  = VBool (in_range 500 8000 (HealthData.pulse_value data)).
Proof. unfold subcheck, validateHeartRate, validation. lookups. reflexivity. Qed.

Lemma subcheck_heartRate data :
  subcheck "heartRate" (validateHeartRate (Resolved (Some data)))
  = js_and (VBool (in_range 30 220 (HealthData.bpm data))) (HealthData.valid_bpm data).
Proof. unfold subcheck, validateHeartRate, validation. lookups. reflexivity. Qed.

Lemma subcheck_waveform data :
  subcheck "waveform" (validateHeartRate (Resolved (Some data)))
  = match HealthData.waveform data with
    | Some l => VBool (10 <=? Z.of_nat (length l))
    | None => VUndefined
    end.
Proof. unfold subcheck, validateHeartRate, validation. lookups. reflexivity. Qed.

Lemma subcheck_signalQuality data :
  subcheck "signalQuality" (validateHeartRate (Resolved (Some data)))
  = VBool (in_range 500 8000 (HealthData.pulse_value data)).
Proof. unfold subcheck, validateHeartRate, validation. lookups. reflexivity. Qed.

Lemma isValid_checks data :
  isValid data =
  forallb (fun name => truthy (subcheck name (validateHeartRate (Resolved (Some data))))) checks.
Proof.
  unfold checks. cbn [forallb].
  rewrite subcheck_pulseValue, subcheck_heartRate, subcheck_waveform, subcheck_signalQuality.
  unfold isValid, validation. cbn [forallb snd]. lookups. reflexivity.
Qed.

Lemma VBool_true_iff b : VBool b = VBool true <-> b = true.
Proof. split; [intros [= ->] | intros ->]; reflexivity. Qed.

(** C7. The overall verdict is [true] exactly when the four checks are all
    valid; a waveform that is missing or empty makes it [false]; and a
    missing field fails its check in a normal response, with no error. *)
Theorem validator_verdict data :
  let r := validateHeartRate (Resolved (Some data)) in
  res_status r = 200
  /\ (overall r = VBool true \/ overall r = VBool false)
  /\ (overall r = VBool true <-> forall name, name ∈ checks -> truthy (subcheck name r) = true)
  /\ (HealthData.waveform data = None \/ HealthData.waveform data = Some [] ->
      overall r = VBool false)
  /\ (HealthData.pulse_value data = None ->
      truthy (subcheck "pulseValue" r) = false /\ truthy (subcheck "signalQuality" r) = false)
  /\ (HealthData.bpm data = None -> truthy (subcheck "heartRate" r) = false)
  /\ (HealthData.valid_bpm data = VUndefined -> truthy (subcheck "heartRate" r) = false)
  /\ (HealthData.waveform data = None -> truthy (subcheck "waveform" r) = false).
Proof.
  intros r. subst r.
  assert (W : HealthData.waveform data = None \/ HealthData.waveform data = Some [] ->
              truthy (subcheck "waveform" (validateHeartRate (Resolved (Some data)))) = false).
  { rewrite subcheck_waveform. intros [-> | ->]; reflexivity. }
  rewrite overall_isValid, isValid_checks.
  split; [reflexivity |]. split; [destruct (forallb _ _); auto |].
  split; [| split; [| split; [| split; [| split]]]].
  - rewrite VBool_true_iff, forallb_forall.
    split; intros H name Hn; apply H; apply list_elem_of_In; exact Hn.
  - intros H. f_equal. unfold checks. cbn [forallb]. rewrite (W H).
    cbn [andb]. rewrite !andb_false_r. reflexivity.
  - intros H. rewrite subcheck_pulseValue, subcheck_signalQuality, H. split; reflexivity.
  - intros H. rewrite subcheck_heartRate, H. reflexivity.
  - intros H. rewrite subcheck_heartRate, H. unfold js_and.
    destruct (truthy (VBool _)) eqn:E; [reflexivity | exact E].
  - intros H. apply W. left. exact H.
Qed.

(** C10. When the record itself is missing the validator answers 404
    with [valid: false] and a no-data message, and no verdict; a record
    that is there but has none of the four fields gets a normal response
    whose four checks all fail. *)
Theorem absent_record_is_not_found :
  let absent := validateHeartRate (Resolved None) in
  (res_status absent = 404
   /\ overall absent = VBool false
   /\ prop "message" (res_body absent) = VStr "No heartbeat data found"
   /\ prop "reason" (res_body absent) = VStr "No data available"
   /\ prop "validation" (res_body absent) = VUndefined)
  /\ (forall valid_bpm userProfile health_id timestamp,
        let r := validateHeartRate (Resolved (Some
          {| HealthData.bpm := None; HealthData.valid_bpm := valid_bpm;
             HealthData.pulse_value := None; HealthData.waveform := None;
             HealthData.userProfile := userProfile; HealthData.health_id := health_id;
             HealthData.timestamp := timestamp |})) in
        res_status r = 200
        /\ overall r = VBool false
        /\ prop "message" (res_body r) = VStr "Heart rate validation failed"
        /\ (forall name, name ∈ checks -> truthy (subcheck name r) = false)
        /\ keys (prop "validation" (res_body r)) = list_to_set checks).
Proof.
  split.
  - repeat split; vm_compute; reflexivity.
  - intros v up hid ts r. subst r.
    set (data := {| HealthData.bpm := None |}).
    assert (C : forall name, name ∈ checks ->
                truthy (subcheck name (validateHeartRate (Resolved (Some data)))) = false).
    { intros name Hn. unfold checks in Hn. rewrite !elem_of_cons in Hn.
      destruct Hn as [-> | [-> | [-> | [-> | Hn]]]].
      - rewrite subcheck_pulseValue. reflexivity.
      - rewrite subcheck_heartRate. reflexivity.
      - rewrite subcheck_waveform. reflexivity.
      - rewrite subcheck_signalQuality. reflexivity.
      - inversion Hn. }
    assert (V : isValid data = false).
    { rewrite isValid_checks. unfold checks. cbn [forallb].
      rewrite (C "pulseValue"); [reflexivity | unfold checks; set_solver]. }
    split; [reflexivity |]. split; [rewrite overall_isValid, V; reflexivity |].
    split; [| split; [exact C |]].
    + unfold validateHeartRate. rewrite V. lookups. reflexivity.
    + unfold validateHeartRate, validation. lookups. cbn [keys].
      rewrite !dom_insert_L, dom_empty_L. unfold checks. cbn [list_to_set]. set_solver.
Qed.

(** ** Composite health view *)

(** C1, as stated, fails: with [health.bpm = 0] and [status.bpm = 75] a
    nullish fallback would keep the 0, and the view reports 75. *)
Lemma zero_health_bpm_falls_through :
  let r := getHealthData 0 (Resolved (Some (statusWithBpm 75)))
             (Resolved (Some (healthWithBpm 0))) in
  js_num (heartRate_nullish (healthWithBpm 0) (statusWithBpm 75)) = js_Z 0
  /\ prop "bpm" (prop "heartRate" (dataOf r)) = js_Z 75
  /\ prop "bpm" (prop "heartRate" (dataOf r))
     <> js_num (heartRate_nullish (healthWithBpm 0) (statusWithBpm 75)).
Proof. cbv zeta. split; [reflexivity |]. split; [vm_compute; reflexivity |]. vm_compute. discriminate. Qed.

Lemma heartRateOf_truthy h s : heartRateOf h s = heartRate_truthy h s.
Proof.
  unfold heartRateOf, heartRate_truthy, js_or.
  destruct (truthy (HealthData.bpm h)) eqn:E1; [rewrite E1; reflexivity |].
  destruct (truthy (StatusData.bpm s)) eqn:E2; reflexivity.
Qed.

Lemma dataOf_success now sv hv :
  dataOf (getHealthData now (Resolved sv) (Resolved hv))
  = VObj (healthResponse now (default StatusData.empty sv) (default HealthData.empty hv)).
Proof. unfold dataOf, getHealthData. lookups. reflexivity. Qed.

(** C1, amended. The heart rate of the composite view is [health.bpm] if
    that is truthy, otherwise [status.bpm] if that is truthy, otherwise 0;
    the status, the zone and the blood-pressure estimate are computed from
    that same value; with [health.bpm = 0] and [status.bpm = 75] it is 75. *)
Theorem heart_rate_resolution now statusVal healthVal :
  let statusData := default StatusData.empty statusVal in
  let healthData := default HealthData.empty healthVal in
  let userProfile := default defaultProfile (HealthData.userProfile healthData) in
  let heartRate := heartRate_truthy healthData statusData in
  let d := dataOf (getHealthData now (Resolved statusVal) (Resolved healthVal)) in
  (prop "bpm" (prop "heartRate" d) = js_num heartRate
   /\ prop "status" (prop "heartRate" d) = VStr (getHeartRateStatus heartRate)
   /\ prop "zone" (prop "heartRate" d) = VStr (getHeartRateZone heartRate)
   /\ forall k, k <> "lastUpdated" -> k <> "note" ->
        prop k (prop "bloodPressure" d)
        = field k (predictBloodPressure heartRate (age userProfile) (isMale userProfile)
                     (weight userProfile) (height userProfile)))
  /\ prop "bpm" (prop "heartRate"
       (dataOf (getHealthData now (Resolved (Some (statusWithBpm 75)))
                  (Resolved (Some (healthWithBpm 0)))))) = js_Z 75.
Proof.
  intros sd hd up hr d. split.
  - subst d. rewrite dataOf_success. fold sd hd. unfold healthResponse.
    rewrite heartRateOf_truthy. fold hr. fold up. 
    split; [lookups; reflexivity |]. split; [lookups; reflexivity |].
    split; [lookups; reflexivity |].
    intros k H1 H2. lookups. reflexivity.
  - vm_compute. reflexivity.
Qed.

(** C2, as stated, fails: the [bloodPressure] object of the failure
    payload has no [lastUpdated] and no [note], which the success path
    always adds. *)
Lemma failure_payload_lacks_keys :
  let success := getHealthData 0 (Resolved None) (Resolved None) in
  let failure := getHealthData 0 (Rejected "unavailable") (Rejected "unavailable") in
  keys (prop "bloodPressure" (dataOf success))
  = list_to_set ["systolic"; "diastolic"; "valid"; "message"; "lastUpdated"; "note"]
  /\ keys (prop "bloodPressure" (dataOf failure))
     = list_to_set ["systolic"; "diastolic"; "valid"; "message"]
  /\ keys (prop "bloodPressure" (dataOf success))
     <> keys (prop "bloodPressure" (dataOf failure)).
Proof.
  cbv zeta.
  assert (S : keys (prop "bloodPressure" (dataOf (getHealthData 0 (Resolved None) (Resolved None))))
  = list_to_set ["systolic"; "diastolic"; "valid"; "message"; "lastUpdated"; "note"]).
  { vm_compute. reflexivity. }
  assert (F : keys (prop "bloodPressure" (dataOf (getHealthData 0 (Rejected "unavailable") (Rejected "unavailable"))))
     = list_to_set ["systolic"; "diastolic"; "valid"; "message"]).
  { vm_compute. reflexivity. }
  split; [exact S |]. split; [exact F |]. rewrite S, F. compute_done.
Qed.

Lemma dataOf_failure now (sr : Await (option StatusData.t)) (hr : Await (option HealthData.t)) :
  failed sr hr = true -> dataOf (getHealthData now sr hr) = VObj (offlineHealth now).
Proof.
  intros F. unfold dataOf, getHealthData.
  destruct sr, hr; try discriminate F; lookups; reflexivity.
Qed.

Lemma pressure_keys hr a m w h :
  dom (predictBloodPressure hr a m w h)
  = (if rejects hr then list_to_set ["systolic"; "diastolic"; "valid"; "message"]
     else list_to_set ["systolic"; "diastolic"; "category"; "valid"; "confidence"; "factors"]).
Proof.
  unfold predictBloodPressure. destruct (rejects hr); cbv zeta; key_sets.
Qed.

(** C2, amended. The composite view always answers 200 with a [data]
    payload; when a read fails the payload is the all-zero offline one
    (bpm 0, status and zone "No Signal", systolic and diastolic 0, pulse
    value 0); the keys of the payload, of [heartRate] and of [pulse] are
    the same on the failure and the success path, and [bloodPressure] has
    [systolic], [diastolic] and [valid] on both. *)
Theorem health_view_never_errors now statusRead healthRead :
  let r := getHealthData now statusRead healthRead in
  let d := dataOf r in
  res_status r = 200
  /\ keys (res_body r) = {["data"]}
  /\ keys d = topKeys
  /\ keys (prop "heartRate" d) = heartRateKeys
  /\ keys (prop "pulse" d) = pulseKeys
  /\ sharedPressureKeys ⊆ keys (prop "bloodPressure" d)
  /\ (failed statusRead healthRead = true ->
      d = VObj (offlineHealth now)
      /\ prop "bpm" (prop "heartRate" d) = js_Z 0
      /\ prop "status" (prop "heartRate" d) = VStr "No Signal"
      /\ prop "zone" (prop "heartRate" d) = VStr "No Signal"
      /\ prop "systolic" (prop "bloodPressure" d) = js_Z 0
      /\ prop "diastolic" (prop "bloodPressure" d) = js_Z 0
      /\ prop "value" (prop "pulse" d) = js_Z 0).
Proof.
  intros r d. subst r d.
  split; [destruct statusRead, healthRead; reflexivity |].
  split; [destruct statusRead, healthRead; unfold getHealthData; lookups; key_sets |].
  unfold topKeys, heartRateKeys, pulseKeys, sharedPressureKeys.
  destruct (failed statusRead healthRead) eqn:F.
  - rewrite (dataOf_failure _ _ _ F). unfold offlineHealth.
    split; [key_sets |]. split; [lookups; key_sets |]. split; [lookups; key_sets |].
    split; [lookups; key_sets |]. intros _. split; [reflexivity |].
    repeat (split; [lookups; reflexivity |]). lookups; reflexivity.
  - destruct statusRead as [sv|], healthRead as [hv|]; try discriminate F.
    rewrite dataOf_success. unfold healthResponse.
    split; [key_sets |]. split; [lookups; key_sets |]. split; [lookups; key_sets |].
    split; [| discriminate].
    lookups; cbn [keys]; rewrite !dom_insert_L, pressure_keys;
      destruct (rejects _); key_sets.
Qed.

(** ** Latest-position view *)

Lemma prop_VObj k m : prop k (VObj m) = field k m.
Proof. reflexivity. Qed.

Lemma dataOf_latest now v :
  dataOf (getLatestData now (Resolved v)) = VObj (responseData now (default ∅ v)).
Proof. unfold dataOf, getLatestData. lookups. reflexivity. Qed.

Lemma responseData_named now data k :
  k = "timestamp" \/ k = "last_update" ->
  field k (responseData now data) = js_or (field k data) (field k (defaultData now)).
Proof.
  intros [-> | ->]; unfold responseData, field at 1.
  - rewrite lookup_insert_ne by discriminate. rewrite lookup_insert_eq. reflexivity.
  - rewrite lookup_insert_eq. reflexivity.
Qed.

Lemma responseData_other now data k :
  k <> "timestamp" -> k <> "last_update" ->
  responseData now data !! k = (data ∪ defaultData now) !! k.
Proof.
  intros H1 H2. unfold responseData. rewrite !lookup_insert_ne by congruence. reflexivity.
Qed.

(** C9, as stated, fails: a record that has [timestamp: 0] does not
    override the default, the view answers with the current time. *)
Lemma falsy_timestamp_is_replaced :
  let now := 1700000000000 in
  let d := dataOf (getLatestData now (Resolved (Some sourceWithZeroTimestamp))) in
  sourceWithZeroTimestamp !! "timestamp" = Some (js_Z 0)
  /\ prop "timestamp" d = VStr "2023-11-14T22:13:20.000Z"
  /\ prop "timestamp" d <> js_Z 0.
Proof. cbv zeta. split; [vm_compute; reflexivity |]. split; [vm_compute; reflexivity |]. vm_compute. discriminate. Qed.

(** C9, amended. In the latest-position view a field of the record other
    than [timestamp] and [last_update] overrides the default; a field the
    record lacks takes the default; [timestamp] and [last_update] are the
    record's when that value is truthy and the default (the current time)
    when it is missing or falsy.  For [{gps_valid: true, latitude: 12.3}]
    the result carries the current timestamp. *)
Theorem latest_position_merge now (data : gmap string JsVal) :
  let d := dataOf (getLatestData now (Resolved (Some data))) in
  (forall k v, data !! k = Some v -> k <> "timestamp" -> k <> "last_update" -> prop k d = v)
  /\ (forall k, data !! k = None -> prop k d = field k (defaultData now))
  /\ (forall k, k = "timestamp" \/ k = "last_update" ->
        prop k d = if truthy (field k data) then field k data else field k (defaultData now))
  /\ field "timestamp" (defaultData now) = VStr (toISOString now)
  /\ field "last_update" (defaultData now) = js_Z now
  /\ (let e := dataOf (getLatestData now (Resolved (Some sourceWithoutTimestamp))) in
      prop "timestamp" e = VStr (toISOString now)
      /\ prop "gps_valid" e = VBool true
      /\ prop "latitude" e = VNum (Finite (123 # 10))).
Proof.
  intros d. subst d. cbv zeta. rewrite !dataOf_latest.
  change (default ∅ (Some data)) with data.
  change (default ∅ (Some sourceWithoutTimestamp)) with sourceWithoutTimestamp.
  split; [| split; [| split; [| split; [| split; [| split; [| split]]]]]].
  - intros k v Hk H1 H2. rewrite prop_VObj. unfold field.
    rewrite responseData_other by assumption.
    rewrite (lookup_union_Some_l _ _ _ _ Hk). reflexivity.
  - intros k Hk. rewrite prop_VObj.
    destruct (decide (k = "timestamp" \/ k = "last_update")) as [N | N].
    + rewrite responseData_named by exact N.
      unfold js_or, field. rewrite Hk. reflexivity.
    + unfold field. rewrite responseData_other by tauto.
      rewrite lookup_union_r by exact Hk. reflexivity.
  - intros k N. rewrite prop_VObj, responseData_named by exact N. reflexivity.
  - unfold defaultData, field. lookups. reflexivity.
  - unfold defaultData, field. lookups. reflexivity.
  - rewrite prop_VObj, responseData_named by (left; reflexivity).
    unfold defaultData, field. lookups. reflexivity.
  - rewrite prop_VObj. unfold field. rewrite responseData_other by discriminate. reflexivity.
  - rewrite prop_VObj. unfold field. rewrite responseData_other by discriminate. reflexivity.
Qed.

(** ** Status cache *)

Section StatusCacheProperties.
Variable Date_value : JsVal -> option Z.

Lemma getStatus_hit env s :
  cacheFresh (cache s) (now env) = true ->
  getStatus Date_value env s = (cached s, s).
Proof. intros H. unfold getStatus. rewrite H. reflexivity. Qed.

Lemma getStatus_miss env s :
  cacheFresh (cache s) (now env) = false ->
  let (r, s') := getStatus Date_value env s in
  r = cached s'
  /\ upstreamReads s' = S (upstreamReads s)
  /\ Cache.ttl (cache s') = Cache.ttl (cache s)
  /\ truthy (Cache.data (cache s')) = true
  /\ (Cache.timestamp (cache s') = Some (now env)
      \/ Cache.timestamp (cache s') = Some (later env)).
Proof.
  intros H. unfold getStatus. rewrite H.
  destruct (statusRead env) as [v | msg]; [destruct (lastUpdate _ _ _) |];
    cbn [cache upstreamReads store Cache.ttl Cache.data Cache.timestamp cached];
    repeat split; auto.
Qed.

Lemma reachable_inv s : reachable Date_value s -> cache_inv s.
Proof.
  induction 1 as [| env s [Hn Hl] _ IH].
  - split; [reflexivity | exact I].
  - destruct (cacheFresh (cache s) (now env)) eqn:F.
    + rewrite (getStatus_hit _ _ F). exact IH.
    + pose proof (getStatus_miss env s F) as M.
      destruct (getStatus Date_value env s) as [r s']. cbn [snd].
      destruct M as (_ & _ & T & D & [E | E]); destruct IH as [IH _];
        split; try congruence; rewrite E; auto.
Qed.

(** C4. Once a read has stored a value with timestamp [ts], a request that
    arrives less than 2000 ms after [ts] is answered with exactly the
    stored payload and changes nothing, the count of upstream reads
    included; a request that arrives 2000 ms or more after [ts] issues
    exactly one upstream read, and what it answers is what it stores. *)
Theorem status_cache_ttl env s ts :
  reachable Date_value s ->
  Cache.timestamp (cache s) = Some ts ->
  (now env - ts < ttlMs -> getStatus Date_value env s = (cached s, s))
  /\ (ttlMs <= now env - ts ->
      upstreamReads (getStatus Date_value env s).2 = S (upstreamReads s)
      /\ (getStatus Date_value env s).1 = cached (getStatus Date_value env s).2).
Proof.
  intros R T. destruct (reachable_inv s R) as [L I]. rewrite T in I. destruct I as [P D].
  assert (F : cacheFresh (cache s) (now env) = (now env - ts <? ttlMs)).
  { unfold cacheFresh. rewrite D, T, L. change (default 0 (Some ts)) with ts.
    unfold truthy, option_truthy, truthy, Z_truthy.
    destruct (Z.eqb_spec ts 0) as [-> | _]; [lia | reflexivity]. }
  split.
  - intros H. apply getStatus_hit. rewrite F. apply Z.ltb_lt, H.
  - intros H. assert (F' : cacheFresh (cache s) (now env) = false).
    { rewrite F. apply Z.ltb_ge, H. }
    pose proof (getStatus_miss env s F') as M.
    destruct (getStatus Date_value env s) as [r s']. cbn [fst snd].
    destruct M as (M1 & M2 & _). auto.
Qed.

End StatusCacheProperties.

Lemma status_cache_ttl_witness :
  let s := (getStatus numericDate firstRequest boot).2 in
  Cache.timestamp (cache s) = Some 1700000000000
  /\ now secondRequest - 1700000000000 < ttlMs
  /\ getStatus numericDate secondRequest s = (cached s, s).
Proof.
  cbv zeta. split; [reflexivity |]. split; [reflexivity |].
  refine (proj1 (status_cache_ttl numericDate secondRequest _ 1700000000000 _ _) _).
  - apply reach_request; [split; reflexivity | apply reach_boot].
  - reflexivity.
  - reflexivity.
Defined.

(** ** Saving a measurement *)






(** ** Weekly report *)

Lemma match_stage_all u since docs :
  Forall (fun m => Health.user m = u /\ since <= Health.timestamp m) docs ->
  match_stage u since docs = docs.
Proof.
  induction 1 as [| m docs Hm _ IH]; [reflexivity |].
  unfold match_stage in *. rewrite filter_cons_True by exact Hm. now rewrite IH.
Qed.

Lemma sort_two g h :
  DailyAverage.date g <= DailyAverage.date h -> sort_stage [g; h] = [g; h].
Proof. intros H. cbn [sort_stage foldr insert_by_date]. now rewrite (proj2 (Z.leb_le _ _) H). Qed.

Lemma sort_two_swap g h :
  DailyAverage.date h < DailyAverage.date g -> sort_stage [g; h] = [h; g].
Proof. intros H. cbn [sort_stage foldr insert_by_date]. now rewrite (proj2 (Z.leb_gt _ _) H). Qed.

Lemma weekly_groups (u : string) (now t1 t2 t3 : Z) (docs : list Health.t) :
  docs ≡ₚ threeReadings u t1 t2 t3 ->
  sevenDaysAgo now <= t1 -> sevenDaysAgo now <= t2 -> sevenDaysAgo now <= t3 ->
  dateToString t1 = dateToString t2 ->
  dateToString t1 <> dateToString t3 ->
  t1 < t3 -> t2 < t3 ->
  summary <$> aggregate u (sevenDaysAgo now) docs
  = [(dateToString t1, num_of_Z 72, num_of_Z 121, num_of_Z 81);
     (dateToString t3, num_of_Z 80, num_of_Z 125, num_of_Z 85)].
Proof.
  intros P W1 W2 W3 D12 D13 L1 L2. unfold aggregate.
  rewrite match_stage_all.
  2:{ rewrite P. unfold threeReadings. repeat constructor; assumption. }
  symmetry in P. apply permutations_Permutation in P. cbn in P.
  rewrite !elem_of_cons in P.
  unfold group_stage, buckets.
  destruct P as [-> | [-> | [-> | [-> | [-> | [-> | P]]]]]]; [.. | inversion P];
    cbn [fold_left bucket_add Health.timestamp measurement];
    rewrite <- ?D12; clear D12;
    set (d1 := dateToString t1) in *; set (d3 := dateToString t3) in *;
    clearbody d1 d3;
    repeat (cbn [bucket_add app]; case_decide; try congruence);
    cbn [fmap list_fmap];
    first [ rewrite sort_two
              by (cbn [DailyAverage.date firstTimestamp Health.timestamp measurement fst snd];
                  lia)
          | rewrite sort_two_swap
              by (cbn [DailyAverage.date firstTimestamp Health.timestamp measurement fst snd];
                  lia) ];
    cbv; reflexivity.
Qed.

(** C3. For a user whose stored measurements are, in any order, (70, 120,
    80) and (74, 122, 82) on one day and (80, 125, 85) on a later day, all
    within the window, the weekly report has exactly two entries: the
    first day with averages 72, 121 and 81, then the later day with 80,
    125 and 85. *)
Theorem weekly_report_groups (user : User) (u : string) (now t1 t2 t3 : Z)
    (docs : list Health.t) :
  userIdOf user = Some u -> truthy u = true ->
  docs ≡ₚ threeReadings u t1 t2 t3 ->
  sevenDaysAgo now <= t1 -> sevenDaysAgo now <= t2 -> sevenDaysAgo now <= t3 ->
  dateToString t1 = dateToString t2 ->
  dateToString t1 <> dateToString t3 ->
  t1 < t3 -> t2 < t3 ->
  exists days,
    getWeeklyReport now (Resolved ()) user docs = json (VArr (DailyAverage.toJSON <$> days))
    /\ summary <$> days
       = [(dateToString t1, num_of_Z 72, num_of_Z 121, num_of_Z 81);
          (dateToString t3, num_of_Z 80, num_of_Z 125, num_of_Z 85)].
Proof.
  intros U T P W1 W2 W3 D12 D13 L1 L2.
  exists (aggregate u (sevenDaysAgo now) docs). split.
  - unfold getWeeklyReport. rewrite U, T. reflexivity.
  - apply (weekly_groups u now t1 t2 t3); assumption.
Qed.

Lemma weekly_report_groups_witness :
  let u := "64b7f0c2a1d3e4f5a6b7c8d9" in
  let now := 1700100000000 in
  let docs := threeReadings u 1700000000000 1700003000000 1700090000000 in
  dateToString 1700000000000 = "2023-11-14"
  /\ dateToString 1700090000000 = "2023-11-15"
  /\ exists days,
       getWeeklyReport now (Resolved ()) (reader u) docs
       = json (VArr (DailyAverage.toJSON <$> days))
       /\ summary <$> days
          = [("2023-11-14", num_of_Z 72, num_of_Z 121, num_of_Z 81);
             ("2023-11-15", num_of_Z 80, num_of_Z 125, num_of_Z 85)].
Proof.
  cbv zeta. split; [reflexivity |]. split; [reflexivity |].
  apply (weekly_report_groups (reader "64b7f0c2a1d3e4f5a6b7c8d9") "64b7f0c2a1d3e4f5a6b7c8d9"
           1700100000000 1700000000000 1700003000000 1700090000000).
  - reflexivity.
  - reflexivity.
  - reflexivity.
  - vm_compute. discriminate.
  - vm_compute. discriminate.
  - vm_compute. discriminate.
  - reflexivity.
  - vm_compute. discriminate.
  - reflexivity.
  - reflexivity.
Defined.

(** * Further properties of the code *)

(** ** Heart-rate classifiers *)

Lemma Qle_bool_false a b : Qle_bool a b = false <-> (b < a)%Q.
Proof.
  split.
  - intros H. apply Qnot_le_lt. intros L. apply Qle_bool_iff in L. congruence.
  - intros H. destruct (Qle_bool a b) eqn:E; [| reflexivity].
    apply Qle_bool_iff in E. exfalso. exact (Qlt_not_le _ _ H E).
Qed.

Lemma Qeq_bool_false a b : Qeq_bool a b = false <-> ~ (a == b)%Q.
Proof.
  split.
  - intros H E. apply Qeq_bool_iff in E. congruence.
  - intros H. destruct (Qeq_bool a b) eqn:E; [| reflexivity].
    apply Qeq_bool_iff in E. contradiction.
Qed.

(** Comparisons of rationals, from booleans to the order *)
Ltac q_props :=
  unfold Qltb in *;
  repeat match goal with
  | H : negb _ = true |- _ => apply negb_true_iff in H
  | H : negb _ = false |- _ => apply negb_false_iff in H
  | H : Qle_bool _ _ = true |- _ => apply Qle_bool_iff in H
  | H : Qle_bool _ _ = false |- _ => apply Qle_bool_false in H
  | H : Qeq_bool _ _ = true |- _ => apply Qeq_bool_iff in H
  | H : Qeq_bool _ _ = false |- _ => apply Qeq_bool_false in H
  end;
  unfold inject_Z in *.

Ltac q_split :=
  repeat match goal with
  | |- context [Qle_bool ?a ?b] => let E := fresh "E" in destruct (Qle_bool a b) eqn:E
  | |- context [Qeq_bool ?a ?b] => let E := fresh "E" in destruct (Qeq_bool a b) eqn:E
  end.

Lemma has_value_inv q c : has_value (Finite q) c -> (q == c)%Q.
Proof. intros (q' & [= <-] & E). exact E. Qed.

Lemma has_value_intro q c : (q == c)%Q -> has_value (Finite q) c.
Proof. intros E. exists q. split; [reflexivity | exact E]. Qed.

(** X1. The two classifiers of a heart rate agree on when there is no
    signal, namely exactly when the rate is falsy, and "Slow" goes with
    "Resting"; but their upper bands are cut differently.  At exactly 100
    the status is "Normal" and the zone is already "Light Exercise"; at
    exactly 140 the status is "Elevated" and the zone is already
    "Moderate Exercise".  Away from these two values a "Normal" status
    has zone "Normal" and an "Elevated" status has zone "Light Exercise";
    a "High" status has zone "Moderate Exercise" or "Intense Exercise". *)
Theorem status_and_zone bpm :
  (getHeartRateStatus bpm = "No Signal" <-> truthy bpm = false)
  /\ (getHeartRateZone bpm = "No Signal" <-> truthy bpm = false)
  /\ (getHeartRateStatus bpm = "Slow" <-> getHeartRateZone bpm = "Resting")
  /\ (has_value (to_number bpm) 100 ->
      getHeartRateStatus bpm = "Normal" /\ getHeartRateZone bpm = "Light Exercise")
  /\ (has_value (to_number bpm) 140 ->
      getHeartRateStatus bpm = "Elevated" /\ getHeartRateZone bpm = "Moderate Exercise")
  /\ (getHeartRateStatus bpm = "Normal" -> ~ has_value (to_number bpm) 100 ->
      getHeartRateZone bpm = "Normal")
  /\ (getHeartRateStatus bpm = "Elevated" -> ~ has_value (to_number bpm) 140 ->
      getHeartRateZone bpm = "Light Exercise")
  /\ (getHeartRateStatus bpm = "High" ->
      getHeartRateZone bpm = "Moderate Exercise"
      \/ getHeartRateZone bpm = "Intense Exercise").
Proof.
  unfold getHeartRateStatus, getHeartRateZone, num_ge, num_gt.
  destruct bpm as [[q | | |] |]; cbn [to_number default from_option];
    try (cbn; repeat split; intros; try discriminate; auto;
         match goal with H : has_value _ _ |- _ => destruct H as (? & [=] & _) end; fail).
  cbn. unfold Qltb. q_split; cbn; q_props;
    repeat split; intros; try discriminate; try reflexivity; auto;
    repeat match goal with
           | H : has_value (Finite _) _ |- _ => apply has_value_inv in H
           | H : ~ has_value (Finite ?x) ?c |- _ =>
               assert (~ (x == c)%Q) by (intros E; apply H, has_value_intro, E); clear H
           end;
    try lra.
  all: try (exfalso; lra).
  all: exfalso; match goal with H : ~ has_value _ _ |- _ => apply H, has_value_intro, Qle_antisym; lra end.
Qed.

(** ** Range of the estimate *)

(** X2. For an accepted heart rate (30 to 220) and every profile, the
    systolic estimate is not below 100 and the diastolic estimate not
    below 70: each is [NaN], infinite, or at least that number.  When the
    age factor and the BMI factor are finite and at most [2^48], both
    estimates are whole numbers, of at least 100 and 70. *)
Theorem estimate_floor heartRate age isMale weight height :
  inside 30 220 (Some heartRate) = true ->
  exists s d : Num,
    predictBloodPressure (Some heartRate) age isMale weight height !! "systolic"
    = Some (VNum s)
    /\ predictBloodPressure (Some heartRate) age isMale weight height !! "diastolic"
       = Some (VNum d)
    /\ num_lt s (num_of_Z 100) = false
    /\ num_lt d (num_of_Z 70) = false
    /\ (moderate (ageFactorOf age) = true ->
        moderate (bmiFactorOf weight height) = true ->
        exists zs zd : Z, s = num_of_Z zs /\ d = num_of_Z zd /\ 100 <= zs /\ 70 <= zd).
Proof.
  intros I. pose proof (inside_accepted _ I) as R.
  destruct (predict_accepted _ age isMale weight height R) as [_ S].
  pose proof (predict_diastolic _ age isMale weight height R) as D.
  destruct (estimate_not_below 30 100 70 heartRate age isMale weight height) as [Ns Nd];
    [lia | lia | lia | exact I |].
  eexists _, _. split; [exact S |]. split; [exact D |].
  split; [exact Ns |]. split; [exact Nd |].
  intros Ma Mb.
  destruct (moderate_both _ _ _ Ma Mb) as (af & bf & Ea & Eb & A1 & A2 & B1 & B2).
  destruct (inside_value _ _ _ I) as (x & -> & L & U). unfold inject_Z in L, U.
  destruct (moderate_estimate x age isMale weight height af bf L U Ea Eb A1 A2 B1 B2)
    as (rs & rd & S' & D' & _).
  set (zs := Qfloor (rs + (1 # 2))) in *. set (zd := Qfloor (rd + (1 # 2))) in *.
  clearbody zs zd.
  assert (Es : systolicOf (Some (Finite x)) (param (num_of_Z 30) age) (param true isMale)
                 (param (num_of_Z 70) weight) (param (num_of_Z 170) height) = num_of_Z zs)
    by (unfold js_Z in S'; congruence).
  assert (Ed : diastolicOf (Some (Finite x)) (param (num_of_Z 30) age)
                 (param (num_of_Z 70) weight) (param (num_of_Z 170) height) = num_of_Z zd)
    by (unfold js_Z in D'; congruence).
  unfold not_below in Ns, Nd. rewrite Es in Ns |- *. rewrite Ed in Nd |- *.
  exists zs, zd. split; [reflexivity |]. split; [reflexivity |].
  split.
  - destruct (Z_lt_le_dec zs 100) as [C | C]; [| exact C].
    apply num_lt_Z in C. unfold num_of_Z in *. congruence.
  - destruct (Z_lt_le_dec zd 70) as [C | C]; [| exact C].
    apply num_lt_Z in C. unfold num_of_Z in *. congruence.
Qed.

Lemma estimate_floor_witness :
  exists s d : Num,
    predictBloodPressure (Some (num_of_Z 30)) None (Some false) None None !! "systolic"
    = Some (VNum s)
    /\ predictBloodPressure (Some (num_of_Z 30)) None (Some false) None None !! "diastolic"
       = Some (VNum d)
    /\ num_lt s (num_of_Z 100) = false
    /\ num_lt d (num_of_Z 70) = false.
Proof.
  destruct (estimate_floor (num_of_Z 30) None (Some false) None None eq_refl)
    as (s & d & S & D & Ns & Nd & _).
  exists s, d. auto.
Defined.

(** An estimate that is infinite: with a height of [2^-540] cm the square
    of the height in metres underflows to 0 and the BMI is infinite. *)
Example tiny_height_estimate_is_infinite :
  number_at "systolic"
    (predictBloodPressure (Some (num_of_Z 75)) None None None
       (Some (Finite (1 # 2 ^ 540)))) = PosInf.
Proof. vm_compute. reflexivity. Qed.

(** X3. Ten more beats per minute, both rates accepted (30 to 220), the
    profile unchanged and its age factor and BMI factor finite and at
    most [2^48], raise the systolic estimate by 4, 5 or 6 and the
    diastolic estimate by 2 or 3: the exact increase of 5 may gain or
    lose one in the rounding of binary64. *)
Theorem ten_beats_about_five_points heartRate age isMale weight height :
  inside 30 220 (Some heartRate) = true ->
  inside 30 220 (Some (plus10 heartRate)) = true ->
  moderate (ageFactorOf age) = true -> moderate (bmiFactorOf weight height) = true ->
  exists s s' d d' : Z,
    predictBloodPressure (Some heartRate) age isMale weight height !! "systolic"
    = Some (js_Z s)
    /\ predictBloodPressure (Some (plus10 heartRate)) age isMale weight height !! "systolic"
       = Some (js_Z s')
    /\ predictBloodPressure (Some heartRate) age isMale weight height !! "diastolic"
       = Some (js_Z d)
    /\ predictBloodPressure (Some (plus10 heartRate)) age isMale weight height !! "diastolic"
       = Some (js_Z d')
    /\ s + 4 <= s' <= s + 6
    /\ d + 2 <= d' <= d + 3.
Proof.
  intros Ix I Ma Mb.
  destruct (plus10_inside _ I) as (x & x' & -> & E' & L' & U' & N).
  destruct (moderate_both _ _ _ Ma Mb) as (af & bf & Ea & Eb & A1 & A2 & B1 & B2).
  rewrite E'. apply Qabs_Qle_condition in N.
  destruct (inside_value _ _ _ Ix) as (y & [= <-] & L & U). unfold inject_Z in L, U.
  destruct (moderate_estimate x age isMale weight height af bf L U Ea Eb A1 A2 B1 B2)
    as (rs & rd & S & D & Ns & Nd).
  destruct (moderate_estimate x' age isMale weight height af bf L' U' Ea Eb A1 A2 B1 B2)
    as (rs' & rd' & S' & D' & Ns' & Nd').
  apply Qabs_Qle_condition in Ns, Nd, Ns', Nd'.
  exists (Qfloor (rs + (1 # 2))), (Qfloor (rs' + (1 # 2))),
         (Qfloor (rd + (1 # 2))), (Qfloor (rd' + (1 # 2))).
  split; [exact S |]. split; [exact S' |]. split; [exact D |]. split; [exact D' |].
  split.
  - apply Qfloor_between; unfold inject_Z; lra.
  - apply Qfloor_between; unfold inject_Z; lra.
Qed.

Lemma ten_beats_about_five_points_witness :
  exists s s' d d' : Z,
    predictBloodPressure (Some (num_of_Z 129)) None None (Some (num_of_Z 36))
      (Some (num_of_Z 40)) !! "systolic" = Some (js_Z s)
    /\ predictBloodPressure (Some (plus10 (num_of_Z 129))) None None (Some (num_of_Z 36))
         (Some (num_of_Z 40)) !! "systolic" = Some (js_Z s')
    /\ predictBloodPressure (Some (num_of_Z 129)) None None (Some (num_of_Z 36))
         (Some (num_of_Z 40)) !! "diastolic" = Some (js_Z d)
    /\ predictBloodPressure (Some (plus10 (num_of_Z 129))) None None (Some (num_of_Z 36))
         (Some (num_of_Z 40)) !! "diastolic" = Some (js_Z d')
    /\ s + 4 <= s' <= s + 6
    /\ d + 2 <= d' <= d + 3.
Proof.
  apply (ten_beats_about_five_points (num_of_Z 129) None None (Some (num_of_Z 36))
           (Some (num_of_Z 40))); vm_compute; reflexivity.
Defined.

(** A rise of 6: with a weight of 36 kg and a height of 40 cm the BMI
    factor is 99.99999999999997 in binary64, and the estimate goes from
    251 at 129 beats per minute to 257 at 139. *)
Example rise_of_six :
  number_at "systolic"
    (predictBloodPressure (Some (num_of_Z 129)) None None (Some (num_of_Z 36))
       (Some (num_of_Z 40))) = num_of_Z 251
  /\ number_at "systolic"
       (predictBloodPressure (Some (plus10 (num_of_Z 129))) None None (Some (num_of_Z 36))
          (Some (num_of_Z 40))) = num_of_Z 257.
Proof. split; vm_compute; reflexivity. Qed.

Lemma categoryOf_hypertension s d :
  not_below 80 d ->
  categoryOf s d = "Stage 1 Hypertension" \/ categoryOf s d = "Stage 2 Hypertension".
Proof.
  unfold not_below, categoryOf, num_of_Z, inject_Z. intros ->.
  rewrite !andb_false_r. destruct (_ || _); auto.
Qed.

Lemma categoryOf_stage2 s d :
  not_below 140 s -> not_below 90 d -> categoryOf s d = "Stage 2 Hypertension".
Proof.
  unfold not_below, categoryOf, num_of_Z, inject_Z. intros Hs Hd.
  rewrite Hs, Hd.
  assert (D80 : num_lt d (Finite (80 # 1)) = false).
  { apply (not_below_weaken 90); [unfold Qle; cbn; lia | exact Hd]. }
  assert (S120 : num_lt s (Finite (120 # 1)) = false).
  { apply (not_below_weaken 140); [unfold Qle; cbn; lia | exact Hs]. }
  rewrite D80, S120, !andb_false_r. reflexivity.
Qed.

(** X4. Whatever the profile, an accepted heart rate of 68 or more is never
    classified "Normal" or "Elevated": the category is one of the two
    hypertension stages; from 110 on it is "Stage 2 Hypertension".  No
    condition is put on age, sex, weight or height, which may be left
    out, zero, infinite or [NaN]. *)
Theorem brisk_pulse_reads_as_hypertension heartRate age isMale weight height :
  let category :=
    predictBloodPressure (Some heartRate) age isMale weight height !! "category" in
  (inside 68 220 (Some heartRate) = true ->
   category = Some (VStr "Stage 1 Hypertension")
   \/ category = Some (VStr "Stage 2 Hypertension"))
  /\ (inside 110 220 (Some heartRate) = true ->
      category = Some (VStr "Stage 2 Hypertension")).
Proof.
  intros category. subst category. split; intros I.
  - pose proof (inside_accepted _ (inside_wider 68 220 _ ltac:(lia) ltac:(lia) I)) as R.
    rewrite (predict_category _ age isMale weight height R).
    destruct (estimate_not_below 68 119 80 heartRate age isMale weight height) as [_ Nd];
      [lia | lia | lia | exact I |].
    destruct (categoryOf_hypertension
                (systolicOf (Some heartRate) (param (num_of_Z 30) age) (param true isMale)
                   (param (num_of_Z 70) weight) (param (num_of_Z 170) height))
                _ Nd) as [E | E]; rewrite E; auto.
  - pose proof (inside_accepted _ (inside_wider 110 220 _ ltac:(lia) ltac:(lia) I)) as R.
    rewrite (predict_category _ age isMale weight height R).
    destruct (estimate_not_below 110 140 90 heartRate age isMale weight height) as [Ns Nd];
      [lia | lia | lia | exact I |].
    rewrite (categoryOf_stage2 _ _ Ns Nd). reflexivity.
Qed.

(** ** Signal in the composite view *)

Lemma status_no_signal bpm : getHeartRateStatus bpm = "No Signal" <-> truthy bpm = false.
Proof.
  unfold getHeartRateStatus. destruct bpm as [[q | | |] |]; cbn; try (split; [discriminate | discriminate]); try tauto.
  destruct (Qeq_bool q 0) eqn:E; cbn; [tauto |].
  repeat match goal with |- context [if ?b then _ else _] => destruct b end;
    split; discriminate.
Qed.

Lemma zone_no_signal bpm : getHeartRateZone bpm = "No Signal" <-> truthy bpm = false.
Proof.
  unfold getHeartRateZone. destruct bpm as [[q | | |] |]; cbn; try (split; [discriminate | discriminate]); try tauto.
  destruct (Qeq_bool q 0) eqn:E; cbn; [tauto |].
  repeat match goal with |- context [if ?b then _ else _] => destruct b end;
    split; discriminate.
Qed.

Lemma pulse_no_signal v : getPulseSignalStatus v = "No Signal" <-> truthy v = false.
Proof.
  unfold getPulseSignalStatus. destruct (truthy v); cbn; [| tauto].
  repeat match goal with |- context [if ?b then _ else _] => destruct b end;
    split; discriminate.
Qed.

(** [v || 0] is [v] when [v] is truthy and the number 0 otherwise. *)
Lemma or_zero (v : option Num) :
  js_or v (Some (num_of_Z 0)) = if truthy v then v else Some (num_of_Z 0).
Proof. reflexivity. Qed.

Lemma or_zero_is_zero (v : option Num) :
  js_num (js_or v (Some (num_of_Z 0))) = js_Z 0 <-> truthy v = false.
Proof.
  unfold js_or. destruct (truthy v) eqn:T.
  - split; [| discriminate]. destruct v as [n |]; [| discriminate T].
    cbn. intros [= ->]. discriminate T.
  - split; reflexivity.
Qed.

Lemma or_or_falsy (a b : option Num) : truthy (js_or a b) = false <-> truthy a = false /\ truthy b = false.
Proof. unfold js_or. destruct (truthy a) eqn:A; [rewrite A |]; intuition congruence. Qed.

Lemma in_range_inside lo hi v : in_range lo hi v = inside lo hi v.
Proof. destruct v as [[q | | |] |]; reflexivity. Qed.

(** X5. In the composite health view, when both reads succeed, the heart
    rate is always a number; its status is "No Signal" exactly when that
    number is 0, and so is its zone; a heart rate of 0 carries an invalid
    blood-pressure estimate; the pulse signal is "No Signal" exactly when
    the pulse value is 0. *)
Theorem composite_no_signal now statusVal healthVal :
  let d := dataOf (getHealthData now (Resolved statusVal) (Resolved healthVal)) in
  (prop "status" (prop "heartRate" d) = VStr "No Signal"
     <-> prop "bpm" (prop "heartRate" d) = js_Z 0)
  /\ (prop "zone" (prop "heartRate" d) = VStr "No Signal"
        <-> prop "bpm" (prop "heartRate" d) = js_Z 0)
  /\ (prop "bpm" (prop "heartRate" d) = js_Z 0 ->
      prop "valid" (prop "bloodPressure" d) = VBool false)
  /\ (prop "signal" (prop "pulse" d) = VStr "No Signal"
        <-> prop "value" (prop "pulse" d) = js_Z 0)
  /\ (exists n, prop "bpm" (prop "heartRate" d) = VNum n).
Proof.
  intros d. subst d. rewrite dataOf_success.
  set (sd := default StatusData.empty statusVal).
  set (hd := default HealthData.empty healthVal).
  unfold healthResponse, heartRateOf.
  set (hr := js_or (HealthData.bpm hd) (StatusData.bpm sd)).
  set (pv := js_or (HealthData.pulse_value hd) (StatusData.pulse_value sd)).
  split; [| split; [| split; [| split]]].
  - lookups. rewrite or_zero_is_zero. split.
    + intros [= H]. apply status_no_signal in H. rewrite or_zero in H.
      destruct (truthy hr) eqn:T; [congruence | reflexivity].
    + intros T. f_equal. apply status_no_signal. rewrite or_zero, T. reflexivity.
  - lookups. rewrite or_zero_is_zero. split.
    + intros [= H]. apply zone_no_signal in H. rewrite or_zero in H.
      destruct (truthy hr) eqn:T; [congruence | reflexivity].
    + intros T. f_equal. apply zone_no_signal. rewrite or_zero, T. reflexivity.
  - lookups. rewrite or_zero_is_zero. intros T. rewrite or_zero, T.
    rewrite predict_rejected by reflexivity. lookups. reflexivity.
  - lookups. rewrite or_zero_is_zero. split.
    + intros [= H]. apply pulse_no_signal, H.
    + intros T. f_equal. apply pulse_no_signal, T.
  - lookups. rewrite or_zero. destruct (truthy hr) eqn:T; [| eexists; reflexivity].
    destruct hr as [n |]; [exists n; reflexivity | discriminate T].
Qed.

(** X6. A health record whose heart-rate check passes in the validator is
    shown unchanged by the composite view, whatever the status record
    holds, and with a valid blood-pressure estimate. *)
Theorem validated_reading_gets_estimate now statusVal data :
  truthy (subcheck "heartRate" (validateHeartRate (Resolved (Some data)))) = true ->
  let d := dataOf (getHealthData now (Resolved statusVal) (Resolved (Some data))) in
  prop "bpm" (prop "heartRate" d) = js_num (HealthData.bpm data)
  /\ prop "valid" (prop "bloodPressure" d) = VBool true.
Proof.
  intros V d. subst d. rewrite subcheck_heartRate in V. unfold js_and in V.
  destruct (in_range 30 220 (HealthData.bpm data)) eqn:R; [| discriminate V]. clear V.
  rewrite in_range_inside in R.
  destruct (HealthData.bpm data) as [n |] eqn:B; [| discriminate R].
  pose proof (inside_accepted _ R) as A.
  assert (T : truthy (Some n) = true).
  { destruct (truthy (Some n)) eqn:T; [reflexivity |].
    assert (X : rejects (Some n) = true) by (apply rejects_iff; left; exact T). congruence. }
  rewrite dataOf_success. change (default HealthData.empty (Some data)) with data.
  set (sd := default StatusData.empty statusVal).
  assert (H : heartRateOf data sd = Some n).
  { unfold heartRateOf. rewrite B. unfold js_or. rewrite T. cbv iota. rewrite T.
    reflexivity. }
  unfold healthResponse. rewrite H.
  split; [lookups; reflexivity |].
  lookups. destruct (predict_accepted (Some n)
     (age (default defaultProfile (HealthData.userProfile data)))
     (isMale (default defaultProfile (HealthData.userProfile data)))
     (weight (default defaultProfile (HealthData.userProfile data)))
     (height (default defaultProfile (HealthData.userProfile data))) A) as [E _].
  rewrite E. reflexivity.
Qed.

Lemma validated_reading_gets_estimate_witness :
  let d := dataOf (getHealthData 1700000000000 (Resolved None)
                     (Resolved (Some (healthOf (num_of_Z 72) (VBool true))))) in
  prop "bpm" (prop "heartRate" d) = js_Z 72
  /\ prop "valid" (prop "bloodPressure" d) = VBool true.
Proof.
  apply (validated_reading_gets_estimate 1700000000000 None
           (healthOf (num_of_Z 72) (VBool true))).
  reflexivity.
Defined.

(** ** Default record of the latest position *)

Lemma length_append (a b : string) :
  String.length (a +:+ b) = (String.length a + String.length b)%nat.
Proof. induction a as [| c a IH]; simpl; [reflexivity | f_equal; exact IH]. Qed.

Lemma toISOString_truthy t : truthy (toISOString t) = true.
Proof.
  assert (L : (0 < String.length (toISOString t))%nat).
  { unfold toISOString. rewrite length_append, (length_append "T").
    change (String.length "T") with 1%nat. lia. }
  destruct (toISOString t); [cbn in L; lia | reflexivity].
Qed.

Lemma defaultData_keys now : dom (defaultData now) = defaultKeys.
Proof. unfold defaultData, defaultKeys. key_sets. Qed.

Lemma responseData_empty now : responseData now ∅ = defaultData now.
Proof.
  unfold responseData. rewrite (left_id_L ∅ (∪)).
  assert (T : field "timestamp" (∅ : gmap string JsVal) = VUndefined) by reflexivity.
  assert (U : field "last_update" (∅ : gmap string JsVal) = VUndefined) by reflexivity.
  rewrite T, U. unfold js_or. cbn [truthy jsval_truthy].
  rewrite !insert_id; [reflexivity | |].
  - unfold field, defaultData. lookups. reflexivity.
  - rewrite insert_id; unfold field, defaultData; lookups; reflexivity.
Qed.

(** X7. The latest-position view answers a failed read exactly as it
    answers an empty store: the same response, whose payload is the
    default record. *)
Theorem failed_read_looks_empty now message :
  getLatestData now (Rejected message) = getLatestData now (Resolved None)
  /\ dataOf (getLatestData now (Rejected message)) = VObj (defaultData now).
Proof.
  assert (E : obj [("latitude", js_Z 0); ("longitude", js_Z 0); ("gps_valid", VBool false);
                   ("timestamp", VStr (toISOString now)); ("last_update", js_Z now);
                   ("wifi_connected", VBool false); ("firebase_ready", VBool false)]
              = defaultData now).
  { unfold defaultData. generalize (toISOString now) (js_Z now). intros iso ms.
    apply map_eq. intros k. unfold obj. cbn [fold_left fst snd].
    repeat (rewrite lookup_insert; case_decide; [subst; simplify_map_eq; reflexivity |]).
    simplify_map_eq. reflexivity. }
  unfold getLatestData. cbn [default from_option]. rewrite responseData_empty, E.
  split; [reflexivity |]. unfold dataOf. lookups. reflexivity.
Qed.

(** X8. The payload of the latest-position view always has a truthy
    [timestamp] and, the clock not being at the epoch, a truthy
    [last_update]; its keys are those of the stored record together with
    the seven default keys. *)
Theorem latest_position_always_dated now (data : gmap string JsVal) :
  let d := dataOf (getLatestData now (Resolved (Some data))) in
  truthy (prop "timestamp" d) = true
  /\ (now <> 0 -> truthy (prop "last_update" d) = true)
  /\ keys d = dom data ∪ defaultKeys.
Proof.
  intros d. subst d. rewrite dataOf_latest. change (default ∅ (Some data)) with data.
  rewrite !prop_VObj. split; [| split].
  - rewrite responseData_named by (left; reflexivity). unfold js_or.
    destruct (truthy (field "timestamp" data)) eqn:T; [exact T |].
    unfold field, defaultData. lookups. apply toISOString_truthy.
  - intros N. rewrite responseData_named by (right; reflexivity). unfold js_or.
    destruct (truthy (field "last_update" data)) eqn:T; [exact T |].
    unfold field, defaultData. lookups. cbn. destruct now; [congruence | reflexivity ..].
  - cbn [keys]. unfold responseData. rewrite !dom_insert_L, dom_union_L, defaultData_keys.
    rewrite (subseteq_union_1_L {["timestamp"]})
      by (apply singleton_subseteq_l, elem_of_union_r; compute_done).
    apply subseteq_union_1_L, singleton_subseteq_l, elem_of_union_r. compute_done.
Qed.

(** ** Runs of status requests *)

Section StatusRuns.
Variable Date_value : JsVal -> option Z.

Lemma cacheFresh_stored s ts at_ :
  cache_inv s -> Cache.timestamp (cache s) = Some ts ->
  cacheFresh (cache s) at_ = (at_ - ts <? ttlMs).
Proof.
  intros [L I] T. rewrite T in I. destruct I as [P D].
  unfold cacheFresh. rewrite D, T, L. change (default 0 (Some ts)) with ts.
  unfold truthy, option_truthy, truthy, Z_truthy.
  destruct (Z.eqb_spec ts 0) as [-> | _]; [lia | reflexivity].
Qed.

(** X9. Any run of status requests that all arrive less than 2000 ms
    after the stored timestamp is answered from the cache: every answer is
    the stored payload, and the state, the count of upstream reads
    included, is unchanged at the end. *)
Theorem burst_is_absorbed envs s ts :
  reachable Date_value s ->
  Cache.timestamp (cache s) = Some ts ->
  Forall (fun env => now env - ts < ttlMs) envs ->
  serve Date_value envs s = (replicate (length envs) (cached s), s).
Proof.
  intros R T. pose proof (reachable_inv Date_value s R) as I.
  induction 1 as [| env envs H _ IH]; [reflexivity |].
  cbn [serve]. rewrite getStatus_hit.
  - rewrite IH. reflexivity.
  - rewrite (cacheFresh_stored _ ts) by assumption. apply Z.ltb_lt, H.
Qed.

Lemma reachable_shaped s : reachable Date_value s -> cache_shaped s.
Proof.
  induction 1 as [| env s _ _ IH]; [exact I |].
  unfold getStatus. destruct (cacheFresh (cache s) (now env)); [exact IH |].
  unfold cache_shaped.
  destruct (statusRead env) as [v | m]; [destruct (lastUpdate _ _ _) |]; cbn; eauto.
  all: unfold offlineStatus; do 4 eexists; reflexivity.
Qed.

(** X10. In every state of the process, a status request is answered with
    status 200 and a status object: three booleans and the instant of the
    last update; this holds for hits, for reads and for failed reads. *)
Theorem status_answer_shape env s :
  reachable Date_value s ->
  let r := (getStatus Date_value env s).1 in
  res_status r = 200
  /\ exists wifi gps heartbeat lastUpdate,
       dataOf r = statusObject wifi gps heartbeat lastUpdate.
Proof.
  intros R r. subst r. pose proof (reachable_shaped s R) as Sh.
  pose proof (reachable_inv Date_value s R) as [_ I].
  unfold getStatus. destruct (cacheFresh (cache s) (now env)) eqn:F.
  - cbn [fst]. split; [reflexivity |]. unfold cache_shaped in Sh.
    destruct (Cache.timestamp (cache s)) as [ts |] eqn:T.
    + destruct Sh as (w & g & h & iso & E). exists w, g, h, iso.
      unfold dataOf. lookups. exact E.
    + unfold cacheFresh in F. rewrite T in F. cbn in F.
      rewrite andb_false_r in F. discriminate F.
  - destruct (statusRead env) as [v | m]; [destruct (lastUpdate _ _ _) |];
      cbn [fst]; (split; [reflexivity |]); do 4 eexists; unfold dataOf; lookups; reflexivity.
Qed.

(** X11. When the cache is stale and the read fails, or the record's
    timestamp is no date, the request answers the offline status and
    stores it: every request within the time to live after that instant
    gets the same offline answer without a read. *)
Theorem outage_is_cached env s :
  cacheFresh (cache s) (now env) = false ->
  unreadable Date_value env ->
  later env <> 0 ->
  let r := (getStatus Date_value env s).1 in
  let s1 := (getStatus Date_value env s).2 in
  dataOf r = offlineStatus (later env)
  /\ forall env2, now env2 - later env < Cache.ttl (cache s) ->
       getStatus Date_value env2 s1 = (r, s1).
Proof.
  intros F U L r s1. subst r s1. unfold unreadable in U.
  assert (E : getStatus Date_value env s
              = (json (VObj (obj [("data", offlineStatus (later env))])),
                 {| cache := store (cache s) (offlineStatus (later env)) (later env);
                    upstreamReads := S (upstreamReads s) |})).
  { unfold getStatus. rewrite F. destruct (statusRead env) as [v | m]; [rewrite U |]; reflexivity. }
  rewrite E. cbn [fst snd]. split; [unfold dataOf; lookups; reflexivity |].
  intros env2 H. apply getStatus_hit. unfold cacheFresh.
  cbn [cache store Cache.data Cache.timestamp Cache.ttl].
  change (default 0 (Some (later env))) with (later env).
  unfold truthy at 2, option_truthy, truthy, Z_truthy.
  destruct (Z.eqb_spec (later env) 0) as [Z | _]; [contradiction |].
  cbn. apply Z.ltb_lt, H.
Qed.

End StatusRuns.

Lemma burst_is_absorbed_witness :
  let s := (getStatus numericDate firstRequest boot).2 in
  serve numericDate [secondRequest; secondRequest] s = ([cached s; cached s], s).
Proof.
  cbv zeta.
  apply (burst_is_absorbed numericDate [secondRequest; secondRequest] _ 1700000000000).
  - apply reach_request; [split; reflexivity | apply reach_boot].
  - reflexivity.
  - repeat constructor.
Defined.

Lemma status_answer_shape_witness :
  res_status (getStatus numericDate secondRequest
                (getStatus numericDate firstRequest boot).2).1 = 200.
Proof.
  refine (proj1 (status_answer_shape numericDate secondRequest _ _)).
  apply reach_request; [split; reflexivity | apply reach_boot].
Defined.

Lemma outage_is_cached_witness :
  dataOf (getStatus numericDate undatedRequest boot).1
  = offlineStatus (later undatedRequest).
Proof.
  refine (proj1 (outage_is_cached numericDate undatedRequest boot _ _ _)).
  - reflexivity.
  - reflexivity.
  - discriminate.
Defined.

(** ** History views *)

Lemma limitToLast_length {A} n (tree : list A) :
  length (limitToLast n tree) = (length tree `min` n)%nat.
Proof. unfold limitToLast. rewrite length_drop. lia. Qed.

Lemma limitToLast_nil {A} n (tree : list A) :
  (0 < n)%nat -> limitToLast n tree = [] <-> tree = [].
Proof.
  intros N. split; [| intros ->; reflexivity].
  intros E. apply (f_equal length) in E. rewrite limitToLast_length in E.
  destruct tree; [reflexivity | cbn [length] in E; lia].
Qed.

Lemma val_Some {A} (l : list A) : l <> [] -> val l = Some l.
Proof. destruct l; [congruence | reflexivity]. Qed.

Lemma dataArray_length data : length (dataArray data) = length data.
Proof. unfold dataArray. apply length_fmap. Qed.

Lemma history_of_tree notFound failure n tree :
  (0 < n)%nat ->
  let r := historyResponse notFound failure (readLast n (Resolved tree)) in
  (res_status r = 404 <-> tree = [])
  /\ (tree <> [] ->
      res_status r = 200
      /\ prop "data" (res_body r) = VArr (dataArray (limitToLast n tree))
      /\ prop "count" (res_body r) = js_Z (Z.of_nat (length tree `min` n))).
Proof.
  intros N r. subst r. cbn [readLast]. destruct tree as [| e tree].
  - cbn. split; [tauto | congruence].
  - assert (NE : limitToLast n (e :: tree) <> []).
    { intros E. apply limitToLast_nil in E; [discriminate E | exact N]. }
    rewrite (val_Some _ NE). cbn [historyResponse]. split.
    + split; [discriminate | discriminate].
    + intros _. split; [reflexivity |]. split; [lookups; reflexivity |].
      lookups. rewrite dataArray_length, limitToLast_length. reflexivity.
Qed.

(** X12. The two history views answer 404 exactly when nothing is stored;
    otherwise they answer 200 with [count] and the length of [data] equal
    to the number of stored entries capped at 10 for the GPS history and
    at 20 for the heartbeat history. *)
Theorem history_window tree :
  let gps := getDataHistory (Resolved tree) in
  let beats := getHeartbeatHistory (Resolved tree) in
  (res_status gps = 404 <-> tree = [])
  /\ (res_status beats = 404 <-> tree = [])
  /\ (tree <> [] ->
      res_status gps = 200 /\ res_status beats = 200
      /\ prop "count" (res_body gps) = js_Z (Z.of_nat (length tree `min` 10))
      /\ prop "count" (res_body beats) = js_Z (Z.of_nat (length tree `min` 20))
      /\ array_length (prop "data" (res_body gps)) = Z.of_nat (length tree `min` 10)
      /\ array_length (prop "data" (res_body beats)) = Z.of_nat (length tree `min` 20)).
Proof.
  intros gps beats. subst gps beats. unfold getDataHistory, getHeartbeatHistory.
  destruct (history_of_tree "No ESP32 GPS history found" "Error fetching ESP32 GPS history"
              10 tree ltac:(lia)) as [G1 G2].
  destruct (history_of_tree "No heartbeat history found" "Error fetching heartbeat history"
              20 tree ltac:(lia)) as [B1 B2].
  split; [exact G1 |]. split; [exact B1 |]. intros NE.
  destruct (G2 NE) as (g1 & g2 & g3). destruct (B2 NE) as (b1 & b2 & b3).
  rewrite g2, b2. cbn [array_length]. rewrite !dataArray_length, !limitToLast_length.
  auto 10.
Qed.

(** X13. The [i]-th item of the GPS history is the [i]-th of the last ten
    stored records, with its properties unchanged; its [id] is the
    record's own [id] when it has one, and the key of the record
    otherwise. *)
Theorem history_items tree i key (record : gmap string JsVal) :
  tree !! (length tree - 10 + i)%nat = Some (key, record) ->
  let item := item_at i (prop "data" (res_body (getDataHistory (Resolved tree)))) in
  prop "id" item = default (VStr key) (record !! "id")
  /\ forall k, k <> "id" -> prop k item = field k record.
Proof.
  intros L item. subst item.
  assert (NE : tree <> []) by (intros ->; discriminate L).
  destruct (history_of_tree "No ESP32 GPS history found" "Error fetching ESP32 GPS history"
              10 tree ltac:(lia)) as [_ G]. destruct (G NE) as (_ & D & _).
  unfold getDataHistory. rewrite D. cbn [item_at]. unfold dataArray, limitToLast.
  rewrite list_lookup_fmap, lookup_drop, L. cbn [fmap option_fmap option_map default from_option id fst snd].
  unfold Datatypes.id, prop, field. split.
  - destruct (record !! "id") as [v |] eqn:E.
    + rewrite (lookup_union_Some_l _ _ _ _ E). reflexivity.
    + rewrite lookup_union_r by exact E. rewrite lookup_singleton_eq. reflexivity.
  - intros k K. destruct (record !! k) as [v |] eqn:E.
    + rewrite (lookup_union_Some_l _ _ _ _ E). reflexivity.
    + rewrite lookup_union_r by exact E. rewrite lookup_singleton_ne by congruence. reflexivity.
Qed.

Lemma history_items_witness :
  let tree := [("-Nabc", {["latitude" := js_Z 7]} : gmap string JsVal);
               ("-Nabd", {["id" := VStr "own"]} : gmap string JsVal)] in
  prop "id" (item_at 0 (prop "data" (res_body (getDataHistory (Resolved tree)))))
  = VStr "-Nabc"
  /\ prop "id" (item_at 1 (prop "data" (res_body (getDataHistory (Resolved tree)))))
     = VStr "own".
Proof.
  intros tree. split.
  - exact (proj1 (history_items tree 0 "-Nabc" {["latitude" := js_Z 7]} eq_refl)).
  - exact (proj1 (history_items tree 1 "-Nabd" {["id" := VStr "own"]} eq_refl)).
Defined.

(** ** Combined view *)

Lemma dataOf_combined statusData healthVal :
  dataOf (getCombinedData (Resolved (Some statusData)) (Resolved healthVal))
  = VObj (combinedData statusData healthVal).
Proof. unfold dataOf, getCombinedData. lookups. reflexivity. Qed.

(** X14. The combined view answers 500 exactly when one of the two reads
    fails, 404 exactly when both succeed and there is no status record,
    and 200 otherwise; a missing health record alone is no error: the
    heartbeat block then is the placeholder. *)
Theorem combined_absence statusRead healthRead :
  let r := getCombinedData statusRead healthRead in
  (res_status r = 500 <-> failed statusRead healthRead = true)
  /\ (res_status r = 404 <->
      failed statusRead healthRead = false /\ statusRead = Resolved None)
  /\ (res_status r = 200 <->
      failed statusRead healthRead = false /\ statusRead <> Resolved None)
  /\ (res_status r = 200 -> healthRead = Resolved None ->
      prop "heartbeat" (dataOf r)
      = VObj (obj [("valid", VBool false); ("message", VStr "Heartbeat data not available")])).
Proof.
  intros r. subst r. split; [| split; [| split]].
  - destruct statusRead as [[sd |] | m], healthRead as [hv | m']; cbn;
      split; intros; try discriminate; reflexivity.
  - destruct statusRead as [[sd |] | m], healthRead as [hv | m']; cbn;
      split; try (intros [? ?]); intros; try discriminate; auto.
  - destruct statusRead as [[sd |] | m], healthRead as [hv | m']; cbn;
      split; try (intros [? ?]); intros; try discriminate; try congruence; auto.
  - destruct statusRead as [[sd |] | m]; intros H ->; try discriminate H.
    rewrite dataOf_combined. unfold combinedData. lookups. reflexivity.
Qed.

(** X15. A latitude that is stored in the status record is always shown by
    the latest-position view; the combined view shows it only when
    [gps_valid] is truthy, and otherwise replaces the whole GPS block by
    a placeholder that has no latitude. *)
Theorem coordinates_need_a_fix now (statusData : gmap string JsVal) healthVal v :
  statusData !! "latitude" = Some v ->
  let combined := dataOf (getCombinedData (Resolved (Some statusData)) (Resolved healthVal)) in
  let latest := dataOf (getLatestData now (Resolved (Some statusData))) in
  prop "latitude" latest = v
  /\ (truthy (field "gps_valid" statusData) = true ->
      prop "latitude" (prop "gps" combined) = v)
  /\ (truthy (field "gps_valid" statusData) = false ->
      prop "gps" combined
      = VObj (obj [("valid", VBool false); ("message", VStr "GPS signal not available")])
      /\ prop "latitude" (prop "gps" combined) = VUndefined).
Proof.
  intros L combined latest. subst combined latest.
  rewrite dataOf_combined, dataOf_latest. change (default ∅ (Some statusData)) with statusData.
  split; [| split].
  - rewrite prop_VObj. unfold field.
    rewrite responseData_other by discriminate.
    rewrite (lookup_union_Some_l _ _ _ _ L). reflexivity.
  - intros T. unfold combinedData. rewrite T. lookups. unfold field. rewrite L. reflexivity.
  - intros T. unfold combinedData. rewrite T. lookups. split; reflexivity.
Qed.

Lemma coordinates_need_a_fix_witness :
  let statusData : gmap string JsVal :=
    {["latitude" := js_Z 7; "gps_valid" := VBool false]} in
  prop "latitude" (dataOf (getLatestData 1700000000000 (Resolved (Some statusData))))
  = js_Z 7
  /\ prop "latitude"
       (prop "gps" (dataOf (getCombinedData (Resolved (Some statusData)) (Resolved None))))
     = VUndefined.
Proof.
  intros statusData.
  destruct (coordinates_need_a_fix 1700000000000 statusData None (js_Z 7) eq_refl)
    as (A & _ & B).
  split; [exact A | exact (proj2 (B eq_refl))].
Defined.

(** X16. The heartbeat block of the combined view takes its heart rate from
    the health record alone, 0 standing for a falsy one; its status and
    its zone are "No Signal" exactly when that heart rate is 0. *)
Theorem combined_heartbeat (statusData : gmap string JsVal) healthData :
  let hb := prop "heartbeat"
              (dataOf (getCombinedData (Resolved (Some statusData))
                         (Resolved (Some healthData)))) in
  prop "bpm" hb = js_num (if truthy (HealthData.bpm healthData)
                          then HealthData.bpm healthData else Some (num_of_Z 0))
  /\ (prop "status" hb = VStr "No Signal" <-> prop "bpm" hb = js_Z 0)
  /\ (prop "zone" hb = VStr "No Signal" <-> prop "bpm" hb = js_Z 0).
Proof.
  intros hb. subst hb. rewrite dataOf_combined. unfold combinedData.
  split; [lookups; reflexivity |].
  split; lookups; rewrite or_zero_is_zero.
  - split; [intros [= H]; apply status_no_signal, H
           | intros T; f_equal; apply status_no_signal, T].
  - split; [intros [= H]; apply zone_no_signal, H
           | intros T; f_equal; apply zone_no_signal, T].
Qed.

(** ** Average heart rate *)

Lemma open_range n :
  num_gt n (num_of_Z 0) && num_lt n (num_of_Z 220) = true
  <-> exists q, n = Finite q /\ (0 < q)%Q /\ (q < 220)%Q.
Proof.
  destruct n as [q | | |]; cbn;
    try (split; [discriminate | intros (q' & E & _); discriminate E]).
  unfold Qltb.
  destruct (Qle_bool q (inject_Z 0)) eqn:A, (Qle_bool (inject_Z 220) q) eqn:B;
    q_props; cbn; unfold inject_Z in *.
  all: split; [try discriminate | intros (q' & E & P0 & P1); injection E as <-; try lra].
  intros _. exists q. split; [reflexivity | lra].
Qed.

Lemma averageIsValid_truthy data :
  truthy (averageIsValid data) = true
  <-> truthy (isValidBPM data) = true
      /\ exists q, currentBPM data = Finite q /\ (0 < q)%Q /\ (q < 220)%Q.
Proof.
  rewrite <- open_range. unfold averageIsValid, js_and.
  destruct (truthy (isValidBPM data)) eqn:V.
  - destruct (num_gt (currentBPM data) (num_of_Z 0)); cbn.
    + destruct (num_lt (currentBPM data) (num_of_Z 220)); cbn; intuition congruence.
    + intuition congruence.
  - rewrite V. intuition congruence.
Qed.


Lemma in_range_finite lo hi q :
  in_range lo hi (Some (Finite q)) = true
  <-> (inject_Z lo <= q)%Q /\ (q <= inject_Z hi)%Q.
Proof.
  rewrite in_range_inside. cbn [inside]. now rewrite andb_true_iff, !Qle_bool_iff.
Qed.

(** X18. The average view takes the first field that is defined, not the
    first that is truthy: a record whose [bpm] is 0 or NaN is refused with
    400, with that value reported as the current one, whatever the other
    heart-rate fields hold. *)
Theorem falsy_bpm_is_final data b :
  Reading.bpm data = Some b -> truthy b = false ->
  let r := getAverageHeartRate (Resolved (Some data)) in
  res_status r = 400 /\ prop "currentBPM" (prop "debug" (res_body r)) = VNum b.
Proof.
  intros B F r. subst r. unfold getAverageHeartRate.
  assert (C : currentBPM data = b) by (unfold currentBPM; now rewrite B).
  destruct (truthy (averageIsValid data)) eqn:V; cbn [negb].
  - exfalso. apply averageIsValid_truthy in V as (_ & q & E & P0 & _).
    rewrite C in E. rewrite E in F. unfold truthy, num_truthy in F. q_props. lra.
  - split; [reflexivity |]. rewrite <- C. lookups. reflexivity.
Qed.

Lemma falsy_bpm_is_final_witness :
  let data := {| Reading.bpm := Some (num_of_Z 0); Reading.heartRate := None;
                 Reading.heart_rate := Some (num_of_Z 72); Reading.heartbeat := None;
                 Reading.BPM := None; Reading.HeartRate := None;
                 Reading.valid_bpm := VBool true; Reading.validBPM := VUndefined;
                 Reading.timestamp := VUndefined |} in
  res_status (getAverageHeartRate (Resolved (Some data))) = 400.
Proof.
  intros data. apply (falsy_bpm_is_final data (num_of_Z 0)); reflexivity.
Defined.

(** X19. The validator and the average view screen the same record with
    different bounds: for a finite heart rate [q] under [bpm] and a truthy
    validity flag, the validator's heart-rate check passes exactly when
    30 <= q <= 220, the average view accepts exactly when 0 < q < 220. *)
Theorem two_screens_of_one_reading (h : HealthData.t) (d : Reading.t) (q : Q) :
  HealthData.bpm h = Some (Finite q) -> Reading.bpm d = Some (Finite q) ->
  HealthData.valid_bpm h = Reading.valid_bpm d ->
  truthy (Reading.valid_bpm d) = true ->
  (truthy (subcheck "heartRate" (validateHeartRate (Resolved (Some h)))) = true
   <-> (30 <= q)%Q /\ (q <= 220)%Q)
  /\ (res_status (getAverageHeartRate (Resolved (Some d))) = 200
      <-> (0 < q)%Q /\ (q < 220)%Q).
Proof.
  intros Hb Db Hv Dv. split.
  - rewrite subcheck_heartRate, Hb, Hv. unfold js_and.
    pose proof (in_range_finite 30 220 q) as R.
    destruct (in_range 30 220 (Some (Finite q))); cbn.
    + rewrite Dv. split; [intros _; apply R; reflexivity | reflexivity].
    + split; [discriminate | intros H; apply R in H; discriminate H].
  - assert (C : currentBPM d = Finite q) by (unfold currentBPM; now rewrite Db).
    assert (I : isValidBPM d = Reading.valid_bpm d).
    { unfold isValidBPM. destruct (Reading.valid_bpm d); try reflexivity; discriminate Dv. }
    pose proof (averageIsValid_truthy d) as T. rewrite C, I in T.
    unfold getAverageHeartRate.
    destruct (truthy (averageIsValid d)) eqn:V; cbn [negb].
    + destruct (proj1 T eq_refl) as (_ & q' & [= <-] & P0 & P1).
      split; [auto | reflexivity].
    + split; [discriminate |]. intros [P0 P1].
      assert (X : false = true) by (apply T; split; [exact Dv | exists q; auto]).
      discriminate X.
Qed.

Lemma two_screens_of_one_reading_witness :
  truthy (subcheck "heartRate"
            (validateHeartRate (Resolved (Some (healthOf (num_of_Z 220) (VBool true)))))) = true
  /\ res_status (getAverageHeartRate (Resolved (Some (readingOf (num_of_Z 220) (VBool true)))))
     <> 200.
Proof.
  destruct (two_screens_of_one_reading (healthOf (num_of_Z 220) (VBool true))
              (readingOf (num_of_Z 220) (VBool true)) (inject_Z 220)
              eq_refl eq_refl eq_refl eq_refl) as [V A].
  split.
  - apply V. split; unfold Qle; cbn; lia.
  - intros E. apply A in E as [_ E]. unfold Qlt in E. cbn in E. lia.
Defined.

(** ** Change test *)

Lemma unique_grows values seen :
  (length seen <= length (fold_left
     (fun seen v => if existsb (same_value v) seen then seen else seen ++ [v])
     values seen))%nat.
Proof.
  revert seen. induction values as [| v values IH]; intros seen; cbn [fold_left]; [lia |].
  etransitivity; [| apply IH].
  destruct (existsb (same_value v) seen); [lia |]. rewrite length_app. lia.
Qed.

Lemma unique_from_first v0 values :
  (1 <? length (fold_left
     (fun seen v => if existsb (same_value v) seen then seen else seen ++ [v])
     values [v0]))%nat
  = existsb (fun v => negb (same_value v v0)) values.
Proof.
  induction values as [| v values IH]; [reflexivity |].
  cbn [fold_left existsb]. rewrite orb_false_r.
  destruct (same_value v v0); cbn [negb orb]; [exact IH |].
  apply Nat.ltb_lt.
  pose proof (unique_grows values [v0; v]) as G. cbn [length app] in G |- *. lia.
Qed.

Lemma changing_from_first values :
  (1 <? length (unique values))%nat
  = match values with
    | [] => false
    | v0 :: rest => existsb (fun v => negb (same_value v v0)) rest
    end.
Proof.
  destruct values as [| v0 rest]; [reflexivity |].
  unfold unique. cbn [fold_left existsb app]. apply unique_from_first.
Qed.

Lemma bpmOrNA_usable data :
  bpmOrNA data = if truthy (rawBpm data) then rawBpm data else VStr "N/A".
Proof. reflexivity. Qed.

Lemma bpmValues_usable rs :
  bpmValues rs = filter (fun v => usable v = true) ((fun r => rawBpm r.2) <$> rs).
Proof.
  unfold bpmValues. induction rs as [| r rs IH]; [reflexivity |].
  rewrite !fmap_cons, !filter_cons, IH. rewrite bpmOrNA_usable. unfold usable.
  destruct (truthy (rawBpm r.2)) eqn:T; cbn [andb].
  - destruct (notNA (rawBpm r.2)); repeat case_decide; congruence.
  - cbn. repeat case_decide; congruence.
Qed.

Lemma readings_spec reads clock n : forall i,
  match readings reads clock i n with
  | Resolved rs =>
      length rs = n
      /\ forall k, (k < n)%nat -> exists data,
           reads (i + k)%nat = Resolved data /\ rs !! k = Some (clock (i + k)%nat, data)
  | Rejected message =>
      exists k, (k < n)%nat /\ reads (i + k)%nat = Rejected message
  end.
Proof.
  induction n as [| n IH]; intros i; cbn [readings].
  - split; [reflexivity | intros k Hk; lia].
  - destruct (reads i) as [data | message] eqn:R.
    + specialize (IH (S i)). destruct (readings reads clock (S i) n) as [rest | message].
      * destruct IH as [L IH]. split; [cbn; now rewrite L |].
        intros [| k] Hk.
        -- exists data. rewrite Nat.add_0_r. split; [exact R | reflexivity].
        -- destruct (IH k ltac:(lia)) as (d & Rd & Ek).
           exists d. rewrite Nat.add_succ_r. split; [exact Rd | exact Ek].
      * destruct IH as (k & Hk & Rk). exists (S k).
        rewrite Nat.add_succ_r. split; [lia | exact Rk].
    + exists 0%nat. rewrite Nat.add_0_r. split; [lia | exact R].
Qed.

(** X20. The change test answers 500 exactly when one of its five reads
    fails, and 200 exactly when all five succeed; it then lists five
    readings, the [bpm] of each being the stored value when that is
    truthy and "N/A" otherwise. *)
Theorem change_test_outcome reads clock :
  let r := testESP32DataChange reads clock in
  (res_status r = 500 <-> exists i message, (i < 5)%nat /\ reads i = Rejected message)
  /\ (res_status r = 200 <-> forall i, (i < 5)%nat -> exists data, reads i = Resolved data)
  /\ (res_status r = 200 ->
      array_length (prop "readings" (res_body r)) = 5
      /\ forall i data, (i < 5)%nat -> reads i = Resolved data ->
         prop "bpm" (item_at i (prop "readings" (res_body r)))
         = (if truthy (rawBpm data) then rawBpm data else VStr "N/A")).
Proof.
  intros r. subst r. unfold testESP32DataChange.
  pose proof (readings_spec reads clock 5 0) as S.
  destruct (readings reads clock 0 5) as [rs | message].
  - destruct S as [L S]. cbn [Nat.add] in S.
    split; [split; [discriminate |] |].
    { intros (i & m & Hi & R). destruct (S i Hi) as (d & Rd & _). congruence. }
    split; [split; [| reflexivity] |].
    { intros _ i Hi. destruct (S i Hi) as (d & Rd & _). eauto. }
    intros _. split.
    + lookups. cbn [array_length]. rewrite length_fmap, L. reflexivity.
    + intros i data Hi R. destruct (S i Hi) as (d & Rd & E).
      assert (d = data) by congruence. subst d.
      lookups. cbn [item_at]. rewrite list_lookup_fmap, E. cbn [fmap option_fmap option_map default].
      lookups. reflexivity.
  - destruct S as (k & Hk & R). cbn [Nat.add] in R.
    split; [split; [intros _; eauto | reflexivity] |].
    split; [split; [discriminate |] | discriminate].
    intros A. destruct (A k Hk) as (d & Rd). congruence.
Qed.

(** X21. When the five reads succeed, the values compared are the stored
    heart rates that are truthy and not "N/A", in reading order; the data
    is reported as changing exactly when one of them differs from the
    first one, and the conclusion says so. *)
Theorem change_verdict reads clock rs :
  readings reads clock 0 5 = Resolved rs ->
  let r := testESP32DataChange reads clock in
  let values := filter (fun v => usable v = true) ((fun r => rawBpm r.2) <$> rs) in
  prop "bpmValues" (res_body r) = VArr values
  /\ (prop "isChanging" (res_body r) = VBool true
      <-> exists v0 rest v,
            values = v0 :: rest /\ v ∈ rest /\ same_value v v0 = false)
  /\ (prop "conclusion" (res_body r) = VStr "Data is changing"
      <-> prop "isChanging" (res_body r) = VBool true).
Proof.
  intros R r values. subst r values. unfold testESP32DataChange. rewrite R.
  rewrite <- bpmValues_usable.
  assert (C : isChanging rs = true
              <-> exists v0 rest v,
                    bpmValues rs = v0 :: rest /\ v ∈ rest /\ same_value v v0 = false).
  { unfold isChanging. rewrite changing_from_first.
    destruct (bpmValues rs) as [| v0 rest].
    - split; [discriminate | intros (? & ? & ? & [=] & _)].
    - rewrite existsb_exists. split.
      + intros (v & Hv & N). exists v0, rest, v.
        split; [reflexivity |]. split; [now apply list_elem_of_In |].
        now apply negb_true_iff.
      + intros (v0' & rest' & v & [= <- <-] & Hv & N). exists v.
        split; [now apply list_elem_of_In | now apply negb_true_iff]. }
  split; [lookups; reflexivity |]. split.
  - rewrite <- C. lookups. apply VBool_true_iff.
  - lookups. destruct (isChanging rs); split; intros [=]; reflexivity.
Qed.

Lemma change_verdict_witness :
  let reads := fun i : nat =>
    Resolved (snapshotOf (js_Z (if Nat.even i then 72 else 75))) in
  let clock := fun i : nat => 1700000000000 + 1000 * Z.of_nat i in
  prop "isChanging" (res_body (testESP32DataChange reads clock)) = VBool true.
Proof.
  intros reads clock.
  destruct (change_verdict reads clock
              (map (fun i : nat =>
                      (clock i, snapshotOf (js_Z (if Nat.even i then 72 else 75))))
                   (seq 0 5)) eq_refl) as (_ & C & _).
  apply C. exists (js_Z 72), [js_Z 75; js_Z 72; js_Z 75; js_Z 72], (js_Z 75).
  split; [reflexivity |]. split; [left | reflexivity].
Defined.

(** ** Days of the weekly report *)

Lemma bucket_add_keys key m bs :
  (bucket_add key m bs).*1 = if decide (key ∈ bs.*1) then bs.*1 else bs.*1 ++ [key].
Proof.
  induction bs as [| [k ms] bs IH]; cbn [bucket_add].
  - rewrite decide_False by apply not_elem_of_nil. reflexivity.
  - destruct (decide (k = key)) as [-> | E].
    + rewrite fmap_cons. cbn [fst].
      rewrite decide_True by apply list_elem_of_here. reflexivity.
    + rewrite !fmap_cons, IH. cbn [fst].
      destruct (decide (key ∈ bs.*1)) as [I | I].
      * rewrite decide_True by now apply list_elem_of_further. reflexivity.
      * rewrite decide_False; [reflexivity |].
        intros [-> | ?]%elem_of_cons; [congruence | contradiction].
Qed.

Lemma bucket_add_elem key m bs k ms :
  (k, ms) ∈ bucket_add key m bs ->
  (k, ms) ∈ bs
  \/ (k = key /\ (ms = [m] \/ exists ms0, (key, ms0) ∈ bs /\ ms = ms0 ++ [m])).
Proof.
  induction bs as [| [k0 ms0] bs IH]; cbn [bucket_add].
  - intros [= -> ->]%list_elem_of_singleton. auto.
  - destruct (decide (k0 = key)) as [-> | E].
    + intros [[= -> ->] | H]%elem_of_cons.
      * right. split; [reflexivity |]. right. exists ms0. split; [left | reflexivity].
      * left. now right.
    + intros [[= -> ->] | H]%elem_of_cons.
      * left. left.
      * destruct (IH H) as [I | (-> & [-> | (ms1 & I & ->)])].
        -- left. now right.
        -- auto.
        -- right. split; [reflexivity |]. right. exists ms1. split; [now right | reflexivity].
Qed.

Lemma bucketed_step seen bs m :
  bucketed seen bs ->
  bucketed (seen ++ [m]) (bucket_add (dateToString (Health.timestamp m)) m bs).
Proof.
  intros (N & M & C). set (key := dateToString (Health.timestamp m)).
  split; [| split].
  - rewrite bucket_add_keys. case_decide as I; [exact N |].
    apply NoDup_app. split; [exact N |]. split; [| apply NoDup_singleton].
    intros k Hk ->%list_elem_of_singleton. contradiction.
  - intros k ms [H | (-> & [-> | (ms0 & H & ->)])]%bucket_add_elem.
    + destruct (M k ms H) as [Ne Hm]. split; [exact Ne |].
      intros m' Hm'. destruct (Hm m' Hm') as [S D]. split; [| exact D].
      apply elem_of_app. now left.
    + split; [discriminate |]. intros m' ->%list_elem_of_singleton.
      split; [| reflexivity]. apply elem_of_app. right. left.
    + split; [intros E; now apply app_eq_nil in E as [_ E] |].
      intros m' [Hm' | ->%list_elem_of_singleton]%elem_of_app.
      * destruct (M key ms0 H) as [_ Hm]. destruct (Hm m' Hm') as [S D].
        split; [| exact D]. apply elem_of_app. now left.
      * split; [| reflexivity]. apply elem_of_app. right. left.
  - intros m' Hm'. rewrite bucket_add_keys.
    apply elem_of_app in Hm' as [Hm' | ->%list_elem_of_singleton].
    + specialize (C m' Hm'). case_decide; [exact C |]. apply elem_of_app. now left.
    + fold key. case_decide as I; [exact I |]. apply elem_of_app. right. left.
Qed.

Lemma bucketed_fold docs : forall seen bs,
  bucketed seen bs ->
  bucketed (seen ++ docs)
    (fold_left (fun bs m => bucket_add (dateToString (Health.timestamp m)) m bs) docs bs).
Proof.
  induction docs as [| m docs IH]; intros seen bs B; cbn [fold_left].
  - now rewrite app_nil_r.
  - replace (seen ++ m :: docs) with ((seen ++ [m]) ++ docs)
      by now rewrite <- app_assoc.
    apply IH, bucketed_step, B.
Qed.

Lemma buckets_bucketed docs : bucketed docs (buckets docs).
Proof.
  apply (bucketed_fold docs [] []).
  split; [constructor |]. split; [intros k ms H; inversion H | intros m H; inversion H].
Qed.

Lemma group_stage_ids docs : DailyAverage._id <$> group_stage docs = (buckets docs).*1.
Proof. unfold group_stage. rewrite <- list_fmap_compose. reflexivity. Qed.

Lemma group_stage_elem docs g :
  g ∈ group_stage docs ->
  exists m, m ∈ docs /\ DailyAverage._id g = dateToString (Health.timestamp m)
            /\ DailyAverage.date g = Health.timestamp m.
Proof.
  unfold group_stage. intros ([k ms] & -> & H)%list_elem_of_fmap.
  destruct (buckets_bucketed docs) as (_ & M & _).
  destruct (M k ms H) as [Ne Hm]. destruct ms as [| m ms]; [congruence |].
  destruct (Hm m ltac:(left)) as [S D].
  exists m. cbn. auto.
Qed.

Lemma group_stage_covers docs m :
  m ∈ docs ->
  exists g, g ∈ group_stage docs /\ DailyAverage._id g = dateToString (Health.timestamp m).
Proof.
  intros H. destruct (buckets_bucketed docs) as (_ & _ & C).
  specialize (C m H). rewrite <- group_stage_ids in C.
  apply list_elem_of_fmap in C as (g & E & Hg). eauto.
Qed.

Lemma insert_by_date_perm g gs : insert_by_date g gs ≡ₚ g :: gs.
Proof.
  induction gs as [| h gs IH]; cbn [insert_by_date]; [reflexivity |].
  destruct (DailyAverage.date g <=? DailyAverage.date h); [reflexivity |].
  rewrite IH. apply Permutation_swap.
Qed.

Lemma sort_stage_perm gs : sort_stage gs ≡ₚ gs.
Proof.
  induction gs as [| g gs IH]; [reflexivity |].
  cbn [sort_stage foldr]. fold (sort_stage gs). now rewrite insert_by_date_perm, IH.
Qed.

Lemma insert_by_date_sorted g gs : Sorted by_date gs -> Sorted by_date (insert_by_date g gs).
Proof.
  induction 1 as [| h gs S IH Hd]; cbn [insert_by_date].
  - repeat constructor.
  - destruct (DailyAverage.date g <=? DailyAverage.date h) eqn:E.
    + apply Z.leb_le in E. repeat constructor; assumption.
    + apply Z.leb_gt in E. constructor; [exact IH |].
      destruct Hd as [| h' gs' Hh]; cbn [insert_by_date].
      * constructor. unfold by_date. lia.
      * destruct (DailyAverage.date g <=? DailyAverage.date h');
          constructor; [unfold by_date; lia | exact Hh].
Qed.

Lemma sort_stage_sorted gs : Sorted by_date (sort_stage gs).
Proof.
  induction gs as [| g gs IH]; [constructor |].
  cbn [sort_stage foldr]. apply insert_by_date_sorted, IH.
Qed.

Lemma aggregate_elem userId since docs g :
  g ∈ aggregate userId since docs <-> g ∈ group_stage (match_stage userId since docs).
Proof. unfold aggregate. now rewrite sort_stage_perm. Qed.

Lemma match_stage_elem userId since docs m :
  m ∈ match_stage userId since docs <-> matching userId since m /\ m ∈ docs.
Proof. unfold match_stage. apply list_elem_of_filter. Qed.

Lemma aggregate_ids_NoDup userId since docs :
  NoDup (DailyAverage._id <$> aggregate userId since docs).
Proof.
  unfold aggregate. rewrite sort_stage_perm, group_stage_ids.
  apply buckets_bucketed.
Qed.

Lemma aggregate_sound userId since docs g :
  g ∈ aggregate userId since docs ->
  exists m, m ∈ docs /\ matching userId since m
            /\ DailyAverage._id g = dateToString (Health.timestamp m)
            /\ DailyAverage.date g = Health.timestamp m.
Proof.
  intros (m & Hm & I & D)%aggregate_elem%group_stage_elem.
  apply match_stage_elem in Hm as [Mm Hm]. eauto.
Qed.

Lemma aggregate_complete userId since docs m :
  m ∈ docs -> matching userId since m ->
  exists g, g ∈ aggregate userId since docs
            /\ DailyAverage._id g = dateToString (Health.timestamp m).
Proof.
  intros Hm Mm.
  destruct (group_stage_covers (match_stage userId since docs) m) as (g & Hg & I).
  { apply match_stage_elem. auto. }
  exists g. split; [now apply aggregate_elem | exact I].
Qed.

(** X22. The days of a report are sorted by date, no day occurs twice,
    every day stems from a stored measurement of that user inside the
    window, whose timestamp is the day's date, and every such measurement
    has its day in the report. *)
Theorem report_days userId since docs :
  let days := aggregate userId since docs in
  Sorted (fun g h => DailyAverage.date g <= DailyAverage.date h) days
  /\ NoDup (DailyAverage._id <$> days)
  /\ (forall g, g ∈ days ->
        exists m, m ∈ docs /\ matching userId since m
                  /\ DailyAverage._id g = dateToString (Health.timestamp m)
                  /\ DailyAverage.date g = Health.timestamp m)
  /\ (forall m, m ∈ docs -> matching userId since m ->
        exists g, g ∈ days /\ DailyAverage._id g = dateToString (Health.timestamp m)).
Proof.
  intros days. subst days. split; [apply sort_stage_sorted |].
  split; [apply aggregate_ids_NoDup |].
  split; [apply aggregate_sound | apply aggregate_complete].
Qed.

(** The window *)
Lemma dateToString_day t : dateToString t = dateToString (t / ms_per_day * ms_per_day).
Proof.
  unfold dateToString. now rewrite Z.div_mul by (unfold ms_per_day; lia).
Qed.

(** X23. When none of the user's measurements is dated after [now], the
    report over a window that starts at [since] has at most as many
    entries as there are UTC days from the day of [since] to the day of
    [now], both included; this holds for whatever instant the server's
    calendar gives as the start of the window. *)
Theorem report_days_fit_the_window since now userId docs :
  (forall m, m ∈ docs -> Health.user m = userId -> Health.timestamp m <= now) ->
  Z.of_nat (length (aggregate userId since docs))
  <= Z.max 0 (now / ms_per_day - since / ms_per_day + 1).
Proof.
  intros F.
  set (n := now / ms_per_day - since / ms_per_day + 1).
  assert (L : (length (aggregate userId since docs)
               <= length ((fun k => dateToString (k * ms_per_day))
                            <$> seqZ (since / ms_per_day) n))%nat).
  { rewrite <- (length_fmap DailyAverage._id).
    apply submseteq_length, NoDup_submseteq; [apply aggregate_ids_NoDup |].
    intros k (g & -> & Hg)%list_elem_of_fmap.
    apply aggregate_sound in Hg as (m & Hm & [U S] & -> & _).
    rewrite dateToString_day. apply list_elem_of_fmap.
    exists (Health.timestamp m / ms_per_day). split; [reflexivity |].
    apply elem_of_seqZ. specialize (F m Hm U).
    assert (D : 0 < ms_per_day) by (unfold ms_per_day; lia).
    pose proof (Z.div_le_mono _ _ _ D S). pose proof (Z.div_le_mono _ _ _ D F).
    unfold n. lia. }
  rewrite length_fmap, length_seqZ in L. lia.
Qed.

Lemma report_days_fit_the_window_witness :
  Z.of_nat (length (aggregate "64b7f0c2a1d3e4f5a6b7c8d9" (longWeekNow - 145 * 3600000)
                      longWeek)) <= 8.
Proof.
  apply (report_days_fit_the_window (longWeekNow - 145 * 3600000) longWeekNow
           "64b7f0c2a1d3e4f5a6b7c8d9" longWeek).
  intros m H _. unfold longWeek in H. apply list_elem_of_fmap in H as (k & -> & H).
  apply elem_of_seqZ in H. unfold longWeekNow, ms_per_day. cbn. lia.
Defined.

(** A window of 145 hours that begins half an hour before midnight touches
    eight days, and a measurement on each of them gives eight entries. *)
Example eight_days_in_a_long_week :
  length (aggregate "64b7f0c2a1d3e4f5a6b7c8d9" (longWeekNow - 145 * 3600000) longWeek)
  = 8%nat.
Proof. vm_compute. reflexivity. Qed.

(** X24. A measurement of another user, or one older than the window, does
    not change the report, wherever it sits in the collection. *)
Theorem report_ignores_others userId since pre m post :
  ~ matching userId since m ->
  aggregate userId since (pre ++ m :: post) = aggregate userId since (pre ++ post).
Proof.
  intros N. unfold aggregate, match_stage.
  rewrite !filter_app, filter_cons_False by exact N. reflexivity.
Qed.

Lemma report_ignores_others_witness :
  let mine := measurement "64b7f0c2a1d3e4f5a6b7c8d9" 1700000000000 70 120 80 in
  let other := measurement "64b7f0c2a1d3e4f5a6b7c8da" 1700000000000 90 140 95 in
  aggregate "64b7f0c2a1d3e4f5a6b7c8d9" (sevenDaysAgo 1700100000000) ([mine] ++ other :: [])
  = aggregate "64b7f0c2a1d3e4f5a6b7c8d9" (sevenDaysAgo 1700100000000) ([mine] ++ []).
Proof.
  intros mine other. apply report_ignores_others.
  intros [E _]. discriminate E.
Defined.

(** X25. After a successful save, the weekly report requested at the same
    instant by the same user succeeds and has an entry for the day of the
    save; the reports of all other users are as they were before. *)
Theorem saved_measurement_is_reported now write req db :
  let out := saveMeasurement now write req db in
  res_status out.1 = 200 ->
  res_status (getWeeklyReport now (Resolved ()) (save_user req) out.2) = 200
  /\ exists userId,
       userIdOf (save_user req) = Some userId
       /\ (exists g, g ∈ aggregate userId (sevenDaysAgo now) out.2
                     /\ DailyAverage._id g = dateToString now)
       /\ (forall other since, other <> userId ->
             aggregate other since out.2 = aggregate other since db).
Proof.
  intros out. subst out. unfold saveMeasurement.
  destruct (missingFields req); [discriminate |].
  unfold Health.validate.
  destruct (userIdOf (save_user req)) as [u |] eqn:U; [| discriminate].
  destruct (body_heartRate req) as [h |]; [| discriminate].
  destruct (body_systolic req) as [s |]; [| discriminate].
  destruct (body_diastolic req) as [d |]; [| discriminate].
  destruct (truthy u) eqn:T; [| discriminate].
  destruct write as [v | message]; [| discriminate].
  cbn [fst snd]. intros _. split.
  - unfold getWeeklyReport. rewrite U, T. reflexivity.
  - exists u. split; [reflexivity |]. split.
    + set (m := {| Health.user := u; Health.heartRate := h; Health.systolic := s;
                   Health.diastolic := d; Health.timestamp := now |}).
      apply (aggregate_complete u (sevenDaysAgo now) (db ++ [m]) m).
      * apply elem_of_app. right. left.
      * split; [reflexivity |]. cbn. unfold sevenDaysAgo, ms_per_day. lia.
    + intros other since N. unfold aggregate, match_stage.
      rewrite filter_app, filter_cons_False, filter_nil, app_nil_r; [reflexivity |].
      cbn. intros [E _]. congruence.
Qed.

Lemma saved_measurement_is_reported_witness :
  let out := saveMeasurement 1700000000000 (Resolved ()) goodRequest [] in
  res_status (getWeeklyReport 1700000000000 (Resolved ()) (save_user goodRequest) out.2)
  = 200.
Proof.
  exact (proj1 (saved_measurement_is_reported 1700000000000 (Resolved ()) goodRequest []
                  eq_refl)).
Defined.

(** X26. Without a truthy user id the weekly report answers 400, while
    saving three truthy readings answers 500 and stores nothing. *)
Theorem missing_user_id now query write req db :
  truthy (userIdOf (save_user req)) = false ->
  res_status (getWeeklyReport now query (save_user req) db) = 400
  /\ (missingFields req = false ->
      let out := saveMeasurement now write req db in
      res_status out.1 = 500 /\ out.2 = db).
Proof.
  intros F. split.
  - unfold getWeeklyReport. destruct (userIdOf (save_user req)) as [u |]; [| reflexivity].
    cbn in F. now rewrite F.
  - intros M out. subst out. unfold saveMeasurement. rewrite M.
    unfold Health.validate.
    destruct (userIdOf (save_user req)) as [u |]; [| split; reflexivity].
    cbn in F. rewrite F.
    destruct (body_heartRate req), (body_systolic req), (body_diastolic req);
      split; reflexivity.
Qed.

Lemma missing_user_id_witness :
  let req := {| save_user := {| _id := None; id := Some "" |};
                body_heartRate := Some (num_of_Z 72);
                body_systolic := Some (num_of_Z 118);
                body_diastolic := Some (num_of_Z 76) |} in
  res_status (getWeeklyReport 1700000000000 (Resolved ()) (save_user req) []) = 400
  /\ res_status (saveMeasurement 1700000000000 (Resolved ()) req []).1 = 500.
Proof.
  intros req.
  destruct (missing_user_id 1700000000000 (Resolved ()) (Resolved ()) req [] eq_refl)
    as [A B].
  split; [exact A | exact (proj1 (B eq_refl))].
Defined.
